(** * vantage6.common.context : the application context

    A shallow embedding of [src/vantage6/common/context.py] (class
    [AppContext]) and the properties of it that the specification states.

    Python objects are mutable and an exception leaves every mutation made
    before it in place, so instance methods are computations in a state and
    exception monad whose state survives a raise.  The state is the process
    (file system, root logger, class flag) together with the [self] object.
    Attributes of [self] are optional: reading an attribute that was never
    assigned raises [AttributeError], as in Python. *)

From Stdlib Require Import String Ascii List ZArith Lia Bool DecimalString
  Permutation.
From Stdlib Require DecimalZ.
Import ListNotations.

Local Open Scope string_scope.
Local Open Scope Z_scope.

(** ** Strings *)

Module Str.

Definition chars : string -> list ascii := list_ascii_of_string.
Definition of_chars : list ascii -> string := string_of_list_ascii.

(** [str(n)] for an integer. *)
Definition of_Z (z : Z) : string := NilZero.string_of_int (Z.to_int z).

(** [c * n] for a one-character string [c]. *)
Fixpoint repeat (c : ascii) (n : nat) : string :=
  match n with
  | O => EmptyString
  | S n' => String c (repeat c n')
  end.

(** [s.upper()], on the ASCII letters. *)
Definition upper_char (c : ascii) : ascii :=
  let n := nat_of_ascii c in
  if (Nat.leb 97 n && Nat.leb n 122)%bool then ascii_of_nat (n - 32) else c.

Definition upper (s : string) : string := of_chars (map upper_char (chars s)).

(** [s.endswith(suffix)]. *)
Definition endswith (s suffix : string) : bool :=
  prefix (of_chars (rev (chars suffix))) (of_chars (rev (chars s))).

(** [s.rfind(c)]: the index of the last occurrence of [c]. *)
Fixpoint rfind_from (c : ascii) (l : list ascii) (i : nat) (found : option nat)
  : option nat :=
  match l with
  | [] => found
  | x :: l' =>
      rfind_from c l' (S i) (if Ascii.eqb x c then Some i else found)
  end.

Definition rfind (c : ascii) (s : string) : option nat :=
  rfind_from c (chars s) 0%nat None.

(** [s.split(sep)] for a one-character separator. *)
Fixpoint split_chars (sep : ascii) (l : list ascii) (cur : list ascii)
  : list string :=
  match l with
  | [] => [of_chars (rev cur)]
  | x :: l' =>
      if Ascii.eqb x sep
      then of_chars (rev cur) :: split_chars sep l' []
      else split_chars sep l' (x :: cur)
  end.

Definition split (sep : ascii) (s : string) : list string :=
  split_chars sep (chars s) [].

(** [sep.join(l)]. *)
Fixpoint join (sep : string) (l : list string) : string :=
  match l with
  | [] => EmptyString
  | [x] => x
  | x :: l' => x ++ sep ++ join sep l'
  end.

(** The format specification [{s:^width}]: [s] centred in [width]
    columns, the odd blank going to the right. *)
Definition center (s : string) (width : nat) : string :=
  let n := String.length s in
  if Nat.leb width n then s
  else
    let total := (width - n)%nat in
    let left := Nat.div total 2 in
    repeat " "%char left ++ s ++ repeat " "%char (total - left).

End Str.

(** ** Paths

    [pathlib.Path] in its POSIX flavour: a path is its anchor (absolute or
    not) and its components.  A doubled leading slash and [..] are kept as
    pathlib keeps them, that is, not resolved. *)

Record Path := mkPath { absolute : bool; parts : list string }.

Definition path_eq_dec (p q : Path) : {p = q} + {p <> q}.
Proof.
  decide equality.
  - apply (list_eq_dec string_dec).
  - apply Bool.bool_dec.
Defined.

Definition path_eqb (p q : Path) : bool :=
  if path_eq_dec p q then true else false.

Module PathOps.

Definition is_component (s : string) : bool :=
  negb (String.eqb s EmptyString || String.eqb s ".").

(** [Path(s)] *)
Definition of_string (s : string) : Path :=
  mkPath (prefix "/" s) (filter is_component (Str.split "/"%char s)).

(** [p / s] *)
Definition joinpath (p : Path) (s : string) : Path :=
  let q := of_string s in
  if absolute q then q else mkPath (absolute p) (parts p ++ parts q).

(** [p / q] for a path [q] *)
Definition joinpath_path (p q : Path) : Path :=
  if absolute q then q else mkPath (absolute p) (parts p ++ parts q).

(** [p.parent] *)
Definition parent (p : Path) : Path :=
  mkPath (absolute p) (removelast (parts p)).

(** [p.name] *)
Definition name (p : Path) : string := last (parts p) EmptyString.

(** [p.stem]: the name without its last suffix; a leading or a trailing
    dot does not start a suffix. *)
Definition stem (p : Path) : string :=
  let n := name p in
  match Str.rfind "."%char n with
  | Some i =>
      if (Nat.ltb 0 i && Nat.ltb i (String.length n - 1))%bool
      then substring 0 i n
      else n
  | None => n
  end.

(** [str(p)] *)
Definition to_string (p : Path) : string :=
  match absolute p, parts p with
  | true, l => "/" ++ Str.join "/" l
  | false, [] => "."
  | false, l => Str.join "/" l
  end.

(** The proper prefixes of [p] and [p] itself, shortest first: what
    [os.makedirs] walks through. *)
Fixpoint prefixes_from (a : bool) (done todo : list string) : list Path :=
  match todo with
  | [] => []
  | x :: todo' =>
      mkPath a (done ++ [x]) :: prefixes_from a (done ++ [x]) todo'
  end.

Definition prefixes (p : Path) : list Path :=
  prefixes_from (absolute p) [] (parts p).

End PathOps.

Notation "p // s" := (PathOps.joinpath p s) (at level 40, left associativity).

(** ** Python values

    The values a parsed configuration document holds, and the ones
    attribute lookup on a configuration manager can yield. *)

#[warnings="-register-all"]
Inductive PyVal :=
| VNone
| VBool (b : bool)
| VInt (z : Z)
| VStr (s : string)
| VList (l : list PyVal)
| VDict (d : list (string * PyVal))
| VMethod (qualname : string).

(** A mapping with string keys, as [yaml.safe_load] gives it. *)
Definition Dict := list (string * PyVal).

(** The settings of one environment. *)
Definition Config := Dict.

(** [bool(v)] *)
Definition truthy (v : PyVal) : bool :=
  match v with
  | VNone => false
  | VBool b => b
  | VInt z => negb (z =? 0)
  | VStr s => negb (String.eqb s EmptyString)
  | VList l => match l with [] => false | _ => true end
  | VDict d => match d with [] => false | _ => true end
  | VMethod _ => true
  end.

Fixpoint lookup {A : Type} (k : string) (d : list (string * A)) : option A :=
  match d with
  | [] => None
  | (k', v) :: d' => if String.eqb k k' then Some v else lookup k d'
  end.

(** ** Exceptions *)

Inductive Exn :=
| AssertionError (msg : string)
| AttributeError (attr : string)
| KeyError (key : string)
| TypeError (msg : string)
| OSError (msg : string)
| YAMLError
| KeyboardInterrupt.

(** [isinstance(e, Exception)]: what [except Exception] catches. *)
Definition is_Exception (e : Exn) : bool :=
  match e with
  | KeyboardInterrupt => false
  | _ => true
  end.

Inductive result (A : Type) :=
| Ok (a : A)
| Raise (e : Exn).
Arguments Ok {A} a.
Arguments Raise {A} e.

Definition rbind {A B : Type} (r : result A) (k : A -> result B) : result B :=
  match r with
  | Ok a => k a
  | Raise e => Raise e
  end.

(** ** Operations on values, with the errors Python raises *)

(** [d[k]] on a mapping *)
Definition dict_subscript (d : Dict) (k : string) : result PyVal :=
  match lookup k d with
  | Some v => Ok v
  | None => Raise (KeyError k)
  end.

(** [v[k]] on any value, for a string key: only a mapping accepts it. *)
Definition subscript (v : PyVal) (k : string) : result PyVal :=
  match v with
  | VDict d => dict_subscript d k
  | VMethod _ => Raise (TypeError "object is not subscriptable")
  | VNone => Raise (TypeError "object is not subscriptable")
  | VBool _ => Raise (TypeError "object is not subscriptable")
  | VInt _ => Raise (TypeError "object is not subscriptable")
  | VStr _ => Raise (TypeError "string indices must be integers")
  | VList _ => Raise (TypeError "list indices must be integers")
  end.

(** [d.get(k, default)] on a mapping *)
Definition dict_get (d : Dict) (k : string) (default : PyVal) : PyVal :=
  match lookup k d with
  | Some v => v
  | None => default
  end.

(** [v.get(k, default)] on any value: only a mapping has [get]. *)
Definition value_get (v : PyVal) (k : string) (default : PyVal)
  : result PyVal :=
  match v with
  | VDict d => Ok (dict_get d k default)
  | _ => Raise (AttributeError "get")
  end.

(** [v.upper()] *)
Definition value_upper (v : PyVal) : result string :=
  match v with
  | VStr s => Ok (Str.upper s)
  | _ => Raise (AttributeError "upper")
  end.

(** [1024 * v] for the numbers.  On a string or a list Python repeats the
    sequence instead; that value is no byte count and is rejected here. *)
Definition times_1024 (v : PyVal) : result Z :=
  match v with
  | VInt z => Ok (1024 * z)
  | VBool b => Ok (if b then 1024 else 0)
  | _ => Raise (TypeError "unsupported operand type(s) for *")
  end.

(** [p / v]: a path accepts a string on its right. *)
Definition path_div (p : Path) (v : PyVal) : result Path :=
  match v with
  | VStr s => Ok (p // s)
  | _ => Raise (TypeError "unsupported operand type(s) for /")
  end.

(** [getattr(logging, name)] on the level names of the logging module. *)
Definition logging_level (name : string) : result Z :=
  if String.eqb name "CRITICAL" then Ok 50
  else if String.eqb name "FATAL" then Ok 50
  else if String.eqb name "ERROR" then Ok 40
  else if String.eqb name "WARNING" then Ok 30
  else if String.eqb name "WARN" then Ok 30
  else if String.eqb name "INFO" then Ok 20
  else if String.eqb name "DEBUG" then Ok 10
  else if String.eqb name "NOTSET" then Ok 0
  else Raise (AttributeError name).

Definition INFO : Z := 20.

(** ** The constants of [vantage6.common.globals] and the directory
    convention of [appdirs]

    [APPNAME] is imported from a module that is not among the sources, and
    the roots [appdirs.AppDirs] answers for it depend on the host.
    Both are parameters of the development. *)

Record AppDirsT := {
  user_data_dir : string;
  user_config_dir : string;
  user_log_dir : string;
  site_data_dir : string;
  site_config_dir : string
}.

Class Globals := {
  APPNAME : string;
  AppDirs : string -> string -> AppDirsT
}.

(** ** The configuration manager *)

(** Modelled from the spec: the class [ConfigurationManager] of
    [vantage6.common.configuration_manager] is missing from the sources.
    The spec gives it the parsed document, a top-level mapping of
    environment name to settings, and the members [available_environments]
    (the names), [get(name)] (the settings of that environment) and
    [is_empty] (a manager with no environments); [from_file(path)] loads
    it and can fail.  The code reads its [name], which the spec identifies
    with the instance name, the stem of the file. *)
Record ConfigurationManager := {
  cm_name : string;
  cm_environments : list (string * Config)
}.

Definition available_environments (cm : ConfigurationManager) : list string :=
  map fst (cm_environments cm).

Definition manager_get (cm : ConfigurationManager) (env : string)
  : result Config :=
  match lookup env (cm_environments cm) with
  | Some c => Ok c
  | None => Raise (KeyError env)
  end.

Definition is_empty (cm : ConfigurationManager) : bool :=
  match cm_environments cm with
  | [] => true
  | _ => false
  end.

(** The names the manager class itself defines; attribute lookup finds
    them before anything the document supplies. *)
Definition manager_members : list string :=
  ["name"; "get"; "available_environments"; "is_empty"; "from_file"].

(** Modelled from the spec: [getattr(config_manager, attr)].  A member of
    the class is found under its name; any other name is looked up among
    the environments of the document, where the spec has [config_exists]
    check that the environment is present.  A name that is neither has no
    attribute. *)
Definition manager_getattr (cm : ConfigurationManager) (attr : string)
  : result PyVal :=
  if String.eqb attr "name" then Ok (VStr (cm_name cm))
  else if String.eqb attr "get" then Ok (VMethod "ConfigurationManager.get")
  else if String.eqb attr "available_environments"
  then Ok (VList (map VStr (available_environments cm)))
  else if String.eqb attr "is_empty" then Ok (VBool (is_empty cm))
  else if String.eqb attr "from_file"
  then Ok (VMethod "ConfigurationManager.from_file")
  else match lookup attr (cm_environments cm) with
       | Some c => Ok (VDict c)
       | None => Raise (AttributeError attr)
       end.

(** ** The process: file system, root logger, class flag *)

Inductive FileContent :=
| Unparsable
| Yaml (doc : list (string * Config)).

Inductive Handler :=
| RotatingFileHandler (id : nat) (filename : Path) (maxBytes : Z)
    (backupCount : PyVal) (level : Z) (fmt datefmt : PyVal)
| ColorStreamHandler (id : nat) (level : Z) (fmt datefmt : PyVal).

(** The identity of the handler object. *)
Definition handler_id (h : Handler) : nat :=
  match h with
  | RotatingFileHandler i _ _ _ _ _ _ => i
  | ColorStreamHandler i _ _ _ => i
  end.

Definition handler_level (h : Handler) : Z :=
  match h with
  | RotatingFileHandler _ _ _ _ l _ _ => l
  | ColorStreamHandler _ l _ _ => l
  end.

Record World := mkWorld {
  LOGGING_ENABLED : bool;               (* the class attribute *)
  files : list (Path * FileContent);    (* regular files, absolute paths *)
  directories : list Path;              (* directories, absolute paths *)
  cwd : Path;                           (* os.getcwd() *)
  root_level : Z;                       (* logging.getLogger().level *)
  root_handlers : list Handler;         (* logging.getLogger().handlers *)
  next_id : nat;                        (* identity of the next object *)
  warnings_captured : bool;             (* logging.captureWarnings *)
  delivered : list (nat * string)       (* records handed to handlers *)
}.

Definition with_files (w : World) fs ds : World :=
  mkWorld (LOGGING_ENABLED w) fs ds (cwd w) (root_level w)
    (root_handlers w) (next_id w) (warnings_captured w) (delivered w).

Definition with_root_level (w : World) l : World :=
  mkWorld (LOGGING_ENABLED w) (files w) (directories w) (cwd w) l
    (root_handlers w) (next_id w) (warnings_captured w) (delivered w).

Definition with_root_handlers (w : World) hs : World :=
  mkWorld (LOGGING_ENABLED w) (files w) (directories w) (cwd w)
    (root_level w) hs (next_id w) (warnings_captured w) (delivered w).

Definition with_next_id (w : World) n : World :=
  mkWorld (LOGGING_ENABLED w) (files w) (directories w) (cwd w)
    (root_level w) (root_handlers w) n (warnings_captured w) (delivered w).

Definition with_warnings_captured (w : World) b : World :=
  mkWorld (LOGGING_ENABLED w) (files w) (directories w) (cwd w)
    (root_level w) (root_handlers w) (next_id w) b (delivered w).

Definition with_delivered (w : World) d : World :=
  mkWorld (LOGGING_ENABLED w) (files w) (directories w) (cwd w)
    (root_level w) (root_handlers w) (next_id w) (warnings_captured w) d.

Module FS.

(** [os.path.abspath] *)
Definition abspath (w : World) (p : Path) : Path :=
  PathOps.joinpath_path (cwd w) p.

Fixpoint find_file (p : Path) (fs : list (Path * FileContent))
  : option FileContent :=
  match fs with
  | [] => None
  | (q, c) :: fs' => if path_eqb p q then Some c else find_file p fs'
  end.

Definition is_file (w : World) (p : Path) : bool :=
  match find_file (abspath w p) (files w) with
  | Some _ => true
  | None => false
  end.

Definition is_dir (w : World) (p : Path) : bool :=
  let q := abspath w p in
  match parts q with
  | [] => true
  | _ => existsb (path_eqb q) (directories w)
  end.

(** [Path(p).exists()] *)
Definition exists_ (w : World) (p : Path) : bool :=
  is_file w p || is_dir w p.

(** [os.makedirs(d, exist_ok=True)] for a non-empty [d]: every missing
    directory on the way is created; a regular file on the way is an
    error. *)
Definition makedirs (w : World) (d : Path) : result World :=
  let todo := PathOps.prefixes (abspath w d) in
  if existsb (is_file w) todo
  then Raise (OSError "File exists")
  else Ok (with_files w (files w)
             (directories w ++ filter (fun q => negb (is_dir w q)) todo)).

(** [open(p, 'a')], closed again: the file is created when missing. *)
Definition open_append (w : World) (p : Path) : result World :=
  let q := abspath w p in
  if is_dir w q then Raise (OSError "Is a directory")
  else if is_file w q then Ok w
  else if is_dir w (PathOps.parent q)
  then Ok (with_files w (files w ++ [(q, Unparsable)]) (directories w))
  else Raise (OSError "No such file or directory").

(** [Path(d).glob("*.yaml")]: the entries of directory [d] whose name
    ends in [.yaml], each once, in the order the file system lists
    them, under their absolute paths. *)
Definition matches_yaml (d : Path) (q : Path) : bool :=
  path_eqb (PathOps.parent q) d
  && match parts q with [] => false | _ => true end
  && Str.endswith (PathOps.name q) ".yaml".

Definition glob_yaml (w : World) (d : Path) : list Path :=
  filter (matches_yaml (abspath w d))
    (nodup path_eq_dec (map fst (files w) ++ directories w)).

End FS.

(** Modelled from the spec: [ConfigurationManager.from_file(path)].  It
    reads and parses the file, and raises when the file cannot be read or
    is no document; the manager is named after the stem of the file. *)
Definition from_file (w : World) (path : Path) : result ConfigurationManager :=
  match FS.find_file (FS.abspath w path) (files w) with
  | Some (Yaml doc) =>
      Ok {| cm_name := PathOps.stem path; cm_environments := doc |}
  | Some Unparsable => Raise YAMLError
  | None =>
      if FS.is_dir w path then Raise (OSError "Is a directory")
      else Raise (OSError "No such file or directory")
  end.

(** ** The context object *)

(** The logger [logging.getLogger(name)] hands out, by its name. *)
Definition Logger := string.

(** The attributes of an [AppContext] instance.  [None] is an attribute
    that was never assigned.  [config_manager] and [log] can hold Python's
    [None], which is [Some None] here.  The two attributes the class
    writes as [self.__config_file] and [self.__environment] are stored
    under their mangled names. *)
Record AppContext := mkAppContext {
  name : option string;
  scope : option string;
  log_dir : option Path;
  data_dir : option Path;
  config_dir : option Path;
  _AppContext__config_file : option Path;
  config_manager : option (option ConfigurationManager);
  _AppContext__environment : option string;
  config : option Config;
  log : option (option Logger)
}.

(** [cls.__new__(cls)]: an object with no attribute assigned. *)
Definition new_object : AppContext :=
  mkAppContext None None None None None None None None None None.

Definition set_name (c : AppContext) v : AppContext :=
  mkAppContext (Some v) (scope c) (log_dir c) (data_dir c) (config_dir c)
    (_AppContext__config_file c) (config_manager c)
    (_AppContext__environment c) (config c) (log c).

Definition set_scope (c : AppContext) v : AppContext :=
  mkAppContext (name c) (Some v) (log_dir c) (data_dir c) (config_dir c)
    (_AppContext__config_file c) (config_manager c)
    (_AppContext__environment c) (config c) (log c).

Definition set_log_dir (c : AppContext) v : AppContext :=
  mkAppContext (name c) (scope c) (Some v) (data_dir c) (config_dir c)
    (_AppContext__config_file c) (config_manager c)
    (_AppContext__environment c) (config c) (log c).

Definition set_data_dir (c : AppContext) v : AppContext :=
  mkAppContext (name c) (scope c) (log_dir c) (Some v) (config_dir c)
    (_AppContext__config_file c) (config_manager c)
    (_AppContext__environment c) (config c) (log c).

Definition set_config_dir (c : AppContext) v : AppContext :=
  mkAppContext (name c) (scope c) (log_dir c) (data_dir c) (Some v)
    (_AppContext__config_file c) (config_manager c)
    (_AppContext__environment c) (config c) (log c).

Definition set__config_file (c : AppContext) v : AppContext :=
  mkAppContext (name c) (scope c) (log_dir c) (data_dir c) (config_dir c)
    (Some v) (config_manager c)
    (_AppContext__environment c) (config c) (log c).

Definition set_config_manager (c : AppContext) v : AppContext :=
  mkAppContext (name c) (scope c) (log_dir c) (data_dir c) (config_dir c)
    (_AppContext__config_file c) (Some v)
    (_AppContext__environment c) (config c) (log c).

Definition set__environment (c : AppContext) v : AppContext :=
  mkAppContext (name c) (scope c) (log_dir c) (data_dir c) (config_dir c)
    (_AppContext__config_file c) (config_manager c)
    (Some v) (config c) (log c).

Definition set_config (c : AppContext) v : AppContext :=
  mkAppContext (name c) (scope c) (log_dir c) (data_dir c) (config_dir c)
    (_AppContext__config_file c) (config_manager c)
    (_AppContext__environment c) (Some v) (log c).

Definition set_log (c : AppContext) v : AppContext :=
  mkAppContext (name c) (scope c) (log_dir c) (data_dir c) (config_dir c)
    (_AppContext__config_file c) (config_manager c)
    (_AppContext__environment c) (config c) (Some v).

(** ** The monad of instance methods *)

Definition St := (World * AppContext)%type.

Definition M (A : Type) := St -> result A * St.

Definition ret {A : Type} (a : A) : M A := fun s => (Ok a, s).

Definition bind {A B : Type} (m : M A) (k : A -> M B) : M B :=
  fun s =>
    match m s with
    | (Ok a, s') => k a s'
    | (Raise e, s') => (Raise e, s')
    end.

Definition raise {A : Type} (e : Exn) : M A := fun s => (Raise e, s).

(** A computation that fails or succeeds without touching the state. *)
Definition lift {A : Type} (r : result A) : M A := fun s => (r, s).

Definition get_world : M World := fun s => (Ok (fst s), s).

Definition update_self (f : AppContext -> AppContext) : M unit :=
  fun s => (Ok tt, (fst s, f (snd s))).

Definition update_world (f : World -> World) : M unit :=
  fun s => (Ok tt, (f (fst s), snd s)).

(** A step on the process that can fail, leaving it as it was. *)
Definition try_world (f : World -> result World) : M unit :=
  fun s =>
    match f (fst s) with
    | Ok w' => (Ok tt, (w', snd s))
    | Raise e => (Raise e, s)
    end.

(** [self.attr] *)
Definition getattr {A : Type} (attr : string) (proj : AppContext -> option A)
  : M A :=
  fun s =>
    match proj (snd s) with
    | Some a => (Ok a, s)
    | None => (Raise (AttributeError attr), s)
    end.

(** [assert cond, msg] *)
Definition assert (cond : bool) (msg : string) : M unit :=
  if cond then ret tt else raise (AssertionError msg).

Declare Scope py_scope.
Delimit Scope py_scope with py.
Notation "x <- m ;; k" := (bind m (fun x => k))
  (at level 61, m at next level, right associativity) : py_scope.
Notation "m ;; k" := (bind m (fun _ => k))
  (at level 61, right associativity) : py_scope.
Local Open Scope py_scope.

(** Attribute lookup on [self], without state. *)
Definition read {A : Type} (attr : string) (proj : AppContext -> option A)
  (self : AppContext) : result A :=
  match proj self with
  | Some a => Ok a
  | None => Raise (AttributeError attr)
  end.

(** [bool(self.config_manager)] on an assigned attribute: the manager
    object is true, [None] is false. *)
Definition manager_truthy (m : option ConfigurationManager) : bool :=
  match m with
  | Some _ => true
  | None => false
  end.

(** A member of the manager read through an attribute that may hold
    [None]. *)
Definition manager_member (attr : string) (m : option ConfigurationManager)
  : result ConfigurationManager :=
  match m with
  | Some cm => Ok cm
  | None => Raise (AttributeError attr)
  end.

(** ** The methods of [AppContext] *)

Record Folders := {
  log_folder : Path;      (* "log" *)
  data_folder : Path;     (* "data" *)
  config_folder : Path    (* "config" *)
}.

(** [AppContext.instance_folders] *)
Definition instance_folders `{Globals} (instance_type instance_name : string)
  (system_folders : bool) : Folders :=
  let d := AppDirs APPNAME EmptyString in
  if system_folders then
    {| log_folder := PathOps.of_string (site_data_dir d) // instance_type;
       data_folder :=
         PathOps.of_string (site_data_dir d) // instance_type // instance_name;
       config_folder :=
         PathOps.of_string (site_config_dir d) // instance_type |}
  else
    {| log_folder := PathOps.of_string (user_log_dir d) // instance_type;
       data_folder :=
         PathOps.of_string (user_data_dir d) // instance_type // instance_name;
       config_folder :=
         PathOps.of_string (user_config_dir d) // instance_type |}.

(** [AppContext.set_folders] *)
Definition set_folders `{Globals} (instance_type instance_name : string)
  (system_folders : bool) : M unit :=
  let dirs := instance_folders instance_type instance_name system_folders in
  update_self (fun c => set_log_dir c (log_folder dirs)) ;;
  update_self (fun c => set_data_dir c (data_folder dirs)) ;;
  update_self (fun c => set_config_dir c (config_folder dirs)).

(** [AppContext.docker_temporary_volume_name] *)
Definition docker_temporary_volume_name `{Globals} (self : AppContext)
  (run_id : Z) : result string :=
  rbind (read "name" name self) (fun n =>
  rbind (read "scope" scope self) (fun s =>
  Ok (APPNAME ++ "-" ++ n ++ "-" ++ s ++ "-" ++ Str.of_Z run_id ++ "-tmpvol"))).

(** [AppContext.docker_container_name] *)
Definition docker_container_name `{Globals} (self : AppContext)
  : result string :=
  rbind (read "name" name self) (fun n =>
  rbind (read "scope" scope self) (fun s =>
  Ok (APPNAME ++ "-" ++ n ++ "-" ++ s))).

(** [AppContext.docker_network_name] *)
Definition docker_network_name `{Globals} (self : AppContext)
  : result string :=
  rbind (read "name" name self) (fun n =>
  rbind (read "scope" scope self) (fun s =>
  Ok (APPNAME ++ "-" ++ n ++ "-" ++ s))).

(** [AppContext.log_file] *)
Definition log_file (self : AppContext) : result Path :=
  rbind (read "config_manager" config_manager self) (fun cm =>
  if negb (manager_truthy cm)
  then Raise (AssertionError
                "Log file unkown as configuration manager not initialized")
  else
  rbind (read "config" config self) (fun cfg =>
  let default :=
    rbind (manager_member "name" cm) (fun m =>
    rbind (read "_AppContext__environment" _AppContext__environment self)
      (fun env =>
    rbind (read "scope" scope self) (fun sc =>
    let file_ := cm_name m ++ "-" ++ env ++ "-" ++ sc ++ " + .log" in
    rbind (read "log_dir" log_dir self) (fun d =>
    Ok (d // file_))))) in
  let logging := dict_get cfg "logging" VNone in
  if truthy logging then
    rbind (value_get logging "file" VNone) (fun f =>
    if truthy f then
      rbind (read "log_dir" log_dir self) (fun d => path_div d f)
    else default)
  else default)).

(** [AppContext.config_file_name] *)
Definition config_file_name (self : AppContext) : result string :=
  rbind (read "_AppContext__config_file" _AppContext__config_file self)
    (fun p => Ok (PathOps.stem p)).

(** [AppContext.config_file] (getter) *)
Definition config_file (self : AppContext) : result Path :=
  read "_AppContext__config_file" _AppContext__config_file self.

(** [AppContext.environment] (getter) *)
Definition environment (self : AppContext) : result string :=
  read "_AppContext__environment" _AppContext__environment self.

(** A property of [self] evaluated in the course of a method. *)
Definition property {A : Type} (p : AppContext -> result A) : M A :=
  fun s => (p (snd s), s).

(** *** Logging *)

(** A new object takes the next free identity. *)
Definition fresh_id : M nat :=
  fun s =>
    (Ok (next_id (fst s)), (with_next_id (fst s) (S (next_id (fst s))), snd s)).

(** [Logger.addHandler] on the root logger: the handler is appended unless
    that very object is attached already. *)
Definition addHandler (h : Handler) : M unit :=
  update_world (fun w =>
    if existsb (fun h' => Nat.eqb (handler_id h') (handler_id h))
         (root_handlers w)
    then w
    else with_root_handlers w (root_handlers w ++ [h])).

(** [log.info(msg)] on a logger below the root that has no level and no
    handler of its own: the record goes to every handler of the root
    logger whose level admits it. *)
Definition info (msg : string) : M unit :=
  update_world (fun w =>
    if root_level w <=? INFO then
      with_delivered w
        (delivered w ++
         map (fun h => (handler_id h, msg))
           (filter (fun h => handler_level h <=? INFO) (root_handlers w)))
    else w).

(** [os.makedirs(os.path.dirname(p), exist_ok=True)]: the directory name
    of a path of one relative component is the empty string, which
    [makedirs] refuses. *)
Definition makedirs_dirname (p : Path) : M unit :=
  let d := PathOps.parent p in
  match absolute d, parts d with
  | false, [] => raise (OSError "No such file or directory")
  | _, _ => try_world (fun w => FS.makedirs w d)
  end.

(** [AppContext.setup_logging].  The format strings are stored in the
    handlers as the configuration gives them. *)
Definition setup_logging `{Globals} : M unit :=
  cfg <- getattr "config" config ;;
  log_config <- lift (dict_subscript cfg "logging") ;;
  level_name <- lift (subscript log_config "level") ;;
  level_upper <- lift (value_upper level_name) ;;
  level <- lift (logging_level level_upper) ;;
  format_ <- lift (subscript log_config "format") ;;
  datefmt <- lift (value_get log_config "datefmt" (VStr EmptyString)) ;;
  (* make sure the log-file exists *)
  lf <- property log_file ;;
  makedirs_dirname lf ;;
  (* the root logger *)
  update_world (fun w => with_root_level w level) ;;
  (* RotatingFileHandler *)
  lf' <- property log_file ;;
  max_size <- lift (subscript log_config "max_size") ;;
  maxBytes <- lift (times_1024 max_size) ;;
  backupCount <- lift (subscript log_config "backup_count") ;;
  rfh <- fresh_id ;;
  try_world (fun w => FS.open_append w lf') ;;
  w <- get_world ;;
  addHandler (RotatingFileHandler rfh (FS.abspath w lf') maxBytes backupCount
                level format_ datefmt) ;;
  (* the console *)
  use_console <- lift (subscript log_config "use_console") ;;
  (if truthy use_console then
     ch <- fresh_id ;;
     addHandler (ColorStreamHandler ch level format_ datefmt)
   else ret tt) ;;
  update_world (fun w => with_warnings_captured w true) ;;
  (* the banner *)
  info (Str.repeat "#"%char 80) ;;
  info ("#" ++ Str.center APPNAME 78 ++ "#") ;;
  info (Str.repeat "#"%char 80) ;;
  env <- property environment ;;
  info ("Started application " ++ APPNAME ++ " with environment " ++ env) ;;
  w <- get_world ;;
  info ("Current working directory is '" ++ PathOps.to_string (cwd w) ++ "'") ;;
  cf <- property config_file ;;
  info ("Succesfully loaded configuration from '"
        ++ PathOps.to_string cf ++ "'") ;;
  lf'' <- property log_file ;;
  info ("Logging to '" ++ PathOps.to_string lf'' ++ "'") ;;
  update_self (fun c => set_log c (Some "context")).

(** *** The two setters *)

(** [AppContext.config_file] (setter) *)
Definition config_file_setter (path : Path) : M unit :=
  w <- get_world ;;
  assert (FS.exists_ w path)
    ("config " ++ PathOps.to_string path ++ " not found") ;;
  update_self (fun c => set__config_file c path) ;;
  cm <- lift (from_file w path) ;;
  update_self (fun c => set_config_manager c (Some cm)).

(** [AppContext.environment] (setter) *)
Definition environment_setter `{Globals} (env : string) : M unit :=
  cm <- getattr "config_manager" config_manager ;;
  assert (manager_truthy cm)
    "Environment set before ConfigurationManager is initialized..." ;;
  m <- lift (manager_member "available_environments" cm) ;;
  assert (existsb (String.eqb env) (available_environments m))
    ("Requested environment " ++ env ++ " is not found in the configuration") ;;
  update_self (fun c => set__environment c env) ;;
  cfg <- lift (manager_get m env) ;;
  update_self (fun c => set_config c cfg) ;;
  w <- get_world ;;
  if LOGGING_ENABLED w then setup_logging else ret tt.

(** *** Construction *)

(** [AppContext.__init__] *)
Definition __init__ `{Globals} (instance_type instance_name : string)
  (system_folders : bool) (environment : string) : M unit :=
  update_self (fun c => set_name c instance_name) ;;
  update_self (fun c =>
    set_scope c (if system_folders then "system" else "user")) ;;
  set_folders instance_type instance_name system_folders ;;
  d <- getattr "config_dir" config_dir ;;
  config_file_setter (d // (instance_name ++ ".yaml")) ;;
  environment_setter environment ;;
  update_self (fun c => set_log c None).

(** The object a method leaves behind, when it returns. *)
Definition returning_self (r : result unit * St) : result AppContext * World :=
  match r with
  | (Ok _, (w, self)) => (Ok self, w)
  | (Raise e, (w, _)) => (Raise e, w)
  end.

(** The construction of a new instance, [type.__call__] on the class:
    [cls.__new__(cls)] and then [__init__] on the new object.  This is not
    yet the call [AppContext(...)]: the class has the metaclass [Singleton]
    (line 20), which runs the construction only while the class has no
    instance; the call is [AppContext_call] below. *)
Definition AppContext_new `{Globals} (w : World)
  (instance_type instance_name : string) (system_folders : bool)
  (environment : string) : result AppContext * World :=
  returning_self
    (__init__ instance_type instance_name system_folders environment
       (w, new_object)).

(** Modelled from the spec: the metaclass [Singleton] of [vantage6.common]
    (lines 12 and 20), whose code is not among the sources.  The spec has
    the class keep its first instance: "a second construction attempt
    returns the existing instance rather than creating a new one", and a
    construction that fails does "not create a singleton instance usable
    for further calls".  [registered] is the entry of the class in the
    registry of the metaclass: the instance the class has, as it is when
    the call is made, or [None] while it has none.  The call
    [AppContext(instance_type, instance_name, system_folders, environment)]
    answers the instance, and leaves the process and the registry behind. *)
Definition AppContext_call `{Globals} (registered : option AppContext)
  (w : World) (instance_type instance_name : string) (system_folders : bool)
  (environment : string) : result AppContext * (World * option AppContext) :=
  match registered with
  | Some first => (Ok first, (w, Some first))
  | None =>
      match AppContext_new w instance_type instance_name system_folders
              environment with
      | (Ok self, w') => (Ok self, (w', Some self))
      | (Raise e, w') => (Raise e, (w', None))
      end
  end.

(** [AppContext.from_external_config_file] *)
Definition from_external_config_file `{Globals} (w : World) (path : Path)
  (instance_type : string) (environment : string) (system_folders : bool)
  : result AppContext * World :=
  let instance_name := PathOps.stem path in
  returning_self
    ((set_folders instance_type instance_name system_folders ;;
      update_self (fun c => set_config_dir c (PathOps.parent path)) ;;
      config_file_setter path ;;
      environment_setter environment) (w, new_object)).

(** *** Discovery *)

(** [AppContext.config_exists] *)
Definition config_exists `{Globals} (w : World)
  (instance_type instance_name environment : string) (system_folders : bool)
  : result bool :=
  let d := AppDirs APPNAME EmptyString in
  let config_dir :=
    if system_folders then site_config_dir d else user_config_dir d in
  let config_file :=
    PathOps.of_string config_dir // instance_type
      // (instance_name ++ ".yaml") in
  if negb (FS.exists_ w config_file) then Ok false
  else
    rbind (from_file w config_file) (fun config_manager =>
    rbind (manager_getattr config_manager environment) (fun v =>
    Ok (truthy v))).

(** The body of the [try] statement of [available_configurations]. *)
Definition try_load (w : World) (file_ : Path)
  (configs : list ConfigurationManager) (failed : list Path)
  : result (list ConfigurationManager * list Path) :=
  rbind (from_file w file_) (fun conf_manager =>
  if is_empty conf_manager then Ok (configs, (failed ++ [file_])%list)
  else Ok ((configs ++ [conf_manager])%list, failed)).

(** The [for] loop of [available_configurations], with its
    [except Exception] clause. *)
Fixpoint scan_configurations (w : World) (config_files : list Path)
  (configs : list ConfigurationManager) (failed : list Path)
  : result (list ConfigurationManager * list Path) :=
  match config_files with
  | [] => Ok (configs, failed)
  | file_ :: rest =>
      match try_load w file_ configs failed with
      | Ok (configs', failed') => scan_configurations w rest configs' failed'
      | Raise e =>
          if is_Exception e
          then scan_configurations w rest configs (failed ++ [file_])%list
          else Raise e
      end
  end.

(** [AppContext.available_configurations] *)
Definition available_configurations `{Globals} (w : World)
  (instance_type : string) (system_folders : bool)
  : result (list ConfigurationManager * list Path) :=
  let folders := instance_folders instance_type EmptyString system_folders in
  let config_files := FS.glob_yaml w (config_folder folders) in
  scan_configurations w config_files [] [].

(** ** A host, a configuration file and a process to run the code on *)

Module Example.

(** The roots [appdirs] answers on Linux for a user whose home is
    [/home/alice]. *)
Definition linux : Globals := {|
  APPNAME := "vantage6";
  AppDirs := fun appname _ => {|
    user_data_dir := "/home/alice/.local/share/" ++ appname;
    user_config_dir := "/home/alice/.config/" ++ appname;
    user_log_dir := "/home/alice/.cache/" ++ appname ++ "/log";
    site_data_dir := "/usr/local/share/" ++ appname;
    site_config_dir := "/etc/xdg/" ++ appname
  |}
|}.

Definition logging_section (level : string) (console : bool) : PyVal :=
  VDict [("level", VStr level);
         ("format", VStr "%(asctime)s - %(name)-14s - %(message)s");
         ("max_size", VInt 1024);
         ("backup_count", VInt 5);
         ("use_console", VBool console)].

(** [prod] and [test] leave the name of the log file to the default;
    [acc] names it. *)
Definition prod : Config :=
  [("api_key", VStr "secret-prod"); ("logging", logging_section "debug" true)].

Definition test : Config :=
  [("port", VInt 5000); ("logging", logging_section "info" false)].

Definition acc : Config :=
  [("logging",
    VDict [("level", VStr "warning");
           ("format", VStr "%(message)s");
           ("max_size", VInt 10);
           ("backup_count", VInt 1);
           ("use_console", VBool false);
           ("file", VStr "acceptance.log")])].

Definition document : list (string * Config) :=
  [("prod", prod); ("test", test); ("acc", acc)].

Definition config_root : Path :=
  PathOps.of_string "/home/alice/.config/vantage6/node".

Definition node1_yaml : Path := config_root // "node1.yaml".
Definition broken_yaml : Path := config_root // "broken.yaml".
Definition blank_yaml : Path := config_root // "blank.yaml".
Definition notes_txt : Path := config_root // "notes.txt".

(** A server configuration whose one environment has no settings yet. *)
Definition server_root : Path :=
  PathOps.of_string "/home/alice/.config/vantage6/server".

Definition draft_yaml : Path := server_root // "draft.yaml".

(** A process that has not set up logging yet.  The node folder holds
    one good configuration file, one that does not parse, one without
    environments, and a file that is no configuration at all; the server
    folder holds the draft. *)
Definition world (logging_enabled : bool) : World := {|
  LOGGING_ENABLED := logging_enabled;
  files := [(node1_yaml, Yaml document);
            (broken_yaml, Unparsable);
            (blank_yaml, Yaml []);
            (notes_txt, Unparsable);
            (draft_yaml, Yaml [("dev", [])])];
  directories := (PathOps.prefixes config_root ++ [server_root])%list;
  cwd := PathOps.of_string "/home/alice";
  root_level := 30;
  root_handlers := [];
  next_id := 0%nat;
  warnings_captured := false;
  delivered := []
|}.

(** The manager [from_file] loads from [node1.yaml]. *)
Definition manager : ConfigurationManager :=
  {| cm_name := "node1"; cm_environments := document |}.

(** A context as [__init__] leaves it up to the assignment of
    [environment]. *)
Definition loaded : AppContext := {|
  name := Some "node1";
  scope := Some "user";
  log_dir := Some (PathOps.of_string "/home/alice/.cache/vantage6/log/node");
  data_dir :=
    Some (PathOps.of_string "/home/alice/.local/share/vantage6/node/node1");
  config_dir := Some config_root;
  _AppContext__config_file := Some node1_yaml;
  config_manager := Some (Some manager);
  _AppContext__environment := None;
  config := None;
  log := None
|}.

End Example.

(** ** Notions the properties are stated with *)

(** The [file] entry of the [logging] section, when the section is a
    mapping and both the section and the entry are true values: the value
    [log_file] takes for the file name in place of the default. *)
Definition file_override (cfg : Config) : option PyVal :=
  match dict_get cfg "logging" VNone with
  | VDict d =>
      if truthy (VDict d) && truthy (dict_get d "file" VNone)
      then Some (dict_get d "file" VNone)
      else None
  | _ => None
  end.

(** Every handler on the root logger is an object that exists already:
    its identity was handed out before. *)
Definition handlers_known (w : World) : Prop :=
  Forall (fun h => (handler_id h < next_id w)%nat) (root_handlers w).

(** The object [from_external_config_file] hands to the setter of
    [environment], once the file has loaded. *)
Definition external_loaded `{Globals} (path : Path) (instance_type : string)
  (system_folders : bool) (cm : ConfigurationManager) : AppContext :=
  let dirs :=
    instance_folders instance_type (PathOps.stem path) system_folders in
  set_config_manager
    (set__config_file
       (set_config_dir
          (set_config_dir
             (set_data_dir (set_log_dir new_object (log_folder dirs))
                (data_folder dirs))
             (config_folder dirs))
          (PathOps.parent path))
       path)
    (Some cm).

(** The manager a candidate file yields to [available_configurations]:
    the file loads and the manager is not empty. *)
Definition usable (w : World) (file_ : Path) : option ConfigurationManager :=
  match from_file w file_ with
  | Ok cm => if is_empty cm then None else Some cm
  | Raise _ => None
  end.

Definition is_usable (w : World) (file_ : Path) : bool :=
  match usable w file_ with
  | Some _ => true
  | None => false
  end.

(** The file [config_exists] looks for. *)
Definition expected_config_file `{Globals} (instance_type instance_name : string)
  (system_folders : bool) : Path :=
  PathOps.of_string
    (if system_folders then site_config_dir (AppDirs APPNAME EmptyString)
     else user_config_dir (AppDirs APPNAME EmptyString))
  // instance_type // (instance_name ++ ".yaml").

(** A string that is one component of a path: not empty, not a dot, and
    without a slash. *)
Definition plain_component (s : string) : Prop :=
  s <> EmptyString /\ s <> "." /\ ~ In "/"%char (Str.chars s).

(** [keeps f m]: the computation [m] never changes what [f] reads of
    [self], whether it returns or raises. *)
Definition keeps {X A : Type} (f : AppContext -> X) (m : M A) : Prop :=
  forall s, f (snd (snd (m s))) = f (snd s).

(** [wkeeps f m]: the computation [m] never changes what [f] reads of the
    process. *)
Definition wkeeps {X A : Type} (f : World -> X) (m : M A) : Prop :=
  forall s, f (fst (snd (m s))) = f (fst s).

(** The object [__init__] hands to the setter of [environment], once the
    file has loaded. *)
Definition init_loaded `{Globals} (instance_type instance_name : string)
  (system_folders : bool) (cm : ConfigurationManager) : AppContext :=
  let dirs := instance_folders instance_type instance_name system_folders in
  set_config_manager
    (set__config_file
       (set_config_dir
          (set_data_dir
             (set_log_dir
                (set_scope (set_name new_object instance_name)
                   (if system_folders then "system" else "user"))
                (log_folder dirs))
             (data_folder dirs))
          (config_folder dirs))
       (config_folder dirs // (instance_name ++ ".yaml")))
    (Some cm).

(** Nothing that was in the file system is gone or rewritten: the files
    are the old ones, in place, followed by new ones, and so are the
    directories. *)
Definition files_kept (w w' : World) : Prop :=
  (exists more, files w' = (files w ++ more)%list) /\
  (exists more, directories w' = (directories w ++ more)%list).

(** The root logger after [addHandler]. *)
Definition attach (h : Handler) (w : World) : World :=
  if existsb (fun h' => Nat.eqb (handler_id h') (handler_id h))
       (root_handlers w)
  then w
  else with_root_handlers w (root_handlers w ++ [h]).

(** The process after [log.info(msg)]. *)
Definition deliver (msg : string) (w : World) : World :=
  if root_level w <=? INFO then
    with_delivered w
      (delivered w ++
       map (fun h => (handler_id h, msg))
         (filter (fun h => handler_level h <=? INFO) (root_handlers w)))
  else w.

Definition deliver_all (msgs : list string) (w : World) : World :=
  fold_left (fun w' msg => deliver msg w') msgs w.

(** The seven lines [setup_logging] writes once the handlers are
    attached. *)
Definition banner `{Globals} (env : string) (cwd_ cf lf : Path) : list string :=
  [Str.repeat "#"%char 80;
   "#" ++ Str.center APPNAME 78 ++ "#";
   Str.repeat "#"%char 80;
   "Started application " ++ APPNAME ++ " with environment " ++ env;
   "Current working directory is '" ++ PathOps.to_string cwd_ ++ "'";
   "Succesfully loaded configuration from '" ++ PathOps.to_string cf ++ "'";
   "Logging to '" ++ PathOps.to_string lf ++ "'"].

(** The process [setup_logging] leaves when it returns, from the process
    [w2] in which the log file has just been opened: the file handler,
    object number [rfh], and the console handler if asked for are
    attached, warnings are captured and the banner is written. *)
Definition logged `{Globals} (w2 : World) (rfh : nat) (lf : Path)
  (maxBytes : Z) (backupCount : PyVal) (level : Z)
  (format_ datefmt use_console : PyVal) (env : string) (cf : Path) : World :=
  let w3 :=
    attach (RotatingFileHandler rfh (FS.abspath w2 lf) maxBytes backupCount
              level format_ datefmt) w2 in
  let w4 :=
    if truthy use_console
    then attach (ColorStreamHandler (next_id w3) level format_ datefmt)
           (with_next_id w3 (S (next_id w3)))
    else w3 in
  deliver_all (banner env (cwd w4) cf lf) (with_warnings_captured w4 true).

(** The process in which [setup_logging] opens the log file, from the
    process [w1] in which the folder has just been made. *)
Definition leveled (w1 : World) (level : Z) : World :=
  with_next_id (with_root_level w1 level) (S (next_id w1)).

(** What [setup_logging] reads from [self] and the settings, and finds
    in the file system, when it returns. *)
Record SetupRun := {
  run_cfg : Config;
  run_section : PyVal;
  run_level_name : PyVal;
  run_level : Z;
  run_format : PyVal;
  run_datefmt : PyVal;
  run_log_file : Path;
  run_max_size : PyVal;
  run_maxBytes : Z;
  run_backupCount : PyVal;
  run_use_console : PyVal;
  run_env : string;
  run_config_file : Path;
  run_made : World;        (* after os.makedirs *)
  run_opened : World       (* after the log file is opened *)
}.

Definition setup_run (w : World) (self : AppContext) (r : SetupRun) : Prop :=
  config self = Some (run_cfg r) /\
  dict_subscript (run_cfg r) "logging" = Ok (run_section r) /\
  subscript (run_section r) "level" = Ok (run_level_name r) /\
  rbind (value_upper (run_level_name r)) logging_level = Ok (run_level r) /\
  subscript (run_section r) "format" = Ok (run_format r) /\
  value_get (run_section r) "datefmt" (VStr EmptyString)
    = Ok (run_datefmt r) /\
  log_file self = Ok (run_log_file r) /\
  (absolute (PathOps.parent (run_log_file r)) = true \/
   parts (PathOps.parent (run_log_file r)) <> []) /\
  FS.makedirs w (PathOps.parent (run_log_file r)) = Ok (run_made r) /\
  subscript (run_section r) "max_size" = Ok (run_max_size r) /\
  times_1024 (run_max_size r) = Ok (run_maxBytes r) /\
  subscript (run_section r) "backup_count" = Ok (run_backupCount r) /\
  FS.open_append (leveled (run_made r) (run_level r)) (run_log_file r)
    = Ok (run_opened r) /\
  subscript (run_section r) "use_console" = Ok (run_use_console r) /\
  environment self = Ok (run_env r) /\
  config_file self = Ok (run_config_file r).

(** The process such a run ends in. *)
Definition run_result `{Globals} (r : SetupRun) : World :=
  logged (run_opened r) (next_id (run_made r)) (run_log_file r)
    (run_maxBytes r) (run_backupCount r) (run_level r) (run_format r)
    (run_datefmt r) (run_use_console r) (run_env r) (run_config_file r).

(** * Properties *)

(** ** Reasoning about monadic code *)

Lemma bind_Ok {A B : Type} (m : M A) (k : A -> M B) s a s' :
  m s = (Ok a, s') -> bind m k s = k a s'.
Proof. intros E. unfold bind. now rewrite E. Qed.

Lemma bind_Raise {A B : Type} (m : M A) (k : A -> M B) s e s' :
  m s = (Raise e, s') -> bind m k s = (Raise e, s').
Proof. intros E. unfold bind. now rewrite E. Qed.

(** A sequence that returns went through both of its halves. *)
Lemma bind_returns {A B : Type} (m : M A) (k : A -> M B) s b s' :
  bind m k s = (Ok b, s') ->
  exists a s1, m s = (Ok a, s1) /\ k a s1 = (Ok b, s').
Proof.
  unfold bind. destruct (m s) as [[a | e] s1]; intros E.
  - now exists a, s1.
  - discriminate.
Qed.

Lemma lift_returns {A : Type} (r : result A) s a s' :
  lift r s = (Ok a, s') -> r = Ok a /\ s' = s.
Proof. unfold lift. intros E. inversion E. now subst. Qed.

Lemma property_returns {A : Type} (p : AppContext -> result A) s a s' :
  property p s = (Ok a, s') -> p (snd s) = Ok a /\ s' = s.
Proof. unfold property. intros E. inversion E. now subst. Qed.

Lemma getattr_returns {A : Type} attr (proj : AppContext -> option A) s a s' :
  getattr attr proj s = (Ok a, s') -> proj (snd s) = Some a /\ s' = s.
Proof.
  unfold getattr. destruct (proj (snd s)); intros E; inversion E. now subst.
Qed.

Lemma assert_returns cond msg s u s' :
  assert cond msg s = (Ok u, s') -> cond = true /\ s' = s.
Proof.
  unfold assert. destruct cond; cbv [ret raise]; intros E; inversion E.
  now subst.
Qed.

Lemma try_world_returns f s u s' :
  try_world f s = (Ok u, s') -> exists w', f (fst s) = Ok w' /\ s' = (w', snd s).
Proof.
  unfold try_world. destruct (f (fst s)) as [w' | e]; intros E; inversion E.
  now exists w'.
Qed.

Section Keeps.

Context {X : Type} (f : AppContext -> X).

Lemma keeps_ret {A} (a : A) : keeps f (ret a).
Proof. now intros s. Qed.

Lemma keeps_raise {A} e : keeps f (@raise A e).
Proof. now intros s. Qed.

Lemma keeps_lift {A} (r : result A) : keeps f (lift r).
Proof. now intros s. Qed.

Lemma keeps_property {A} (p : AppContext -> result A) : keeps f (property p).
Proof. now intros s. Qed.

Lemma keeps_get_world : keeps f get_world.
Proof. now intros s. Qed.

Lemma keeps_update_world g : keeps f (update_world g).
Proof. now intros s. Qed.

Lemma keeps_fresh_id : keeps f fresh_id.
Proof. now intros s. Qed.

Lemma keeps_try_world g : keeps f (try_world g).
Proof. intros s. unfold try_world. now destruct (g (fst s)). Qed.

Lemma keeps_getattr {A} attr (proj : AppContext -> option A) :
  keeps f (getattr attr proj).
Proof. intros s. unfold getattr. now destruct (proj (snd s)). Qed.

Lemma keeps_assert cond msg : keeps f (assert cond msg).
Proof. intros s. unfold assert. now destruct cond. Qed.

Lemma keeps_addHandler h : keeps f (addHandler h).
Proof. now intros s. Qed.

Lemma keeps_info msg : keeps f (info msg).
Proof. now intros s. Qed.

Lemma keeps_update_self g :
  (forall c, f (g c) = f c) -> keeps f (update_self g).
Proof. intros Hg s. apply Hg. Qed.

Lemma keeps_bind {A B} (m : M A) (k : A -> M B) :
  keeps f m -> (forall a, keeps f (k a)) -> keeps f (bind m k).
Proof.
  intros Hm Hk s. unfold bind.
  specialize (Hm s). destruct (m s) as [[a | e] s1]; cbn in *.
  - now rewrite Hk.
  - exact Hm.
Qed.

Lemma keeps_if {A} (b : bool) (m1 m2 : M A) :
  keeps f m1 -> keeps f m2 -> keeps f (if b then m1 else m2).
Proof. now destruct b. Qed.

Lemma keeps_makedirs_dirname p : keeps f (makedirs_dirname p).
Proof.
  unfold makedirs_dirname.
  destruct (absolute (PathOps.parent p)), (parts (PathOps.parent p));
    auto using keeps_raise, keeps_try_world.
Qed.

End Keeps.

Create HintDb keeps.
#[export] Hint Resolve keeps_ret keeps_raise keeps_lift keeps_property
  keeps_get_world keeps_update_world keeps_fresh_id keeps_try_world
  keeps_getattr keeps_assert keeps_addHandler keeps_info keeps_if
  keeps_makedirs_dirname : keeps.

(** Splits a sequence into its steps and closes the steps that cannot
    touch [self]; what is left are the assignments to attributes. *)
Ltac keeps_steps :=
  repeat first
    [ solve [ auto with keeps ]
    | apply keeps_bind; [ | intros ? ]
    | apply keeps_if ].

(** [setup_logging] assigns [self.log] and nothing else. *)
Lemma keeps_setup_logging `{Globals} {X : Type} (f : AppContext -> X) :
  (forall c v, f (set_log c v) = f c) -> keeps f setup_logging.
Proof.
  intros Hf. unfold setup_logging. keeps_steps.
  apply keeps_update_self. intros c. apply Hf.
Qed.

(** [set_folders] assigns the three directories and nothing else. *)
Lemma keeps_set_folders `{Globals} {X : Type} (f : AppContext -> X) t n sf :
  (forall c v, f (set_log_dir c v) = f c) ->
  (forall c v, f (set_data_dir c v) = f c) ->
  (forall c v, f (set_config_dir c v) = f c) ->
  keeps f (set_folders t n sf).
Proof.
  intros H1 H2 H3. unfold set_folders. keeps_steps;
    apply keeps_update_self; intros c; auto.
Qed.

(** The setter of [config_file] assigns the file and the manager. *)
Lemma keeps_config_file_setter {X : Type} (f : AppContext -> X) path :
  (forall c v, f (set__config_file c v) = f c) ->
  (forall c v, f (set_config_manager c v) = f c) ->
  keeps f (config_file_setter path).
Proof.
  intros H1 H2. unfold config_file_setter. keeps_steps;
    apply keeps_update_self; intros c; auto.
Qed.

(** The setter of [environment] assigns the environment, the settings
    and, through [setup_logging], the logger. *)
Lemma keeps_environment_setter `{Globals} {X : Type} (f : AppContext -> X) env :
  (forall c v, f (set__environment c v) = f c) ->
  (forall c v, f (set_config c v) = f c) ->
  (forall c v, f (set_log c v) = f c) ->
  keeps f (environment_setter env).
Proof.
  intros H1 H2 H3. unfold environment_setter.
  repeat (apply keeps_bind; [ | intros ? ]); auto with keeps;
    try (apply keeps_update_self; intros c; auto).
  apply keeps_if; auto with keeps. now apply keeps_setup_logging.
Qed.

(** ** Paths *)

Lemma split_chars_no_sep sep l : forall cur,
  ~ In sep l ->
  Str.split_chars sep l cur = [Str.of_chars (rev cur ++ l)].
Proof.
  induction l as [ | x l IH]; intros cur Hsep; cbn.
  - now rewrite app_nil_r.
  - destruct (Ascii.eqb x sep) eqn:E.
    + apply Ascii.eqb_eq in E. subst. exfalso. apply Hsep. now left.
    + rewrite IH; [ | intros Hin; apply Hsep; now right ].
      cbn [rev]. now rewrite <- app_assoc.
Qed.

(** Joining a path with one component appends the component. *)
Lemma joinpath_component (p : Path) (s : string) :
  plain_component s ->
  p // s = mkPath (absolute p) (parts p ++ [s]).
Proof.
  intros (Hne & Hdot & Hslash).
  unfold PathOps.joinpath, PathOps.of_string, Str.split.
  rewrite (split_chars_no_sep _ _ [] Hslash). cbn [rev app].
  unfold Str.of_chars, Str.chars. rewrite string_of_list_ascii_of_string.
  assert (Hcomp : PathOps.is_component s = true).
  { unfold PathOps.is_component.
    destruct (String.eqb_spec s EmptyString); [ contradiction | ].
    destruct (String.eqb_spec s "."); [ contradiction | reflexivity ]. }
  assert (Hrel : prefix "/" s = false).
  { destruct s as [ | c s']; [ contradiction | ]. cbn [prefix].
    destruct (ascii_dec "/" c) as [<- | Hc]; [ | reflexivity ].
    exfalso. apply Hslash. now left. }
  cbn [filter absolute parts]. rewrite Hcomp, Hrel. reflexivity.
Qed.

(** With plain names the folders nest as their names say: the data
    folder of an instance lies in a folder named after the instance type,
    and the configuration file of [__init__] lies in the config folder. *)
Lemma instance_folders_nesting `{Globals} t n sf :
  plain_component t -> plain_component n ->
  PathOps.name (data_folder (instance_folders t n sf)) = n /\
  PathOps.name (PathOps.parent (data_folder (instance_folders t n sf))) = t /\
  PathOps.name (log_folder (instance_folders t n sf)) = t /\
  PathOps.name (config_folder (instance_folders t n sf)) = t.
Proof.
  intros Ht Hn.
  destruct sf; cbn [instance_folders log_folder data_folder config_folder];
    rewrite ?(joinpath_component _ n Hn), ?(joinpath_component _ t Ht);
    unfold PathOps.name, PathOps.parent; cbn [parts absolute];
    rewrite ?removelast_last, ?last_last; repeat split; reflexivity.
Qed.

(** ** Path resolution *)

(** C8: [instance_folders] is a function of its three arguments and the
    directory convention alone (it takes no process state and returns
    none).  With [system_folders] the log folder is the site data root
    joined with the instance type, the data folder is that joined with
    the instance name, and the config folder is the site config root
    joined with the instance type; without it the three roots are the
    user log, user data and user config roots. *)
Theorem instance_folders_layout `{Globals} (instance_type instance_name : string) :
  let d := AppDirs APPNAME EmptyString in
  instance_folders instance_type instance_name true =
    {| log_folder := PathOps.of_string (site_data_dir d) // instance_type;
       data_folder :=
         PathOps.of_string (site_data_dir d) // instance_type // instance_name;
       config_folder := PathOps.of_string (site_config_dir d) // instance_type |}
  /\
  instance_folders instance_type instance_name false =
    {| log_folder := PathOps.of_string (user_log_dir d) // instance_type;
       data_folder :=
         PathOps.of_string (user_data_dir d) // instance_type // instance_name;
       config_folder := PathOps.of_string (user_config_dir d) // instance_type |}.
Proof. split; reflexivity. Qed.

(** The config folder does not depend on the instance name, and with
    system folders the data folder lies in the log folder. *)
Lemma instance_folders_config_any_name `{Globals} t n n' sf :
  config_folder (instance_folders t n sf)
  = config_folder (instance_folders t n' sf).
Proof. now destruct sf. Qed.

Lemma instance_folders_system_data `{Globals} t n :
  data_folder (instance_folders t n true)
  = log_folder (instance_folders t n true) // n.
Proof. reflexivity. Qed.

(** ** Derived names *)

(** [__init__] assigns [name] and [scope] first and nothing after that
    changes them, whether the construction succeeds or not. *)
Lemma init_name_scope `{Globals} t n sf env s :
  let self' := snd (snd (__init__ t n sf env s)) in
  name self' = Some n /\
  scope self' = Some (if sf then "system" else "user").
Proof.
  cbn zeta. unfold __init__.
  set (rest :=
    (set_folders t n sf ;;
     d <- getattr "config_dir" config_dir ;;
     config_file_setter (d // (n ++ ".yaml")) ;;
     environment_setter env ;;
     update_self (fun c => set_log c None))).
  assert (Hrest : forall X (f : AppContext -> X),
    (forall c v, f (set_log_dir c v) = f c) ->
    (forall c v, f (set_data_dir c v) = f c) ->
    (forall c v, f (set_config_dir c v) = f c) ->
    (forall c v, f (set__config_file c v) = f c) ->
    (forall c v, f (set_config_manager c v) = f c) ->
    (forall c v, f (set__environment c v) = f c) ->
    (forall c v, f (set_config c v) = f c) ->
    (forall c v, f (set_log c v) = f c) ->
    keeps f rest).
  { intros X f F1 F2 F3 F4 F5 F6 F7 F8. unfold rest.
    apply keeps_bind; [ now apply keeps_set_folders | intros _ ].
    apply keeps_bind; [ auto with keeps | intros d ].
    apply keeps_bind; [ now apply keeps_config_file_setter | intros _ ].
    apply keeps_bind; [ now apply keeps_environment_setter | intros _ ].
    apply keeps_update_self. intros c. apply F8. }
  split.
  - change (name (snd (snd (rest
      (fst s, set_scope (set_name (snd s) n)
                (if sf then "system" else "user"))))) = Some n).
    now rewrite (Hrest _ name).
  - change (scope (snd (snd (rest
      (fst s, set_scope (set_name (snd s) n)
                (if sf then "system" else "user")))))
            = Some (if sf then "system" else "user")).
    now rewrite (Hrest _ scope).
Qed.

(** A call [AppContext(...)] that returns: the class had an instance and
    the call answered it, or it had none and a construction returned.  In
    both cases the class has the answered instance from then on. *)
Lemma AppContext_call_returns `{Globals} registered w t n sf env self w'
  registered' :
  AppContext_call registered w t n sf env = (Ok self, (w', registered')) ->
  registered' = Some self /\
  match registered with
  | Some first => self = first /\ w' = w
  | None => AppContext_new w t n sf env = (Ok self, w')
  end.
Proof.
  unfold AppContext_call. destruct registered as [first | ].
  - intros E. inversion E. now repeat split.
  - destruct (AppContext_new w t n sf env) as [[self0 | e] w0];
      intros E; inversion E. now split.
Qed.

(** A construction that raises leaves the class without an instance. *)
Lemma AppContext_call_raises `{Globals} w t n sf env e w' :
  AppContext_new w t n sf env = (Raise e, w') ->
  AppContext_call None w t n sf env = (Raise e, (w', None)).
Proof. unfold AppContext_call. now intros ->. Qed.

(** A construction that returns gives the class its instance. *)
Lemma AppContext_call_first `{Globals} w t n sf env self w' :
  AppContext_new w t n sf env = (Ok self, w') ->
  AppContext_call None w t n sf env = (Ok self, (w', Some self)).
Proof. unfold AppContext_call. now intros ->. Qed.

(** C9: on every context the container name and the network name are
    the same, and the temporary volume name of a run is built from the
    same parts.  Where [name] and [scope] are assigned, both names are the
    string [APPNAME-name-scope] and the volume name of a run is that
    string followed by [-run_id-tmpvol], [-42-tmpvol] for run 42.  They
    are assigned on every context a construction makes: when the class has
    no instance yet, the context [AppContext(...)] returns has the
    instance name as [name] and ["system"] or ["user"] as [scope]; when
    the class has an instance, the call returns that instance, whose
    names are built from the [name] and [scope] it has. *)
Theorem docker_names `{Globals} (self : AppContext) (run_id : Z) :
  docker_network_name self = docker_container_name self
  /\
  (forall n sc,
     name self = Some n -> scope self = Some sc ->
     docker_container_name self = Ok (APPNAME ++ "-" ++ n ++ "-" ++ sc) /\
     docker_network_name self = Ok (APPNAME ++ "-" ++ n ++ "-" ++ sc) /\
     docker_temporary_volume_name self run_id
       = Ok (APPNAME ++ "-" ++ n ++ "-" ++ sc ++ "-"
             ++ Str.of_Z run_id ++ "-tmpvol") /\
     docker_temporary_volume_name self 42
       = Ok (APPNAME ++ "-" ++ n ++ "-" ++ sc ++ "-42-tmpvol"))
  /\
  (forall registered w w' registered' instance_type instance_name
          system_folders env,
     AppContext_call registered w instance_type instance_name system_folders
       env = (Ok self, (w', registered')) ->
     match registered with
     | Some first => self = first
     | None =>
         name self = Some instance_name /\
         scope self = Some (if system_folders then "system" else "user")
     end).
Proof.
  split; [ reflexivity | split ].
  - intros n sc Hn Hs.
    unfold docker_container_name, docker_network_name,
      docker_temporary_volume_name, read.
    rewrite Hn, Hs. cbn [rbind]. repeat split; reflexivity.
  - intros registered w w' registered' t n sf env E.
    apply AppContext_call_returns in E. destruct E as [_ E].
    destruct registered as [first | ]; [ now destruct E | ].
    unfold AppContext_new, returning_self in E.
    pose proof (init_name_scope t n sf env (w, new_object)) as [Hn Hs].
    destruct (__init__ t n sf env (w, new_object))
      as [[u | e] [w1 self1]]; [ | discriminate ].
    inversion E; subst. now split.
Qed.

(** C9 on the example host: the first call makes the node [node1] in
    user scope. *)
Lemma docker_names_witness :
  exists self w',
    @AppContext_call Example.linux None (Example.world true) "node" "node1"
      false "prod" = (Ok self, (w', Some self)) /\
    @docker_container_name Example.linux self = Ok "vantage6-node1-user" /\
    @docker_network_name Example.linux self = Ok "vantage6-node1-user" /\
    @docker_temporary_volume_name Example.linux self 42
      = Ok "vantage6-node1-user-42-tmpvol".
Proof.
  destruct (@AppContext_call Example.linux None (Example.world true) "node"
              "node1" false "prod") as [r [w' registered']] eqn:E.
  destruct r as [self | e]; [ | vm_compute in E; discriminate ].
  destruct (@AppContext_call_returns Example.linux _ _ _ _ _ _ _ _ _ E)
    as [-> _].
  exists self, w'. split; [ reflexivity | ].
  destruct (@docker_names Example.linux self 42) as (_ & Hnames & Hnew).
  destruct (Hnew _ _ _ _ _ _ _ _ E) as [Hn Hs].
  destruct (Hnames _ _ Hn Hs) as (Hc & Hnet & _ & Hv).
  rewrite Hnet, Hc, Hv. repeat split; reflexivity.
Defined.

(** ** The setter of [config_file] *)

Lemma existsb_eqb_In (x : string) (l : list string) :
  existsb (String.eqb x) l = true <-> In x l.
Proof.
  rewrite existsb_exists. split.
  - intros (y & Hy & E). apply String.eqb_eq in E. now subst.
  - intros Hx. exists x. split; [ exact Hx | apply String.eqb_refl ].
Qed.

Lemma existsb_eqb_not_In (x : string) (l : list string) :
  ~ In x l -> existsb (String.eqb x) l = false.
Proof.
  intros Hx. destruct (existsb (String.eqb x) l) eqn:E; [ | reflexivity ].
  apply existsb_eqb_In in E. contradiction.
Qed.

Lemma config_file_setter_absent (w : World) (self : AppContext) (path : Path) :
  FS.exists_ w path = false ->
  config_file_setter path (w, self)
  = (Raise (AssertionError
              ("config " ++ PathOps.to_string path ++ " not found")),
     (w, self)).
Proof.
  intros E. cbv [config_file_setter bind get_world assert fst snd].
  now rewrite E.
Qed.

Lemma config_file_setter_present (w : World) (self : AppContext) (path : Path) :
  FS.exists_ w path = true ->
  config_file_setter path (w, self)
  = match from_file w path with
    | Ok cm =>
        (Ok tt, (w, set_config_manager (set__config_file self path) (Some cm)))
    | Raise e => (Raise e, (w, set__config_file self path))
    end.
Proof.
  intros E.
  cbv [config_file_setter bind get_world assert fst snd ret update_self lift].
  rewrite E. now destruct (from_file w path).
Qed.

(** C3: assigning a path to [config_file] raises the assertion error
    "config <path> not found" when nothing exists at the path, leaving the
    object as it was, so that the construction of a context whose
    configuration file is missing, which [AppContext(...)] runs while the
    class has no instance, aborts with that error and leaves the class
    without an instance; and whenever the assignment returns, the path is
    stored and the manager loaded from that very file is stored with it.
    The assignment does return when the file exists and loads. *)
Theorem config_file_setter_spec `{Globals} (w : World) (self : AppContext) (path : Path) :
  (FS.exists_ w path = false ->
   config_file_setter path (w, self)
   = (Raise (AssertionError
               ("config " ++ PathOps.to_string path ++ " not found")),
      (w, self)))
  /\
  (forall instance_type instance_name system_folders env,
     path = config_folder
              (instance_folders instance_type instance_name system_folders)
            // (instance_name ++ ".yaml") ->
     FS.exists_ w path = false ->
     AppContext_call None w instance_type instance_name system_folders env
     = (Raise (AssertionError
                 ("config " ++ PathOps.to_string path ++ " not found")),
        (w, None)))
  /\
  (forall s', config_file_setter path (w, self) = (Ok tt, s') ->
     exists cm,
       FS.exists_ w path = true /\
       from_file w path = Ok cm /\
       fst s' = w /\
       _AppContext__config_file (snd s') = Some path /\
       config_manager (snd s') = Some (Some cm) /\
       snd s' = set_config_manager (set__config_file self path) (Some cm))
  /\
  (forall cm, FS.exists_ w path = true -> from_file w path = Ok cm ->
     config_file_setter path (w, self)
     = (Ok tt, (w, set_config_manager (set__config_file self path) (Some cm)))).
Proof.
  split; [ | split; [ | split ] ].
  - apply config_file_setter_absent.
  - intros t n sf env -> E. apply AppContext_call_raises.
    unfold AppContext_new, returning_self, __init__.
    cbv [bind update_self set_folders getattr fst snd].
    cbn [config_dir set_config_dir].
    now rewrite config_file_setter_absent.
  - intros s' E. destruct (FS.exists_ w path) eqn:Ex.
    + rewrite config_file_setter_present in E by exact Ex.
      destruct (from_file w path) as [cm | e]; [ | discriminate ].
      inversion E; subst. exists cm. cbn. repeat split; reflexivity.
    + rewrite config_file_setter_absent in E by exact Ex. discriminate.
  - intros cm Ex Ef. rewrite config_file_setter_present by exact Ex.
    now rewrite Ef.
Qed.

(** C3 on the example process: [node2.yaml] does not exist, [node1.yaml]
    does. *)
Lemma config_file_setter_spec_witness :
  @AppContext_call Example.linux None (Example.world true) "node" "node2" false
    "prod"
  = (Raise (AssertionError
      "config /home/alice/.config/vantage6/node/node2.yaml not found"),
     (Example.world true, None))
  /\
  config_file_setter Example.node1_yaml (Example.world true, new_object)
  = (Ok tt,
     (Example.world true,
      set_config_manager (set__config_file new_object Example.node1_yaml)
        (Some Example.manager))).
Proof.
  pose proof (@config_file_setter_spec Example.linux (Example.world true)
                new_object (Example.config_root // "node2.yaml"))
    as (_ & Hnew & _ & _).
  pose proof (@config_file_setter_spec Example.linux (Example.world true)
                new_object Example.node1_yaml)
    as (_ & _ & _ & Hok).
  split.
  - apply (Hnew "node" "node2" false "prod"); reflexivity.
  - apply (Hok Example.manager); reflexivity.
Defined.

(** ** The setter of [environment] *)

Lemma environment_setter_checked `{Globals} (w : World) (self : AppContext) cm env cfg :
  config_manager self = Some (Some cm) ->
  existsb (String.eqb env) (available_environments cm) = true ->
  manager_get cm env = Ok cfg ->
  environment_setter env (w, self)
  = if LOGGING_ENABLED w
    then setup_logging (w, set_config (set__environment self env) cfg)
    else (Ok tt, (w, set_config (set__environment self env) cfg)).
Proof.
  intros Hcm Hin Hget.
  cbv [environment_setter bind getattr fst snd assert ret lift update_self
       get_world manager_truthy manager_member].
  rewrite Hcm, Hin, Hget. now destruct (LOGGING_ENABLED w).
Qed.

Lemma manager_get_available cm env :
  In env (available_environments cm) ->
  exists cfg, manager_get cm env = Ok cfg /\
              lookup env (cm_environments cm) = Some cfg.
Proof.
  unfold available_environments, manager_get.
  induction (cm_environments cm) as [ | [k v] d IH]; cbn; [ easy | ].
  intros [-> | Hin].
  - rewrite String.eqb_refl. now exists v.
  - destruct (String.eqb env k); [ now exists v | auto ].
Qed.

(** C2: assigning [environment] fails when no configuration manager is
    loaded: an attribute that was never assigned cannot be read
    ([AttributeError]), and one that holds [None] fails the first
    assertion, "Environment set before ConfigurationManager is
    initialized...".  With a manager loaded, a name the manager does not
    list fails the second assertion, whose message "Requested environment
    <name> is not found in the configuration" names it; the construction
    of a context over an existing file that lacks the environment, which
    [AppContext(...)] runs while the class has no instance, ends in that
    error and leaves the class without an instance.  Each failure leaves
    the object and the process as they were before the assignment. *)
Theorem environment_setter_fails `{Globals} (w : World) (self : AppContext) (env : string) :
  (config_manager self = None ->
   environment_setter env (w, self)
   = (Raise (AttributeError "config_manager"), (w, self)))
  /\
  (config_manager self = Some None ->
   environment_setter env (w, self)
   = (Raise (AssertionError
        "Environment set before ConfigurationManager is initialized..."),
      (w, self)))
  /\
  (forall cm,
     config_manager self = Some (Some cm) ->
     ~ In env (available_environments cm) ->
     environment_setter env (w, self)
     = (Raise (AssertionError
          ("Requested environment " ++ env
           ++ " is not found in the configuration")),
        (w, self)))
  /\
  (forall instance_type instance_name system_folders cm,
     let path :=
       config_folder
         (instance_folders instance_type instance_name system_folders)
       // (instance_name ++ ".yaml") in
     FS.exists_ w path = true ->
     from_file w path = Ok cm ->
     ~ In env (available_environments cm) ->
     AppContext_call None w instance_type instance_name system_folders env
     = (Raise (AssertionError
          ("Requested environment " ++ env
           ++ " is not found in the configuration")),
        (w, None))).
Proof.
  assert (Hmissing : forall self0 cm,
    config_manager self0 = Some (Some cm) ->
    ~ In env (available_environments cm) ->
    environment_setter env (w, self0)
    = (Raise (AssertionError
         ("Requested environment " ++ env
          ++ " is not found in the configuration")),
       (w, self0))).
  { intros self0 cm Hcm Hin.
    cbv [environment_setter bind getattr fst snd assert ret raise lift
         manager_truthy manager_member].
    rewrite Hcm. now rewrite (existsb_eqb_not_In _ _ Hin). }
  split; [ | split; [ | split ] ].
  - intros Hcm. cbv [environment_setter bind getattr fst snd]. now rewrite Hcm.
  - intros Hcm.
    cbv [environment_setter bind getattr fst snd assert raise manager_truthy].
    now rewrite Hcm.
  - now apply Hmissing.
  - intros t n sf cm path Ex Ef Hin. apply AppContext_call_raises.
    unfold AppContext_new, returning_self, __init__.
    cbv [bind update_self set_folders getattr fst snd].
    cbn [config_dir set_config_dir].
    fold path. rewrite (config_file_setter_present _ _ _ Ex), Ef.
    rewrite Hmissing with (cm := cm); [ reflexivity | reflexivity | exact Hin ].
Qed.

(** C2 on the example process: a new object has no manager, and the
    example file has no environment [dev]. *)
Lemma environment_setter_fails_witness :
  @environment_setter Example.linux "prod" (Example.world true, new_object)
  = (Raise (AttributeError "config_manager"), (Example.world true, new_object))
  /\
  @environment_setter Example.linux "prod"
    (Example.world true, set_config_manager new_object None)
  = (Raise (AssertionError
       "Environment set before ConfigurationManager is initialized..."),
     (Example.world true, set_config_manager new_object None))
  /\
  @environment_setter Example.linux "dev" (Example.world true, Example.loaded)
  = (Raise (AssertionError
       "Requested environment dev is not found in the configuration"),
     (Example.world true, Example.loaded))
  /\
  @AppContext_call Example.linux None (Example.world true) "node" "node1" false
    "dev"
  = (Raise (AssertionError
       "Requested environment dev is not found in the configuration"),
     (Example.world true, None)).
Proof.
  assert (Hdev : ~ In "dev" (available_environments Example.manager)).
  { cbn. intros [E | [E | [E | []]]]; discriminate. }
  pose proof (@environment_setter_fails Example.linux (Example.world true)
                new_object "prod") as (H1 & _).
  pose proof (@environment_setter_fails Example.linux (Example.world true)
                (set_config_manager new_object None) "prod") as (_ & H2 & _).
  pose proof (@environment_setter_fails Example.linux (Example.world true)
                Example.loaded "dev") as (_ & _ & H3 & H4).
  split; [ | split; [ | split ] ].
  - apply H1. reflexivity.
  - apply H2. reflexivity.
  - apply (H3 Example.manager); [ reflexivity | exact Hdev ].
  - apply (H4 "node" "node1" false Example.manager);
      [ reflexivity | reflexivity | exact Hdev ].
Defined.

(** ** The log file *)

(** With every attribute in place and no override, the name of the log
    file is the one the format string of [log_file] spells out. *)
Lemma log_file_default (self : AppContext) cm cfg env sc d :
  config_manager self = Some (Some cm) ->
  config self = Some cfg ->
  file_override cfg = None ->
  (forall v, lookup "logging" cfg = Some v ->
             truthy v = true -> exists m, v = VDict m) ->
  _AppContext__environment self = Some env ->
  scope self = Some sc ->
  log_dir self = Some d ->
  log_file self
  = Ok (d // (cm_name cm ++ "-" ++ env ++ "-" ++ sc ++ " + .log")).
Proof.
  intros Hcm Hcfg Hover Hdict Henv Hsc Hd.
  unfold log_file, read. rewrite Hcm, Hcfg. cbn [rbind manager_truthy negb].
  unfold manager_member. cbn [rbind]. rewrite Henv, Hsc, Hd. cbn [rbind].
  unfold file_override, dict_get in *.
  destruct (lookup "logging" cfg) as [v | ] eqn:El; [ | reflexivity ].
  destruct (truthy v) eqn:Et; [ | reflexivity ].
  destruct (Hdict v eq_refl Et) as [m ->].
  rewrite Et in Hover. cbn [andb value_get rbind] in *.
  unfold dict_get.
  destruct (truthy match lookup "file" m with Some v => v | None => VNone end);
    [ discriminate | reflexivity ].
Qed.

(** An override that is a string names the log file. *)
Lemma log_file_override (self : AppContext) cm cfg f d :
  config_manager self = Some (Some cm) ->
  config self = Some cfg ->
  file_override cfg = Some (VStr f) ->
  log_dir self = Some d ->
  log_file self = Ok (d // f).
Proof.
  intros Hcm Hcfg Hover Hd.
  unfold log_file, read. rewrite Hcm, Hcfg. cbn [rbind manager_truthy negb].
  unfold file_override in Hover.
  destruct (dict_get cfg "logging" VNone) as [ | | | | | m | ];
    try discriminate.
  destruct (truthy (VDict m)); [ | discriminate ].
  cbn [andb value_get rbind] in *.
  destruct (truthy (dict_get m "file" VNone)); [ | discriminate ].
  inversion Hover as [Hf]. rewrite Hf, Hd. reflexivity.
Qed.

(** C4: on the example context, active environment [prod] of instance
    [node1] in user scope, whose [logging] section has no [file] key,
    [log_file] is the log folder joined with ["node1-prod-user + .log"]:
    the text [ + .log] stands inside the format string.  It is not the
    log folder joined with ["node1-prod-user.log"].  In environment [acc],
    whose section names a file, that name is used. *)
Theorem log_file_default_name_stray :
  let self := set_config (set__environment Example.loaded "prod") Example.prod in
  let self_acc :=
    set_config (set__environment Example.loaded "acc") Example.acc in
  let log_folder := PathOps.of_string "/home/alice/.cache/vantage6/log/node" in
  file_override Example.prod = None /\
  log_file self = Ok (log_folder // "node1-prod-user + .log") /\
  log_file self <> Ok (log_folder // "node1-prod-user.log") /\
  log_file self_acc = Ok (log_folder // "acceptance.log").
Proof.
  cbn zeta. split; [ reflexivity | ].
  split; [ | split ].
  - apply (log_file_default _ Example.manager Example.prod "prod" "user");
      try reflexivity.
    intros v E Hv. cbv in E. inversion E. eauto.
  - vm_compute. intros E. discriminate E.
  - now apply (log_file_override _ Example.manager Example.acc).
Qed.

(** ** Contexts made by [from_external_config_file] *)

(** Without [scope] the default name cannot be built. *)
Lemma log_file_unscoped_raises (self : AppContext) cm cfg d env :
  config_manager self = Some (Some cm) ->
  config self = Some cfg ->
  lookup "logging" cfg = Some (VDict d) ->
  truthy (dict_get d "file" VNone) = false ->
  _AppContext__environment self = Some env ->
  scope self = None ->
  log_file self = Raise (AttributeError "scope").
Proof.
  intros Hcm Hcfg Hl Hf Henv Hsc.
  unfold log_file, read. rewrite Hcm, Hcfg. cbn [rbind manager_truthy negb].
  unfold manager_member. cbn [rbind]. rewrite Henv, Hsc. cbn [rbind].
  unfold dict_get at 1 2. rewrite Hl.
  destruct (truthy (VDict d)); [ | reflexivity ].
  cbn [value_get rbind]. now rewrite Hf.
Qed.

(** Without [scope], [log_file] returns only through an override. *)
Lemma log_file_unscoped_returns (self : AppContext) p :
  scope self = None ->
  log_file self = Ok p ->
  exists cfg f, config self = Some cfg /\ file_override cfg = Some f.
Proof.
  intros Hsc. unfold log_file, read.
  destruct (config_manager self) as [cm | ]; [ | discriminate ].
  cbn [rbind]. destruct (negb (manager_truthy cm)); [ discriminate | ].
  destruct (config self) as [cfg | ]; [ | discriminate ].
  cbn [rbind]. rewrite Hsc.
  assert (Hdefault :
    rbind (manager_member "name" cm) (fun m =>
    rbind match _AppContext__environment self with
          | Some a => Ok a
          | None => Raise (AttributeError "_AppContext__environment")
          end (fun env =>
    rbind (@Raise string (AttributeError "scope")) (fun sc =>
    rbind match log_dir self with
          | Some a => Ok a
          | None => Raise (AttributeError "log_dir")
          end (fun d =>
    Ok (d // (cm_name m ++ "-" ++ env ++ "-" ++ sc ++ " + .log"))))))
    <> Ok p).
  { destruct (manager_member "name" cm); cbn [rbind]; [ | discriminate ].
    destruct (_AppContext__environment self); cbn [rbind]; discriminate. }
  intros E. exists cfg. unfold file_override.
  destruct (dict_get cfg "logging" VNone) as [ | b | z | s | l | m | q ];
    cbn [value_get rbind] in E;
    try (destruct (truthy _); [ discriminate | contradiction ]).
  destruct (truthy (VDict m)); [ | contradiction ].
  cbn [rbind andb] in *.
  destruct (truthy (dict_get m "file" VNone)); [ eauto | contradiction ].
Qed.

(** [setup_logging] returns only if [log_file] does. *)
Lemma setup_logging_needs_log_file `{Globals} s u s' :
  setup_logging s = (Ok u, s') -> exists p, log_file (snd s) = Ok p.
Proof.
  unfold setup_logging. intros E.
  apply bind_returns in E. destruct E as (cfg & s1 & E1 & E).
  apply getattr_returns in E1. destruct E1 as [_ ->].
  do 6 (apply bind_returns in E; destruct E as (? & ? & E1 & E);
        apply lift_returns in E1; destruct E1 as [_ ->]).
  apply bind_returns in E. destruct E as (p & s1 & E1 & E).
  apply property_returns in E1. destruct E1 as [E1 _]. now exists p.
Qed.

(** [setup_logging] on a well-formed section gets as far as [log_file]. *)
Lemma setup_logging_stops_at_log_file `{Globals} w self cfg d level_name level
  format_ e :
  config self = Some cfg ->
  lookup "logging" cfg = Some (VDict d) ->
  lookup "level" d = Some (VStr level_name) ->
  logging_level (Str.upper level_name) = Ok level ->
  lookup "format" d = Some format_ ->
  log_file self = Raise e ->
  setup_logging (w, self) = (Raise e, (w, self)).
Proof.
  intros Hcfg Hl Hlevel Hnum Hfmt Hlog.
  cbv [setup_logging bind getattr lift property fst snd dict_subscript
       subscript value_upper value_get].
  now rewrite Hcfg, Hl, Hlevel, Hnum, Hfmt, Hlog.
Qed.

(** The setter of [environment] returns only after its two checks, and
    then it did what [environment_setter_checked] says. *)
Lemma environment_setter_returns `{Globals} w self env u s' :
  environment_setter env (w, self) = (Ok u, s') ->
  exists cm cfg,
    config_manager self = Some (Some cm) /\
    manager_get cm env = Ok cfg /\
    (if LOGGING_ENABLED w
     then setup_logging (w, set_config (set__environment self env) cfg)
     else (Ok tt, (w, set_config (set__environment self env) cfg)))
    = (Ok u, s').
Proof.
  intros E.
  destruct (config_manager self) as [[cm | ] | ] eqn:Hcm.
  - destruct (existsb (String.eqb env) (available_environments cm)) eqn:Hin.
    + destruct (manager_get_available cm env) as (cfg & Hget & _);
        [ now apply existsb_eqb_In | ].
      exists cm, cfg. repeat split; try assumption.
      now rewrite <- (environment_setter_checked w self cm env cfg).
    + revert E.
      cbv [environment_setter bind getattr fst snd assert ret raise lift
           manager_truthy manager_member].
      rewrite Hcm, Hin. discriminate.
  - revert E.
    cbv [environment_setter bind getattr fst snd assert raise manager_truthy].
    rewrite Hcm. discriminate.
  - revert E. cbv [environment_setter bind getattr fst snd]. rewrite Hcm.
    discriminate.
Qed.

Lemma from_external_config_file_steps `{Globals} w path t env sf :
  from_external_config_file w path t env sf
  = if FS.exists_ w path then
      match from_file w path with
      | Ok cm =>
          returning_self (environment_setter env (w, external_loaded path t sf cm))
      | Raise e => (Raise e, w)
      end
    else (Raise (AssertionError
                   ("config " ++ PathOps.to_string path ++ " not found")), w).
Proof.
  unfold from_external_config_file, returning_self.
  cbv [bind update_self set_folders fst snd].
  destruct (FS.exists_ w path) eqn:Ex.
  - rewrite (config_file_setter_present _ _ _ Ex).
    destruct (from_file w path) as [cm | e]; reflexivity.
  - now rewrite (config_file_setter_absent _ _ _ Ex).
Qed.

(** C10: a context that [from_external_config_file] returns has neither
    [name] nor [scope] assigned, so its container name, its network name
    and its temporary volume names all raise [AttributeError]; and with
    [LOGGING_ENABLED] on it was returned only because the active
    environment's [logging] section names a file.  Without such an
    override, on a file that loads, an environment it lists and a
    [logging] section with a level and a format, the call itself ends in
    the [AttributeError] for [scope] that the default name of the log file
    raises, before anything in the process has changed. *)
Theorem from_external_config_file_unnamed `{Globals} (w : World) (path : Path)
  (instance_type env : string) (system_folders : bool) :
  (forall self w',
     from_external_config_file w path instance_type env system_folders
       = (Ok self, w') ->
     name self = None /\ scope self = None /\
     docker_container_name self = Raise (AttributeError "name") /\
     docker_network_name self = Raise (AttributeError "name") /\
     (forall run_id,
        docker_temporary_volume_name self run_id
        = Raise (AttributeError "name")) /\
     (LOGGING_ENABLED w = true ->
      exists cfg f, config self = Some cfg /\ file_override cfg = Some f))
  /\
  (forall cm cfg d level_name level format_,
     LOGGING_ENABLED w = true ->
     FS.exists_ w path = true ->
     from_file w path = Ok cm ->
     lookup env (cm_environments cm) = Some cfg ->
     lookup "logging" cfg = Some (VDict d) ->
     lookup "level" d = Some (VStr level_name) ->
     logging_level (Str.upper level_name) = Ok level ->
     lookup "format" d = Some format_ ->
     truthy (dict_get d "file" VNone) = false ->
     from_external_config_file w path instance_type env system_folders
     = (Raise (AttributeError "scope"), w)).
Proof.
  split.
  - intros self w' E. rewrite from_external_config_file_steps in E.
    destruct (FS.exists_ w path); [ | discriminate ].
    destruct (from_file w path) as [cm | e]; [ | discriminate ].
    set (self0 := external_loaded path instance_type system_folders cm) in *.
    pose proof (keeps_environment_setter name env
                  (fun _ _ => eq_refl) (fun _ _ => eq_refl)
                  (fun _ _ => eq_refl) (w, self0)) as Kn.
    pose proof (keeps_environment_setter scope env
                  (fun _ _ => eq_refl) (fun _ _ => eq_refl)
                  (fun _ _ => eq_refl) (w, self0)) as Ks.
    destruct (environment_setter env (w, self0)) as [[u | e] [w1 self1]] eqn:Es;
      [ | discriminate ].
    cbn in E, Kn, Ks. inversion E; subst self1 w1.
    assert (Hn : name self = None) by exact Kn.
    assert (Hs : scope self = None) by exact Ks.
    unfold docker_container_name, docker_network_name,
      docker_temporary_volume_name, read. rewrite Hn.
    split; [ reflexivity | ]. split; [ exact Hs | ].
    split; [ reflexivity | ]. split; [ reflexivity | ].
    split; [ intros run_id; reflexivity | ].
    intros Hlog.
    apply environment_setter_returns in Es.
    destruct Es as (cm' & cfg & _ & _ & Es). rewrite Hlog in Es.
    pose proof (keeps_setup_logging config (fun _ _ => eq_refl)
                  (w, set_config (set__environment self0 env) cfg)) as Kc.
    rewrite Es in Kc. cbn in Kc.
    apply setup_logging_needs_log_file in Es. destruct Es as [p Hp].
    apply log_file_unscoped_returns in Hp; [ | reflexivity ].
    destruct Hp as (cfg' & f & Hc & Hf). cbn in Hc. inversion Hc; subst cfg'.
    exists cfg, f. now split.
  - intros cm cfg d level_name level format_ Hlog Ex Ef Hcfg Hl Hlevel Hnum
      Hfmt Hfile.
    rewrite from_external_config_file_steps, Ex, Ef.
    set (self0 := external_loaded path instance_type system_folders cm).
    assert (Hget : manager_get cm env = Ok cfg)
      by (unfold manager_get; now rewrite Hcfg).
    assert (Hin : existsb (String.eqb env) (available_environments cm) = true).
    { apply existsb_eqb_In. unfold available_environments.
      clear - Hcfg. induction (cm_environments cm) as [ | [k v] l IH];
        [ discriminate | ].
      cbn in *. destruct (String.eqb env k) eqn:Ek.
      - left. symmetry. now apply String.eqb_eq.
      - right. auto. }
    rewrite (environment_setter_checked w self0 cm env cfg eq_refl Hin Hget).
    rewrite Hlog.
    rewrite (setup_logging_stops_at_log_file w
               (set_config (set__environment self0 env) cfg)
               cfg d level_name level format_
               (AttributeError "scope") eq_refl Hl Hlevel Hnum Hfmt).
    + reflexivity.
    + now apply (log_file_unscoped_raises _ cm cfg d env).
Qed.

(** C10 on the example process: over [node1.yaml], environment [acc]
    names its log file and a context without names comes back; environment
    [prod] does not, and the call fails. *)
Lemma from_external_config_file_unnamed_witness :
  (exists self w',
     @from_external_config_file Example.linux (Example.world true)
       Example.node1_yaml "node" "acc" false = (Ok self, w') /\
     name self = None /\ scope self = None /\
     @docker_container_name Example.linux self = Raise (AttributeError "name") /\
     exists f, file_override Example.acc = Some f)
  /\
  @from_external_config_file Example.linux (Example.world true)
    Example.node1_yaml "node" "prod" false
  = (Raise (AttributeError "scope"), Example.world true).
Proof.
  split.
  - destruct (@from_external_config_file Example.linux (Example.world true)
                Example.node1_yaml "node" "acc" false) as [r w'] eqn:E.
    destruct r as [self | e]; [ | vm_compute in E; discriminate ].
    exists self, w'. split; [ reflexivity | ].
    destruct (@from_external_config_file_unnamed Example.linux
                (Example.world true) Example.node1_yaml "node" "acc" false)
      as [Hret _].
    destruct (Hret self w' E) as (Hn & Hs & Hc & _ & _ & _).
    repeat split; try assumption. now eexists.
  - destruct (@from_external_config_file_unnamed Example.linux
                (Example.world true) Example.node1_yaml "node" "prod" false)
      as [_ Hfail].
    apply (Hfail Example.manager Example.prod
             [("level", VStr "debug");
              ("format", VStr "%(asctime)s - %(name)-14s - %(message)s");
              ("max_size", VInt 1024);
              ("backup_count", VInt 5);
              ("use_console", VBool true)]
             "debug" 10 (VStr "%(asctime)s - %(name)-14s - %(message)s"));
      reflexivity.
Defined.

(** ** Discovery *)

Lemma config_exists_unfold `{Globals} w t n env sf :
  config_exists w t n env sf
  = if negb (FS.exists_ w (expected_config_file t n sf)) then Ok false
    else
      rbind (from_file w (expected_config_file t n sf)) (fun cm =>
      rbind (manager_getattr cm env) (fun v => Ok (truthy v))).
Proof. unfold config_exists, expected_config_file. now destruct sf. Qed.

(** The file [config_exists] looks for is the one [__init__] assigns to
    [config_file]. *)
Lemma expected_config_file_of_folders `{Globals} t n sf :
  expected_config_file t n sf
  = config_folder (instance_folders t n sf) // (n ++ ".yaml").
Proof. now destruct sf. Qed.

(** A name that is no member of the manager class is looked up among the
    environments. *)
Lemma manager_getattr_environment cm env :
  ~ In env manager_members ->
  manager_getattr cm env
  = match lookup env (cm_environments cm) with
    | Some c => Ok (VDict c)
    | None => Raise (AttributeError env)
    end.
Proof.
  intros Hm. unfold manager_getattr.
  repeat match goal with
  | |- context [String.eqb env ?k] =>
      let E := fresh "E" in
      destruct (String.eqb env k) eqn:E;
        [ apply String.eqb_eq in E; subst env; exfalso; apply Hm; cbn; tauto
        | clear E ]
  end.
  reflexivity.
Qed.




(** What [from_file] raises is an [Exception]. *)
Lemma from_file_raises_Exception w path e :
  from_file w path = Raise e -> is_Exception e = true.
Proof.
  unfold from_file.
  destruct (FS.find_file (FS.abspath w path) (files w)) as [[ | doc] | ].
  - intros E. now inversion E.
  - discriminate.
  - destruct (FS.is_dir w path); intros E; now inversion E.
Qed.

(** One turn of the loop: the file goes to exactly one of the lists. *)
Lemma scan_configurations_step w file_ rest configs failed :
  scan_configurations w (file_ :: rest) configs failed
  = match usable w file_ with
    | Some cm => scan_configurations w rest (configs ++ [cm])%list failed
    | None => scan_configurations w rest configs (failed ++ [file_])%list
    end.
Proof.
  cbn [scan_configurations]. unfold try_load, usable.
  destruct (from_file w file_) as [cm | e] eqn:E; cbn [rbind].
  - now destruct (is_empty cm).
  - now rewrite (from_file_raises_Exception w file_ e E).
Qed.

(** The managers of the usable files, in order. *)
Lemma scan_configurations_total w config_files : forall configs failed,
  scan_configurations w config_files configs failed
  = Ok ((configs ++ flat_map (fun f => match usable w f with
                                       | Some cm => [cm]
                                       | None => []
                                       end) config_files)%list,
        (failed ++ filter (fun f => negb (is_usable w f)) config_files)%list).
Proof.
  induction config_files as [ | f l IH]; intros configs failed.
  - cbn. now rewrite !app_nil_r.
  - rewrite scan_configurations_step. cbn [flat_map filter].
    unfold is_usable at 1. destruct (usable w f) as [cm | ]; rewrite IH; cbn.
    + now rewrite <- app_assoc.
    + now rewrite <- app_assoc.
Qed.

Lemma filter_split_Permutation {A : Type} (p : A -> bool) (l : list A) :
  Permutation l (filter (fun x => negb (p x)) l ++ filter p l)%list.
Proof.
  induction l as [ | x l IH]; cbn; [ constructor | ].
  destruct (p x); cbn.
  - now apply Permutation_cons_app.
  - now constructor.
Qed.

Lemma usable_managers_of_filter w (l : list Path) :
  map Some (flat_map (fun f => match usable w f with
                               | Some cm => [cm]
                               | None => []
                               end) l)
  = map (usable w) (filter (is_usable w) l).
Proof.
  induction l as [ | f l IH]; cbn; [ reflexivity | ].
  unfold is_usable at 1. destruct (usable w f) as [cm | ] eqn:E; cbn.
  - now rewrite E, IH.
  - exact IH.
Qed.

(** C7: [available_configurations] returns, whatever the directory
    holds.  Of the [*.yaml] entries of the config folder, listed once
    each, it returns in [failed] exactly those whose load raises or whose
    manager is empty, and in [configs] the managers of exactly the other
    ones, both in the order of the listing; so the failed files and the
    files of the returned managers are, together, the candidates again. *)
Theorem available_configurations_partition `{Globals} (w : World)
  (instance_type : string) (system_folders : bool) :
  let candidates :=
    FS.glob_yaml w
      (config_folder (instance_folders instance_type EmptyString system_folders)) in
  exists configs failed,
    available_configurations w instance_type system_folders
      = Ok (configs, failed) /\
    NoDup candidates /\
    failed = filter (fun f => negb (is_usable w f)) candidates /\
    map Some configs = map (usable w) (filter (is_usable w) candidates) /\
    Permutation candidates (failed ++ filter (is_usable w) candidates)%list /\
    (length configs + length failed = length candidates)%nat /\
    (forall f, In f candidates ->
       (In f failed <->
        (exists e, from_file w f = Raise e) \/
        (exists cm, from_file w f = Ok cm /\ is_empty cm = true))) /\
    (forall f, In f candidates ->
       (~ In f failed <->
        exists cm, from_file w f = Ok cm /\ is_empty cm = false /\
                   In cm configs)).
Proof.
  cbn zeta. unfold available_configurations.
  set (candidates := FS.glob_yaml w _).
  rewrite scan_configurations_total. cbn [app].
  set (configs := flat_map _ candidates).
  set (failed := filter _ candidates).
  assert (Hmap : map Some configs
                 = map (usable w) (filter (is_usable w) candidates))
    by apply usable_managers_of_filter.
  assert (Hperm : Permutation candidates
                    (failed ++ filter (is_usable w) candidates)%list)
    by apply filter_split_Permutation.
  assert (Hfailed : forall f, In f candidates ->
            (In f failed <-> is_usable w f = false)).
  { intros f Hf. unfold failed. rewrite filter_In, negb_true_iff. tauto. }
  assert (Hcase : forall f,
            is_usable w f = false <->
            (exists e, from_file w f = Raise e) \/
            (exists cm, from_file w f = Ok cm /\ is_empty cm = true)).
  { intros f. unfold is_usable, usable.
    destruct (from_file w f) as [cm | e].
    - destruct (is_empty cm) eqn:Ee; split; intros Hx; eauto; try discriminate.
      destruct Hx as [[e E] | (cm' & E & Hc)]; [ discriminate | ].
      inversion E; subst. congruence.
    - split; eauto. }
  exists configs, failed. split; [ reflexivity | ].
  split; [ | split; [ reflexivity | split; [ exact Hmap | split;
    [ exact Hperm | split; [ | split ] ] ] ] ].
  - unfold candidates, FS.glob_yaml. apply NoDup_filter, NoDup_nodup.
  - apply Permutation_length in Hperm. rewrite length_app in Hperm.
    rewrite Hperm, Nat.add_comm. f_equal.
    rewrite <- (length_map Some configs), Hmap. apply length_map.
  - intros f Hf. now rewrite (Hfailed f Hf), Hcase.
  - intros f Hf. rewrite (Hfailed f Hf). split.
    + intros Hu. destruct (is_usable w f) eqn:Eu; [ | congruence ].
      unfold is_usable, usable in Eu.
      destruct (from_file w f) as [cm | e] eqn:Ef; [ | discriminate ].
      destruct (is_empty cm) eqn:Ee; [ discriminate | ].
      exists cm. repeat split; try assumption.
      unfold configs. apply in_flat_map. exists f. split; [ exact Hf | ].
      unfold usable. rewrite Ef, Ee. now left.
    + intros (cm & Ef & Ee & _). unfold is_usable, usable.
      now rewrite Ef, Ee.
Qed.

(** C7 on the example process: of the three [*.yaml] files of the
    folder, [node1.yaml] yields a manager, and [broken.yaml] (no document)
    and [blank.yaml] (no environments) are the failures. *)
Lemma available_configurations_partition_witness :
  exists configs failed,
    @available_configurations Example.linux (Example.world true) "node" false
      = Ok (configs, failed) /\
    In Example.broken_yaml failed /\
    In Example.blank_yaml failed /\
    ~ In Example.node1_yaml failed /\
    length configs = 1%nat /\ length failed = 2%nat.
Proof.
  destruct (@available_configurations_partition Example.linux
              (Example.world true) "node" false)
    as (configs & failed & E & _ & Hf & Hc & _ & _ & Hin & Hout).
  exists configs, failed. split; [ exact E | ].
  assert (Hcand : forall f,
            f = Example.broken_yaml \/ f = Example.blank_yaml \/
            f = Example.node1_yaml ->
            In f (FS.glob_yaml (Example.world true)
                    (config_folder
                       (@instance_folders Example.linux "node" EmptyString false)))).
  { intros f [-> | [-> | ->]]; vm_compute; tauto. }
  split; [ | split; [ | split; [ | split ] ] ].
  - apply Hin; [ apply Hcand; tauto | ]. left. now exists YAMLError.
  - apply Hin; [ apply Hcand; tauto | ]. right.
    exists {| cm_name := "blank"; cm_environments := [] |}. now split.
  - apply Hout; [ apply Hcand; tauto | ].
    exists Example.manager. split; [ reflexivity | split; [ reflexivity | ] ].
    assert (Hm : In (Some Example.manager) (map Some configs))
      by (rewrite Hc; vm_compute; tauto).
    apply in_map_iff in Hm. destruct Hm as (cm & Ecm & Hcm).
    now inversion Ecm; subst.
  - rewrite <- (length_map Some configs), Hc. reflexivity.
  - rewrite Hf. reflexivity.
Defined.

(** ** Logging setup and the handlers of the root logger *)

Section WKeeps.

Context {X : Type} (f : World -> X).

Lemma wkeeps_ret {A} (a : A) : wkeeps f (ret a).
Proof. now intros s. Qed.

Lemma wkeeps_lift {A} (r : result A) : wkeeps f (lift r).
Proof. now intros s. Qed.

Lemma wkeeps_property {A} (p : AppContext -> result A) :
  wkeeps f (property p).
Proof. now intros s. Qed.

Lemma wkeeps_get_world : wkeeps f get_world.
Proof. now intros s. Qed.

Lemma wkeeps_update_self g : wkeeps f (update_self g).
Proof. now intros s. Qed.

Lemma wkeeps_getattr {A} attr (proj : AppContext -> option A) :
  wkeeps f (getattr attr proj).
Proof. intros s. unfold getattr. now destruct (proj (snd s)). Qed.

Lemma wkeeps_update_world g :
  (forall w, f (g w) = f w) -> wkeeps f (update_world g).
Proof. intros Hg s. apply Hg. Qed.

Lemma wkeeps_info msg :
  (forall w d, f (with_delivered w d) = f w) -> wkeeps f (info msg).
Proof.
  intros Hd s. unfold info, update_world. cbn [fst snd].
  destruct (root_level (fst s) <=? INFO); [ apply Hd | reflexivity ].
Qed.

Lemma wkeeps_bind {A B} (m : M A) (k : A -> M B) :
  wkeeps f m -> (forall a, wkeeps f (k a)) -> wkeeps f (bind m k).
Proof.
  intros Hm Hk s. unfold bind.
  specialize (Hm s). destruct (m s) as [[a | e] s1]; cbn in *.
  - now rewrite Hk.
  - exact Hm.
Qed.

End WKeeps.

(** Creating directories and files leaves the logger, the identities
    and the working directory alone. *)
Lemma makedirs_logging w d w' :
  FS.makedirs w d = Ok w' ->
  root_handlers w' = root_handlers w /\ next_id w' = next_id w /\
  cwd w' = cwd w.
Proof.
  unfold FS.makedirs. destruct (existsb _ _); intros E; inversion E.
  now repeat split.
Qed.

Lemma open_append_logging w p w' :
  FS.open_append w p = Ok w' ->
  root_handlers w' = root_handlers w /\ next_id w' = next_id w /\
  cwd w' = cwd w.
Proof.
  unfold FS.open_append.
  destruct (FS.is_dir w (FS.abspath w p)); [ discriminate | ].
  destruct (FS.is_file w (FS.abspath w p)).
  - intros E. inversion E. now repeat split.
  - destruct (FS.is_dir w (PathOps.parent (FS.abspath w p)));
      intros E; inversion E. now repeat split.
Qed.

Lemma makedirs_dirname_returns p s u s' :
  makedirs_dirname p s = (Ok u, s') ->
  exists w1, FS.makedirs (fst s) (PathOps.parent p) = Ok w1 /\
             s' = (w1, snd s).
Proof.
  unfold makedirs_dirname.
  destruct (absolute (PathOps.parent p)), (parts (PathOps.parent p));
    try (intros E; now apply try_world_returns in E).
  discriminate.
Qed.

(** A handler whose identity is new is attached at the end. *)
Lemma addHandler_new h w self :
  Forall (fun h' => (handler_id h' < handler_id h)%nat) (root_handlers w) ->
  addHandler h (w, self)
  = (Ok tt, (with_root_handlers w (root_handlers w ++ [h])%list, self)).
Proof.
  intros Hnew. unfold addHandler, update_world. cbn [fst snd].
  replace (existsb _ (root_handlers w)) with false; [ reflexivity | ].
  symmetry. apply not_true_iff_false. intros Hex.
  apply existsb_exists in Hex. destruct Hex as (h' & Hin & Heq).
  rewrite Forall_forall in Hnew. specialize (Hnew h' Hin).
  apply Nat.eqb_eq in Heq. lia.
Qed.

Ltac bind_step E a s1 E1 :=
  apply bind_returns in E; destruct E as (a & s1 & E1 & E).

(** What follows the handlers in [setup_logging], the banner and the
    assignment of [self.log], does not touch the handlers of the root
    logger nor the identities. *)
Lemma wkeeps_banner `{Globals} {X : Type} (f : World -> X) :
  (forall w b, f (with_warnings_captured w b) = f w) ->
  (forall w d, f (with_delivered w d) = f w) ->
  wkeeps f
    (update_world (fun w0 : World => with_warnings_captured w0 true);;
     info (Str.repeat "#"%char 80);;
     info ("#" ++ Str.center APPNAME 78 ++ "#");;
     info (Str.repeat "#"%char 80);;
     env <- property environment;;
     info ("Started application " ++ APPNAME ++ " with environment " ++ env);;
     w0 <- get_world;;
     info
       ("Current working directory is '" ++ PathOps.to_string (cwd w0) ++ "'");;
     cf <- property config_file;;
     info
       ("Succesfully loaded configuration from '" ++
        PathOps.to_string cf ++ "'");;
     lf'' <- property log_file;;
     info ("Logging to '" ++ PathOps.to_string lf'' ++ "'");;
     update_self (fun c : AppContext => set_log c (Some "context"))).
Proof.
  intros Hw Hd.
  repeat first
    [ apply wkeeps_bind; [ | intros ? ]
    | apply wkeeps_info; exact Hd
    | apply wkeeps_update_world; intros ?; apply Hw
    | apply wkeeps_property
    | apply wkeeps_get_world
    | apply wkeeps_update_self ].
Qed.

(** C5, as the code has it: a call of [setup_logging] that returns has
    attached to the root logger one new rotating file handler for the log
    file and, when the [use_console] entry of the [logging] section is
    true, one new console handler, and none when it is not, behind the
    handlers that were attached before.  The new handlers have the level
    the [level] entry names and the formats of the [format] and [datefmt]
    entries; the file handler rotates at [max_size] times 1024 bytes and
    keeps [backup_count] files.  Every earlier handler is still attached,
    so each activation of an environment adds its own handlers to those of
    the activations before it. *)
Theorem setup_logging_appends `{Globals} (w : World) (self : AppContext)
  (u : unit) (w' : World) (self' : AppContext) :
  handlers_known w ->
  setup_logging (w, self) = (Ok u, (w', self')) ->
  exists cfg section level_name level format_ datefmt lf max_size maxBytes
         backupCount use_console,
    config self = Some cfg /\
    dict_subscript cfg "logging" = Ok section /\
    subscript section "level" = Ok level_name /\
    rbind (value_upper level_name) logging_level = Ok level /\
    subscript section "format" = Ok format_ /\
    value_get section "datefmt" (VStr EmptyString) = Ok datefmt /\
    log_file self = Ok lf /\
    subscript section "max_size" = Ok max_size /\
    times_1024 max_size = Ok maxBytes /\
    subscript section "backup_count" = Ok backupCount /\
    subscript section "use_console" = Ok use_console /\
    root_handlers w'
    = (root_handlers w
       ++ RotatingFileHandler (next_id w) (FS.abspath w lf) maxBytes
            backupCount level format_ datefmt
       :: (if truthy use_console
           then [ColorStreamHandler (S (next_id w)) level format_ datefmt]
           else []))%list /\
    (length (root_handlers w) < length (root_handlers w'))%nat /\
    incl (root_handlers w) (root_handlers w') /\
    handlers_known w'.
Proof.
  intros Hknown E. unfold setup_logging in E.
  bind_step E cfg s1 E1. apply getattr_returns in E1. destruct E1 as [Hcfg ->].
  bind_step E log_config s1 E1. apply lift_returns in E1. destruct E1 as [Hlc ->].
  bind_step E level_name s1 E1. apply lift_returns in E1. destruct E1 as [Hln ->].
  bind_step E level_upper s1 E1. apply lift_returns in E1. destruct E1 as [Hlu ->].
  bind_step E level s1 E1. apply lift_returns in E1. destruct E1 as [Hlevel ->].
  bind_step E format_ s1 E1. apply lift_returns in E1. destruct E1 as [Hfmt ->].
  bind_step E datefmt s1 E1. apply lift_returns in E1. destruct E1 as [Hdf ->].
  bind_step E lf s1 E1. apply property_returns in E1. destruct E1 as [Hlf ->].
  bind_step E u1 s1 E1. apply makedirs_dirname_returns in E1.
  destruct E1 as (w1 & Hmk & ->). cbn [fst snd] in *.
  bind_step E u2 s1 E1. cbv [update_world] in E1. cbn [fst snd] in E1.
  inversion E1; subst s1 u2; clear E1.
  bind_step E lf' s1 E1. apply property_returns in E1. destruct E1 as [Hlf' ->].
  cbn [snd] in Hlf'. rewrite Hlf in Hlf'. inversion Hlf'; subst lf'; clear Hlf'.
  bind_step E max_size s1 E1. apply lift_returns in E1. destruct E1 as [Hms ->].
  bind_step E maxBytes s1 E1. apply lift_returns in E1. destruct E1 as [Hmb ->].
  bind_step E backupCount s1 E1. apply lift_returns in E1.
  destruct E1 as [Hbc ->].
  bind_step E rfh s1 E1. cbv [fresh_id] in E1. cbn [fst snd] in E1.
  inversion E1; subst s1 rfh; clear E1.
  bind_step E u3 s1 E1. apply try_world_returns in E1.
  destruct E1 as (w2 & Hopen & ->). cbn [fst snd] in *.
  bind_step E w0 s1 E1. cbv [get_world] in E1. cbn [fst snd] in E1.
  inversion E1; subst s1 w0; clear E1.
  destruct (makedirs_logging _ _ _ Hmk) as (Hh1 & Hn1 & Hc1).
  destruct (open_append_logging _ _ _ Hopen) as (Hh2 & Hn2 & Hc2).
  cbn [root_handlers next_id cwd with_next_id with_root_level] in Hh2, Hn2, Hc2.
  rewrite Hh1 in Hh2. rewrite Hc1 in Hc2.
  assert (Habs : FS.abspath w2 lf = FS.abspath w lf)
    by (unfold FS.abspath; now rewrite Hc2).
  rewrite Habs in E. rewrite Hn1 in *.
  bind_step E u4 s1 E1. rewrite addHandler_new in E1.
  2:{ cbn [handler_id]. rewrite Hh2. exact Hknown. }
  inversion E1; subst s1 u4; clear E1. rewrite Hh2 in E.
  bind_step E use_console s1 E1. apply lift_returns in E1.
  destruct E1 as [Huc ->].
  set (rfh := RotatingFileHandler (next_id w) (FS.abspath w lf) maxBytes
                backupCount level format_ datefmt) in *.
  assert (Hknown1 : Forall (fun h => (handler_id h < S (next_id w))%nat)
                      (root_handlers w ++ [rfh])).
  { apply Forall_app. split.
    - eapply Forall_impl; [ | exact Hknown ]. cbn. intros h Hh. lia.
    - constructor; [ cbn; lia | constructor ]. }
  bind_step E u5 s1 E1.
  pose proof (wkeeps_banner root_handlers (fun _ _ => eq_refl)
                (fun _ _ => eq_refl) s1) as Kh.
  pose proof (wkeeps_banner next_id (fun _ _ => eq_refl)
                (fun _ _ => eq_refl) s1) as Kn.
  rewrite E in Kh, Kn. cbn [fst snd] in Kh, Kn. clear E.
  exists cfg, log_config, level_name, level, format_, datefmt, lf, max_size,
    maxBytes, backupCount, use_console.
  split; [ exact Hcfg | ]. split; [ exact Hlc | ]. split; [ exact Hln | ].
  split; [ rewrite Hlu; exact Hlevel | ].
  split; [ exact Hfmt | ]. split; [ exact Hdf | ]. split; [ exact Hlf | ].
  split; [ exact Hms | ]. split; [ exact Hmb | ]. split; [ exact Hbc | ].
  split; [ exact Huc | ].
  assert (Hhandlers :
    root_handlers w'
    = (root_handlers w
       ++ rfh :: (if truthy use_console
                  then [ColorStreamHandler (S (next_id w)) level format_ datefmt]
                  else []))%list
    /\ handlers_known w').
  { unfold handlers_known. rewrite Kh, Kn.
    destruct (truthy use_console).
    - bind_step E1 ch s2 E2. cbv [fresh_id] in E2. cbn [fst snd] in E2.
      inversion E2; subst s2 ch; clear E2.
      cbn [next_id with_root_handlers] in E1. rewrite Hn2 in E1.
      rewrite addHandler_new in E1.
      2:{ cbn [handler_id root_handlers with_next_id with_root_handlers].
          exact Hknown1. }
      inversion E1; subst s1; clear E1.
      cbn [fst root_handlers next_id with_root_handlers with_next_id].
      rewrite <- app_assoc. split; [ reflexivity | ].
      change (root_handlers w ++ [rfh] ++
              [ColorStreamHandler (S (next_id w)) level format_ datefmt])%list
        with (root_handlers w ++ ([rfh] ++
              [ColorStreamHandler (S (next_id w)) level format_ datefmt]))%list.
      rewrite app_assoc. apply Forall_app. split.
      + eapply Forall_impl; [ | exact Hknown1 ]. cbn. intros h Hh. lia.
      + constructor; [ cbn; lia | constructor ].
    - cbv [ret] in E1. inversion E1; subst s1; clear E1.
      cbn [fst root_handlers next_id with_root_handlers with_next_id].
      rewrite Hn2. split; [ reflexivity | exact Hknown1 ]. }
  destruct Hhandlers as [Hh Hk].
  split; [ exact Hh | ]. split; [ | split; [ | exact Hk ] ].
  - rewrite Hh, length_app. cbn [length]. lia.
  - rewrite Hh. apply incl_appl, incl_refl.
Qed.

(** C5 on the example process: the first setup, for [prod], whose section
    asks for the console, attaches two handlers to the empty root logger;
    a second setup, for [test], whose section does not, adds one handler
    to these two. *)
Lemma setup_logging_appends_witness :
  let self0 := set_config (set__environment Example.loaded "prod") Example.prod in
  exists w1 self1 w2 self2,
    @setup_logging Example.linux (Example.world true, self0)
      = (Ok tt, (w1, self1)) /\
    @setup_logging Example.linux
      (w1, set_config (set__environment self1 "test") Example.test)
      = (Ok tt, (w2, self2)) /\
    length (root_handlers w1) = 2%nat /\
    length (root_handlers w2) = 3%nat /\
    incl (root_handlers w1) (root_handlers w2) /\
    handlers_known w2.
Proof.
  cbn zeta.
  pose (r1 := @setup_logging Example.linux
                (Example.world true,
                 set_config (set__environment Example.loaded "prod")
                   Example.prod)).
  pose (r2 := @setup_logging Example.linux
                (fst (snd r1),
                 set_config (set__environment (snd (snd r1)) "test")
                   Example.test)).
  assert (E1 : @setup_logging Example.linux
                 (Example.world true,
                  set_config (set__environment Example.loaded "prod")
                    Example.prod)
               = (Ok tt, (fst (snd r1), snd (snd r1))))
    by (vm_compute; reflexivity).
  assert (E2 : @setup_logging Example.linux
                 (fst (snd r1),
                  set_config (set__environment (snd (snd r1)) "test")
                    Example.test)
               = (Ok tt, (fst (snd r2), snd (snd r2))))
    by (vm_compute; reflexivity).
  exists (fst (snd r1)), (snd (snd r1)), (fst (snd r2)), (snd (snd r2)).
  split; [ exact E1 | ]. split; [ exact E2 | ].
  assert (Hk0 : handlers_known (Example.world true)) by constructor.
  destruct (@setup_logging_appends Example.linux _ _ _ _ _ Hk0 E1)
    as (cfg1 & sec1 & ln1 & lv1 & fm1 & df1 & lf1 & ms1 & mb1 & bc1 & uc1
        & Hcfg1 & Hsec1 & _ & _ & _ & _ & _ & _ & _ & _ & Huc1 & Hh1 & _ & _
        & Hk1).
  destruct (@setup_logging_appends Example.linux _ _ _ _ _ Hk1 E2)
    as (cfg2 & sec2 & ln2 & lv2 & fm2 & df2 & lf2 & ms2 & mb2 & bc2 & uc2
        & Hcfg2 & Hsec2 & _ & _ & _ & _ & _ & _ & _ & _ & Huc2 & Hh2 & _
        & Hincl & Hk2).
  cbn [config set_config] in Hcfg1, Hcfg2.
  injection Hcfg1 as Hcfg1. rewrite <- Hcfg1 in Hsec1.
  vm_compute in Hsec1. injection Hsec1 as Hsec1. rewrite <- Hsec1 in Huc1.
  vm_compute in Huc1. injection Huc1 as Huc1. rewrite <- Huc1 in Hh1.
  injection Hcfg2 as Hcfg2. rewrite <- Hcfg2 in Hsec2.
  vm_compute in Hsec2. injection Hsec2 as Hsec2. rewrite <- Hsec2 in Huc2.
  vm_compute in Huc2. injection Huc2 as Huc2. rewrite <- Huc2 in Hh2.
  cbn [truthy] in Hh1, Hh2.
  assert (Hl1 : length (root_handlers (fst (snd r1))) = 2%nat).
  { rewrite Hh1, length_app. reflexivity. }
  split; [ exact Hl1 | ]. split; [ | split; [ exact Hincl | exact Hk2 ] ].
  rewrite Hh2, length_app, Hl1. reflexivity.
Defined.

(** C5, as the claim has it, fails: the first call of [AppContext(...)]
    in the process constructs the context with environment [prod], and
    [prod] is assigned once more.  The two handlers
    of the first setup are still on the root logger after the second,
    which has added two of its own: four handlers, two of them writing
    the same log file, and every line of the second banner is delivered
    four times. *)
Lemma setup_logging_stacks_handlers :
  exists self1 w1 w2 self2,
    @AppContext_call Example.linux None (Example.world true) "node" "node1"
      false "prod" = (Ok self1, (w1, Some self1)) /\
    @environment_setter Example.linux "prod" (w1, self1)
      = (Ok tt, (w2, self2)) /\
    map handler_id (root_handlers w1) = [0; 1]%nat /\
    map handler_id (root_handlers w2) = [0; 1; 2; 3]%nat /\
    (exists h, In h (root_handlers w1) /\ In h (root_handlers w2)) /\
    (length (root_handlers w2) = 2 * length (root_handlers w1))%nat /\
    map fst
      (filter (fun d => String.eqb (snd d)
                          "Started application vantage6 with environment prod")
         (delivered w2))
    = [0; 1; 0; 1; 2; 3]%nat.
Proof.
  pose (r1 := @AppContext_new Example.linux (Example.world true) "node"
                "node1" false "prod").
  pose (self1 := match fst r1 with Ok c => c | Raise _ => new_object end).
  pose (r2 := @environment_setter Example.linux "prod" (snd r1, self1)).
  exists self1, (snd r1), (fst (snd r2)), (snd (snd r2)).
  split; [ vm_compute; reflexivity | ].
  split; [ vm_compute; reflexivity | ].
  split; [ vm_compute; reflexivity | ].
  split; [ vm_compute; reflexivity | ].
  split; [ | split; vm_compute; reflexivity ].
  exists (RotatingFileHandler 0
            (PathOps.of_string
               "/home/alice/.cache/vantage6/log/node/node1-prod-user + .log")
            1048576 (VInt 5) 10
            (VStr "%(asctime)s - %(name)-14s - %(message)s") (VStr EmptyString)).
  split; vm_compute; left; reflexivity.
Qed.

(** * Further properties of the code *)

(** ** The course of a construction *)

Lemma bind_lift_Ok {A B : Type} (r : result A) (k : A -> M B) s a :
  r = Ok a -> bind (lift r) k s = k a s.
Proof. now intros ->. Qed.

Lemma bind_lift_Raise {A B : Type} (r : result A) (k : A -> M B) s e :
  r = Raise e -> bind (lift r) k s = (Raise e, s).
Proof. now intros ->. Qed.

(** The setter of [environment], case by case. *)
Lemma environment_setter_cases `{Globals} (w : World) (self : AppContext) env :
  environment_setter env (w, self)
  = match config_manager self with
    | None => (Raise (AttributeError "config_manager"), (w, self))
    | Some None =>
        (Raise (AssertionError
           "Environment set before ConfigurationManager is initialized..."),
         (w, self))
    | Some (Some cm) =>
        if existsb (String.eqb env) (available_environments cm) then
          match manager_get cm env with
          | Ok cfg =>
              if LOGGING_ENABLED w
              then setup_logging (w, set_config (set__environment self env) cfg)
              else (Ok tt, (w, set_config (set__environment self env) cfg))
          | Raise e => (Raise e, (w, set__environment self env))
          end
        else
          (Raise (AssertionError
             ("Requested environment " ++ env
              ++ " is not found in the configuration")),
           (w, self))
    end.
Proof.
  cbv [environment_setter bind getattr fst snd assert ret raise lift
       update_self get_world manager_truthy manager_member].
  destruct (config_manager self) as [[cm | ] | ]; try reflexivity.
  destruct (existsb (String.eqb env) (available_environments cm));
    [ | reflexivity ].
  destruct (manager_get cm env); [ | reflexivity ].
  now destruct (LOGGING_ENABLED w).
Qed.

(** [__init__] up to the assignment of [environment]. *)
Lemma AppContext_new_steps `{Globals} w t n sf env :
  let path := config_folder (instance_folders t n sf) // (n ++ ".yaml") in
  AppContext_new w t n sf env
  = if FS.exists_ w path then
      match from_file w path with
      | Ok cm =>
          returning_self
            ((environment_setter env ;;
              update_self (fun c => set_log c None))
               (w, init_loaded t n sf cm))
      | Raise e => (Raise e, w)
      end
    else (Raise (AssertionError
                   ("config " ++ PathOps.to_string path ++ " not found")), w).
Proof.
  cbn zeta. unfold AppContext_new, returning_self, __init__.
  cbv [bind update_self set_folders getattr fst snd].
  cbn [config_dir set_config_dir].
  destruct (FS.exists_ w _) eqn:Ex.
  - rewrite (config_file_setter_present _ _ _ Ex).
    destruct (from_file w _) as [cm | e]; reflexivity.
  - now rewrite (config_file_setter_absent _ _ _ Ex).
Qed.

(** A construction that returns: what was checked on the way and what the
    setter of [environment] returned. *)
Lemma AppContext_new_returns `{Globals} w t n sf env self w' :
  AppContext_new w t n sf env = (Ok self, w') ->
  let path := config_folder (instance_folders t n sf) // (n ++ ".yaml") in
  exists cm cfg self1,
    FS.exists_ w path = true /\
    from_file w path = Ok cm /\
    In env (available_environments cm) /\
    manager_get cm env = Ok cfg /\
    (if LOGGING_ENABLED w
     then setup_logging
            (w, set_config (set__environment (init_loaded t n sf cm) env) cfg)
     else (Ok tt,
           (w, set_config (set__environment (init_loaded t n sf cm) env) cfg)))
    = (Ok tt, (w', self1)) /\
    self = set_log self1 None.
Proof.
  cbn zeta. rewrite AppContext_new_steps. cbn zeta. intros E.
  destruct (FS.exists_ w _) eqn:Ex; [ | discriminate E ].
  destruct (from_file w _) as [cm | e] eqn:Ef; [ | discriminate E ].
  unfold returning_self, bind in E.
  destruct (environment_setter env (w, init_loaded t n sf cm))
    as [[[] | e] [w1 self1]] eqn:Es; [ | discriminate E ].
  cbv [update_self fst snd] in E. inversion E; subst w' self; clear E.
  rewrite environment_setter_cases in Es.
  change (config_manager (init_loaded t n sf cm)) with (Some (Some cm)) in Es.
  cbv beta iota in Es.
  destruct (existsb (String.eqb env) (available_environments cm)) eqn:Hin;
    [ | discriminate Es ].
  destruct (manager_get cm env) as [cfg | e] eqn:Hget; [ | discriminate Es ].
  exists cm, cfg, self1. repeat split; try assumption.
  now apply existsb_eqb_In.
Qed.

(** *** What [setup_logging] does to [self] *)

(** A computation that, when it returns, has stored the logger. *)
Lemma stores_logger_bind {A B : Type} (m : M A) (k : A -> M B) (l : Logger) :
  (forall a s u s', k a s = (Ok u, s') -> log (snd s') = Some (Some l)) ->
  forall s u s', bind m k s = (Ok u, s') -> log (snd s') = Some (Some l).
Proof.
  intros Hk s u s' E. apply bind_returns in E.
  destruct E as (a & s1 & _ & E). eauto.
Qed.

(** A computation that, when it raises, has left [self] as it was. *)
Lemma raise_keeps_self_bind {A B : Type} (m : M A) (k : A -> M B) :
  keeps (fun c => c) m ->
  (forall a s e s', k a s = (Raise e, s') -> snd s' = snd s) ->
  forall s e s', bind m k s = (Raise e, s') -> snd s' = snd s.
Proof.
  intros Hm Hk s e s' E. unfold bind in E. specialize (Hm s).
  destruct (m s) as [[a | e1] s1]; cbn in Hm.
  - rewrite <- Hm. eauto.
  - inversion E; subst. exact Hm.
Qed.

Lemma setup_logging_stores_logger `{Globals} s u s' :
  setup_logging s = (Ok u, s') -> log (snd s') = Some (Some "context").
Proof.
  revert s u s'. unfold setup_logging.
  repeat (apply stores_logger_bind; intros ?).
  intros s u s' E. cbv [update_self] in E. now inversion E.
Qed.

(** When [setup_logging] returns, [self] is what it was but for the
    logger. *)
Lemma setup_logging_self `{Globals} w self u w' self' :
  setup_logging (w, self) = (Ok u, (w', self')) ->
  self' = set_log self (Some "context").
Proof.
  intros E.
  pose proof (setup_logging_stores_logger _ _ _ E) as Hl. cbn in Hl.
  pose proof (keeps_setup_logging (fun c => set_log c None)
                (fun _ _ => eq_refl) (w, self)) as Hk.
  rewrite E in Hk. cbn [fst snd] in Hk.
  destruct self', self. unfold set_log in *. cbn in *.
  inversion Hk; subst. reflexivity.
Qed.

(** When [setup_logging] raises, [self] is what it was. *)
Lemma setup_logging_raises_self `{Globals} s e s' :
  setup_logging s = (Raise e, s') -> snd s' = snd s.
Proof.
  revert s e s'. unfold setup_logging.
  repeat first
    [ apply raise_keeps_self_bind;
        [ solve [ auto with keeps
                | apply keeps_if; auto with keeps;
                  apply keeps_bind; auto with keeps ]
        | intros ? ] ].
  intros s e s' E. cbv [update_self] in E. discriminate E.
Qed.

(** *** The name of a configuration file *)

Lemma chars_append (a b : string) :
  Str.chars (a ++ b) = (Str.chars a ++ Str.chars b)%list.
Proof.
  unfold Str.chars. induction a as [ | c a IH]; cbn; [ reflexivity | ].
  now rewrite IH.
Qed.

Lemma chars_length (a : string) :
  length (Str.chars a) = String.length a.
Proof.
  unfold Str.chars. induction a as [ | c a IH]; cbn; [ reflexivity | ].
  now rewrite IH.
Qed.

Lemma rfind_from_absent c l : forall i found,
  ~ In c l -> Str.rfind_from c l i found = found.
Proof.
  induction l as [ | x l IH]; intros i found Hc; cbn; [ reflexivity | ].
  destruct (Ascii.eqb_spec x c) as [-> | Hx].
  - exfalso. apply Hc. now left.
  - apply IH. intros Hin. apply Hc. now right.
Qed.

Lemma rfind_from_last c l1 l2 : forall i found,
  ~ In c l2 ->
  Str.rfind_from c (l1 ++ c :: l2) i found = Some (i + length l1)%nat.
Proof.
  induction l1 as [ | x l1 IH]; intros i found Hc; cbn.
  - rewrite Ascii.eqb_refl, rfind_from_absent by exact Hc.
    now rewrite Nat.add_0_r.
  - rewrite IH by exact Hc. f_equal. lia.
Qed.

Lemma substring_append (a b : string) :
  substring 0 (String.length a) (a ++ b) = a.
Proof.
  induction a as [ | c a IH]; cbn.
  - now destruct b.
  - now rewrite IH.
Qed.

(** A name without a slash, followed by [.yaml], is one component. *)
Lemma yaml_component (n : string) :
  ~ In "/"%char (Str.chars n) -> plain_component (n ++ ".yaml").
Proof.
  intros Hslash. split; [ | split ].
  - destruct n; discriminate.
  - destruct n as [ | c [ | c' n']]; discriminate.
  - rewrite chars_append. intros Hin. apply in_app_or in Hin.
    destruct Hin as [Hin | Hin]; [ contradiction | ].
    cbn in Hin. repeat destruct Hin as [Hin | Hin]; try discriminate Hin.
    exact Hin.
Qed.

(** The file [p / (n + ".yaml")]: its folder is [p], its name is
    [n.yaml], and, unless [n] is empty, its stem is [n]. *)
Lemma yaml_file_parts (p : Path) (n : string) :
  ~ In "/"%char (Str.chars n) ->
  PathOps.parent (p // (n ++ ".yaml")) = p /\
  PathOps.name (p // (n ++ ".yaml")) = n ++ ".yaml" /\
  (n <> EmptyString -> PathOps.stem (p // (n ++ ".yaml")) = n).
Proof.
  intros Hslash.
  rewrite (joinpath_component p _ (yaml_component n Hslash)).
  unfold PathOps.parent, PathOps.stem, PathOps.name. cbn [absolute parts].
  rewrite removelast_last, last_last.
  split; [ now destruct p | split; [ reflexivity | ] ].
  intros Hne. unfold Str.rfind. rewrite chars_append.
  change (Str.chars ".yaml") with ("."%char :: Str.chars "yaml").
  rewrite rfind_from_last.
  2:{ cbn. intros Hin. repeat destruct Hin as [Hin | Hin];
        try discriminate Hin. exact Hin. }
  rewrite chars_length. cbn [Nat.add].
  assert (Hlen : (0 < String.length n)%nat).
  { destruct n; [ contradiction | cbn; lia ]. }
  assert (Hlen2 : String.length (n ++ ".yaml") = (String.length n + 5)%nat).
  { rewrite <- !chars_length, chars_append, length_app. reflexivity. }
  rewrite Hlen2.
  replace (Nat.ltb 0 (String.length n)) with true
    by (symmetry; apply Nat.ltb_lt; lia).
  replace (Nat.ltb (String.length n) (String.length n + 5 - 1)) with true
    by (symmetry; apply Nat.ltb_lt; lia).
  cbn [andb]. apply substring_append.
Qed.

(** A call of [from_external_config_file] that returns: what was checked
    on the way and what the setter of [environment] returned. *)
Lemma from_external_config_file_returns `{Globals} w path t env sf self w' :
  from_external_config_file w path t env sf = (Ok self, w') ->
  exists cm cfg,
    FS.exists_ w path = true /\
    from_file w path = Ok cm /\
    In env (available_environments cm) /\
    manager_get cm env = Ok cfg /\
    (if LOGGING_ENABLED w
     then setup_logging
            (w, set_config (set__environment (external_loaded path t sf cm) env)
                  cfg)
     else (Ok tt,
           (w, set_config (set__environment (external_loaded path t sf cm) env)
                 cfg)))
    = (Ok tt, (w', self)).
Proof.
  rewrite from_external_config_file_steps. intros E.
  destruct (FS.exists_ w path) eqn:Ex; [ | discriminate E ].
  destruct (from_file w path) as [cm | e] eqn:Ef; [ | discriminate E ].
  unfold returning_self in E.
  destruct (environment_setter env (w, external_loaded path t sf cm))
    as [[[] | e] [w1 self1]] eqn:Es; [ | discriminate E ].
  inversion E; subst w' self; clear E.
  rewrite environment_setter_cases in Es.
  change (config_manager (external_loaded path t sf cm))
    with (Some (Some cm)) in Es.
  cbv beta iota in Es.
  destruct (existsb (String.eqb env) (available_environments cm)) eqn:Hin;
    [ | discriminate Es ].
  destruct (manager_get cm env) as [cfg | e] eqn:Hget; [ | discriminate Es ].
  exists cm, cfg. repeat split; try assumption.
  now apply existsb_eqb_In.
Qed.

Lemma set_log_twice (c : AppContext) a b :
  set_log (set_log c a) b = set_log c b.
Proof. reflexivity. Qed.

(** The object a construction returns, in full. *)
Lemma AppContext_new_object `{Globals} w t n sf env self w' :
  AppContext_new w t n sf env = (Ok self, w') ->
  exists cm cfg,
    from_file w (config_folder (instance_folders t n sf) // (n ++ ".yaml"))
      = Ok cm /\
    manager_get cm env = Ok cfg /\
    self = set_log (set_config (set__environment (init_loaded t n sf cm) env)
                      cfg) None.
Proof.
  intros E. apply AppContext_new_returns in E. cbn zeta in E.
  destruct E as (cm & cfg & self1 & _ & Ef & _ & Hget & Es & ->).
  exists cm, cfg. split; [ exact Ef | ]. split; [ exact Hget | ].
  destruct (LOGGING_ENABLED w).
  - apply setup_logging_self in Es. rewrite Es. apply set_log_twice.
  - inversion Es as [[Hw Hs]]. reflexivity.
Qed.

(** The object [from_external_config_file] returns, in full. *)
Lemma from_external_config_file_object `{Globals} w path t env sf self w' :
  from_external_config_file w path t env sf = (Ok self, w') ->
  exists cm cfg,
    from_file w path = Ok cm /\
    manager_get cm env = Ok cfg /\
    self = (if LOGGING_ENABLED w
            then fun c => set_log c (Some "context")
            else fun c => c)
             (set_config (set__environment (external_loaded path t sf cm) env)
                cfg).
Proof.
  intros E. apply from_external_config_file_returns in E.
  destruct E as (cm & cfg & _ & Ef & _ & Hget & Es).
  exists cm, cfg. split; [ exact Ef | ]. split; [ exact Hget | ].
  destruct (LOGGING_ENABLED w).
  - now apply setup_logging_self in Es.
  - now inversion Es.
Qed.

(** X1: a call [AppContext(...)] that returns has answered the instance
    of the class, which the class keeps.  When the class had an instance,
    that instance is answered whatever the arguments are, and the process
    is not touched.  When it had none, the answered context is new: it has
    the three folders of [instance_folders], the file
    [config_dir / (name + ".yaml")] as [config_file], the manager loaded
    from that file, the requested environment with the settings the
    manager gives for it, and [None] as [log]: the last statement of
    [__init__] overwrites the logger that [setup_logging] stored during
    the assignment of [environment]. *)
Theorem AppContext_call_attributes `{Globals} (registered : option AppContext)
  (w w' : World) (instance_type instance_name : string)
  (system_folders : bool) (env : string) (self : AppContext)
  (registered' : option AppContext) :
  AppContext_call registered w instance_type instance_name system_folders env
    = (Ok self, (w', registered')) ->
  let dirs := instance_folders instance_type instance_name system_folders in
  registered' = Some self /\
  match registered with
  | Some first => self = first /\ w' = w
  | None =>
      exists cm cfg,
        from_file w (config_folder dirs // (instance_name ++ ".yaml"))
          = Ok cm /\
        manager_get cm env = Ok cfg /\
        log_dir self = Some (log_folder dirs) /\
        data_dir self = Some (data_folder dirs) /\
        config_dir self = Some (config_folder dirs) /\
        config_file self
          = Ok (config_folder dirs // (instance_name ++ ".yaml")) /\
        config_manager self = Some (Some cm) /\
        environment self = Ok env /\
        config self = Some cfg /\
        log self = Some None
  end.
Proof.
  intros E. cbn zeta. apply AppContext_call_returns in E.
  destruct E as [Hreg E]. split; [ exact Hreg | ].
  destruct registered as [first | ]; [ exact E | ].
  apply AppContext_new_object in E.
  destruct E as (cm & cfg & Ef & Hget & ->).
  exists cm, cfg. repeat split; try assumption; reflexivity.
Qed.

(** X1 on the example process: the first call makes the node [node1],
    environment [prod], logging on; a second call, for another node, gets
    the first one. *)
Lemma AppContext_call_attributes_witness :
  exists self w',
    @AppContext_call Example.linux None (Example.world true) "node" "node1"
      false "prod" = (Ok self, (w', Some self)) /\
    config_file self = Ok Example.node1_yaml /\
    config self = Some Example.prod /\
    log self = Some None /\
    @AppContext_call Example.linux (Some self) w' "node" "node2" true "test"
    = (Ok self, (w', Some self)).
Proof.
  destruct (@AppContext_call Example.linux None (Example.world true) "node"
              "node1" false "prod") as [r [w' registered']] eqn:E.
  destruct r as [self | e]; [ | vm_compute in E; discriminate E ].
  destruct (@AppContext_call_attributes Example.linux _ _ _ _ _ _ _ _ _ E)
    as (-> & cm & cfg & Ef & Hget & _ & _ & _ & Hcf & _ & _ & Hc & Hl).
  exists self, w'. split; [ reflexivity | ].
  vm_compute in Ef. inversion Ef; subst cm; clear Ef.
  vm_compute in Hget. inversion Hget; subst cfg; clear Hget.
  repeat split; assumption.
Defined.

(** X2: on the context that [AppContext(...)] constructs, while the
    class has no instance, for an instance name without a slash, the
    configuration file lies in [config_dir] and is called [name.yaml];
    unless the name is empty, [config_file_name] is the instance name. *)
Theorem config_file_name_is_instance_name `{Globals} (w w' : World)
  (instance_type instance_name : string) (system_folders : bool)
  (env : string) (self : AppContext) (registered' : option AppContext) :
  AppContext_call None w instance_type instance_name system_folders env
    = (Ok self, (w', registered')) ->
  ~ In "/"%char (Str.chars instance_name) ->
  exists file dir,
    config_file self = Ok file /\ config_dir self = Some dir /\
    PathOps.parent file = dir /\
    PathOps.name file = instance_name ++ ".yaml" /\
    (instance_name <> EmptyString -> config_file_name self = Ok instance_name).
Proof.
  intros E Hslash. apply AppContext_call_returns in E. destruct E as [_ E].
  apply AppContext_new_object in E.
  destruct E as (cm & cfg & _ & _ & ->).
  destruct (yaml_file_parts
              (config_folder
                 (instance_folders instance_type instance_name system_folders))
              instance_name Hslash) as (Hp & Hn & Hs).
  eexists. eexists. split; [ reflexivity | ]. split; [ reflexivity | ].
  split; [ exact Hp | ]. split; [ exact Hn | ].
  intros Hne. unfold config_file_name, read. cbn [rbind].
  cbn [_AppContext__config_file set_log set_config set__environment
       init_loaded set_config_manager set__config_file rbind].
  now rewrite (Hs Hne).
Qed.

(** X2 on the example process. *)
Lemma config_file_name_is_instance_name_witness :
  exists self w',
    @AppContext_call Example.linux None (Example.world true) "node" "node1"
      false "prod" = (Ok self, (w', Some self)) /\
    config_file_name self = Ok "node1".
Proof.
  destruct (@AppContext_call Example.linux None (Example.world true) "node"
              "node1" false "prod") as [r [w' registered']] eqn:E.
  destruct r as [self | e]; [ | vm_compute in E; discriminate E ].
  destruct (@AppContext_call_returns Example.linux _ _ _ _ _ _ _ _ _ E)
    as [-> _].
  exists self, w'. split; [ reflexivity | ].
  destruct (@config_file_name_is_instance_name Example.linux _ _ _ _ _ _ _ _ E)
    as (file & dir & _ & _ & _ & _ & Hname).
  - cbn. intros Hin. repeat destruct Hin as [Hin | Hin];
      try discriminate Hin. exact Hin.
  - apply Hname. discriminate.
Defined.

(** X3: every context that [from_external_config_file] returns has the
    folder of the given file as [config_dir], the given path as
    [config_file], and as log and data folders those [instance_folders]
    gives for the stem of the file; its manager is the one loaded from the
    file, its environment and settings are the requested ones, and [log]
    is the logger of [setup_logging] when [LOGGING_ENABLED] is on and was
    never assigned when it is off. *)
Theorem from_external_config_file_attributes `{Globals} (w w' : World)
  (path : Path) (instance_type env : string) (system_folders : bool)
  (self : AppContext) :
  from_external_config_file w path instance_type env system_folders
    = (Ok self, w') ->
  let dirs :=
    instance_folders instance_type (PathOps.stem path) system_folders in
  exists cm cfg,
    from_file w path = Ok cm /\
    manager_get cm env = Ok cfg /\
    config_dir self = Some (PathOps.parent path) /\
    log_dir self = Some (log_folder dirs) /\
    data_dir self = Some (data_folder dirs) /\
    config_file self = Ok path /\
    config_file_name self = Ok (PathOps.stem path) /\
    config_manager self = Some (Some cm) /\
    environment self = Ok env /\
    config self = Some cfg /\
    log self = (if LOGGING_ENABLED w then Some (Some "context") else None).
Proof.
  intros E. cbn zeta. apply from_external_config_file_object in E.
  destruct E as (cm & cfg & Ef & Hget & ->).
  exists cm, cfg.
  destruct (LOGGING_ENABLED w); repeat split; try assumption; reflexivity.
Qed.

(** X3 on the example process: [node1.yaml], environment [acc], whose
    logging section names the log file. *)
Lemma from_external_config_file_attributes_witness :
  exists self w',
    @from_external_config_file Example.linux (Example.world true)
      Example.node1_yaml "node" "acc" false = (Ok self, w') /\
    config_dir self = Some Example.config_root /\
    config_file_name self = Ok "node1" /\
    log self = Some (Some "context").
Proof.
  destruct (@from_external_config_file Example.linux (Example.world true)
              Example.node1_yaml "node" "acc" false) as [r w'] eqn:E.
  destruct r as [self | e]; [ | vm_compute in E; discriminate E ].
  exists self, w'. split; [ reflexivity | ].
  destruct (@from_external_config_file_attributes Example.linux _ _ _ _ _ _ _ E)
    as (cm & cfg & _ & _ & Hd & _ & _ & _ & Hn & _ & _ & _ & Hl).
  repeat split; assumption.
Defined.

(** X4: with [LOGGING_ENABLED] off, [from_external_config_file] on the
    configuration file of the context that [AppContext(...)] constructed,
    while the class had no instance, for an instance name that is not
    empty and has no slash, returns too, leaves the process as it was, and
    gives a context with the same folders, file, manager, environment and
    settings; only [name] and [scope], and [log], are not assigned. *)
Theorem from_external_config_file_of_constructed `{Globals} (w w' : World)
  (instance_type instance_name : string) (system_folders : bool)
  (env : string) (self : AppContext) (registered' : option AppContext) :
  LOGGING_ENABLED w = false ->
  instance_name <> EmptyString ->
  ~ In "/"%char (Str.chars instance_name) ->
  AppContext_call None w instance_type instance_name system_folders env
    = (Ok self, (w', registered')) ->
  exists file other,
    config_file self = Ok file /\
    from_external_config_file w file instance_type env system_folders
      = (Ok other, w) /\
    self = set_log
             (set_scope (set_name other instance_name)
                (if system_folders then "system" else "user"))
             None /\
    name other = None /\ scope other = None /\ log other = None.
Proof.
  intros Hoff Hne Hslash E.
  apply AppContext_call_returns in E. destruct E as [_ E].
  pose proof (AppContext_new_returns _ _ _ _ _ _ _ E) as R. cbn zeta in R.
  destruct R as (cm & cfg & self1 & Ex & Ef & Hin & Hget & _ & _).
  apply AppContext_new_object in E.
  destruct E as (cm' & cfg' & Ef' & Hget' & ->).
  rewrite Ef in Ef'. inversion Ef'; subst cm'; clear Ef'.
  rewrite Hget in Hget'. inversion Hget'; subst cfg'; clear Hget'.
  set (dirs := instance_folders instance_type instance_name system_folders)
    in *.
  set (file := config_folder dirs // (instance_name ++ ".yaml")) in *.
  destruct (yaml_file_parts (config_folder dirs) instance_name Hslash)
    as (Hp & _ & Hs). specialize (Hs Hne). fold file in Hp, Hs.
  exists file,
    (set_config
       (set__environment
          (external_loaded file instance_type system_folders cm) env) cfg).
  split; [ reflexivity | ]. split.
  - rewrite from_external_config_file_steps, Ex, Ef.
    rewrite environment_setter_cases.
    change (config_manager
              (external_loaded file instance_type system_folders cm))
      with (Some (Some cm)). cbv beta iota.
    apply existsb_eqb_In in Hin. rewrite Hin, Hget, Hoff. reflexivity.
  - unfold external_loaded, init_loaded. rewrite Hs, Hp. fold dirs file.
    repeat split; reflexivity.
Qed.

(** X4 on the example process: the node [node1], environment [test],
    logging off. *)
Lemma from_external_config_file_of_constructed_witness :
  exists self other file,
    @AppContext_call Example.linux None (Example.world false) "node" "node1"
      false "test" = (Ok self, (Example.world false, Some self)) /\
    config_file self = Ok file /\
    @from_external_config_file Example.linux (Example.world false)
      file "node" "test" false = (Ok other, Example.world false) /\
    self = set_log (set_scope (set_name other "node1") "user") None.
Proof.
  destruct (@AppContext_call Example.linux None (Example.world false) "node"
              "node1" false "test") as [r [w' registered']] eqn:E.
  destruct r as [self | e]; [ | vm_compute in E; discriminate E ].
  destruct (@AppContext_call_returns Example.linux _ _ _ _ _ _ _ _ _ E)
    as [-> _].
  assert (Hw : w' = Example.world false).
  { apply (f_equal (fun x => fst (snd x))) in E. vm_compute in E.
    symmetry. exact E. }
  subst w'.
  assert (Hslash : ~ In "/"%char (Str.chars "node1")).
  { cbn. intros Hin. repeat destruct Hin as [Hin | Hin];
      try discriminate Hin. exact Hin. }
  assert (Hne : "node1" <> EmptyString) by discriminate.
  destruct (@from_external_config_file_of_constructed Example.linux
              (Example.world false) (Example.world false) "node" "node1" false
              "test" self (Some self) eq_refl Hne Hslash E)
    as (file & other & Hf & Hext & Hself & _).
  exists self, other, file. repeat split; assumption.
Defined.

(** ** A process with logging switched off *)

(** X5: with the class flag [LOGGING_ENABLED] off, nothing an
    [AppContext] is made of touches the process: assigning
    [environment], constructing a context and
    [from_external_config_file] leave the file system and the root logger
    exactly as they were, whether they return or raise; and so does the
    call [AppContext(...)], whether the class has an instance or not. *)
Theorem logging_disabled_leaves_process `{Globals} (w : World) :
  LOGGING_ENABLED w = false ->
  (forall self env, fst (snd (environment_setter env (w, self))) = w) /\
  (forall instance_type instance_name system_folders env,
     snd (AppContext_new w instance_type instance_name system_folders env)
     = w) /\
  (forall path instance_type env system_folders,
     snd (from_external_config_file w path instance_type env system_folders)
     = w) /\
  (forall registered instance_type instance_name system_folders env,
     fst (snd (AppContext_call registered w instance_type instance_name
                 system_folders env)) = w).
Proof.
  intros Hoff.
  assert (Hset : forall self env,
            fst (snd (environment_setter env (w, self))) = w).
  { intros self env. rewrite environment_setter_cases.
    destruct (config_manager self) as [[cm | ] | ]; try reflexivity.
    destruct (existsb (String.eqb env) (available_environments cm));
      [ | reflexivity ].
    destruct (manager_get cm env); [ | reflexivity ].
    now rewrite Hoff. }
  assert (Hnew : forall t n sf env, snd (AppContext_new w t n sf env) = w).
  { intros t n sf env. rewrite AppContext_new_steps. cbn zeta.
    destruct (FS.exists_ w _); [ | reflexivity ].
    destruct (from_file w _) as [cm | e]; [ | reflexivity ].
    unfold returning_self, bind.
    specialize (Hset (init_loaded t n sf cm) env).
    destruct (environment_setter env (w, init_loaded t n sf cm))
      as [[u | e] [w1 self1]]; exact Hset. }
  split; [ exact Hset | split; [ exact Hnew | split ] ].
  2:{ intros registered t n sf env. unfold AppContext_call.
      destruct registered as [first | ]; [ reflexivity | ].
      specialize (Hnew t n sf env).
      destruct (AppContext_new w t n sf env) as [[self | e] w0]; exact Hnew. }
  - intros path t env sf. rewrite from_external_config_file_steps.
    destruct (FS.exists_ w path); [ | reflexivity ].
    destruct (from_file w path) as [cm | e]; [ | reflexivity ].
    unfold returning_self.
    specialize (Hset (external_loaded path t sf cm) env).
    destruct (environment_setter env (w, external_loaded path t sf cm))
      as [[u | e] [w1 self1]]; exact Hset.
Qed.

(** X5 on the example process with logging off: a construction that
    returns and one that raises. *)
Lemma logging_disabled_leaves_process_witness :
  snd (@AppContext_new Example.linux (Example.world false) "node" "node1"
         false "prod") = Example.world false /\
  snd (@AppContext_new Example.linux (Example.world false) "node" "node1"
         false "dev") = Example.world false.
Proof.
  destruct (@logging_disabled_leaves_process Example.linux
              (Example.world false) eq_refl) as (_ & Hnew & _).
  split; apply Hnew.
Defined.

(** ** The course of [setup_logging] *)

Lemma bind_update_world {B : Type} g (k : unit -> M B) s :
  bind (update_world g) k s = k tt (g (fst s), snd s).
Proof. reflexivity. Qed.

Lemma bind_get_world {B : Type} (k : World -> M B) s :
  bind get_world k s = k (fst s) s.
Proof. reflexivity. Qed.

Lemma bind_fresh_id {B : Type} (k : nat -> M B) s :
  bind fresh_id k s
  = k (next_id (fst s)) (with_next_id (fst s) (S (next_id (fst s))), snd s).
Proof. reflexivity. Qed.

Lemma bind_addHandler {B : Type} h (k : unit -> M B) s :
  bind (addHandler h) k s = k tt (attach h (fst s), snd s).
Proof. reflexivity. Qed.

Lemma bind_info {B : Type} msg (k : unit -> M B) s :
  bind (info msg) k s = k tt (deliver msg (fst s), snd s).
Proof. reflexivity. Qed.

Lemma bind_property_run {A B : Type} (p : AppContext -> result A)
  (k : A -> M B) w self a :
  p self = Ok a -> bind (property p) k (w, self) = k a (w, self).
Proof. intros E. unfold bind, property. cbn [snd]. now rewrite E. Qed.

Lemma bind_getattr_run {A B : Type} attr (proj : AppContext -> option A)
  (k : A -> M B) w self a :
  proj self = Some a -> bind (getattr attr proj) k (w, self) = k a (w, self).
Proof. intros E. unfold bind, getattr. cbn [snd]. now rewrite E. Qed.

Lemma bind_try_world_run {B : Type} f (k : unit -> M B) w self w' :
  f w = Ok w' -> bind (try_world f) k (w, self) = k tt (w', self).
Proof. intros E. unfold bind, try_world. cbn [fst snd]. now rewrite E. Qed.

Lemma makedirs_dirname_try p :
  absolute (PathOps.parent p) = true \/ parts (PathOps.parent p) <> [] ->
  makedirs_dirname p
  = try_world (fun w => FS.makedirs w (PathOps.parent p)).
Proof.
  unfold makedirs_dirname.
  destruct (absolute (PathOps.parent p)), (parts (PathOps.parent p));
    try reflexivity.
  intros [Ha | Hp]; [ discriminate | contradiction ].
Qed.

Lemma cwd_deliver msg w : cwd (deliver msg w) = cwd w.
Proof. unfold deliver. now destruct (root_level w <=? INFO). Qed.

(** A run that finds all it needs returns, and ends in [run_result]. *)
Lemma setup_logging_run `{Globals} (w : World) (self : AppContext)
  (r : SetupRun) :
  setup_run w self r ->
  setup_logging (w, self)
  = (Ok tt, (run_result r, set_log self (Some "context"))).
Proof.
  destruct r as [cfg section level_name level format_ datefmt lf max_size
                   maxBytes backupCount use_console env cf w1 w2].
  unfold setup_run, run_result. cbn [run_cfg run_section run_level_name
    run_level run_format run_datefmt run_log_file run_max_size run_maxBytes
    run_backupCount run_use_console run_env run_config_file run_made
    run_opened].
  intros (Hcfg & Hsec & Hname & Hlevel & Hfmt & Hdf & Hlf & Hdir & Hmk & Hms
          & Hmb & Hbc & Hopen & Huc & Henv & Hcf).
  destruct (value_upper level_name) as [up | ] eqn:Hup; [ | discriminate ].
  cbn [rbind] in Hlevel.
  unfold setup_logging.
  rewrite (bind_getattr_run "config" config _ w self cfg Hcfg).
  rewrite (bind_lift_Ok _ _ _ _ Hsec).
  rewrite (bind_lift_Ok _ _ _ _ Hname).
  rewrite (bind_lift_Ok _ _ _ _ Hup).
  rewrite (bind_lift_Ok _ _ _ _ Hlevel).
  rewrite (bind_lift_Ok _ _ _ _ Hfmt).
  rewrite (bind_lift_Ok _ _ _ _ Hdf).
  rewrite (bind_property_run _ _ _ _ _ Hlf).
  rewrite (makedirs_dirname_try _ Hdir).
  rewrite (bind_try_world_run _ _ _ _ _ Hmk).
  rewrite bind_update_world.
  rewrite (bind_property_run _ _ _ _ _ Hlf).
  rewrite (bind_lift_Ok _ _ _ _ Hms).
  rewrite (bind_lift_Ok _ _ _ _ Hmb).
  rewrite (bind_lift_Ok _ _ _ _ Hbc).
  rewrite bind_fresh_id. cbn [fst snd].
  rewrite (bind_try_world_run _ _ _ _ _ Hopen).
  rewrite bind_get_world. cbn [fst snd].
  rewrite bind_addHandler. cbn [fst snd].
  rewrite (bind_lift_Ok _ _ _ _ Huc).
  cbn [next_id with_root_level].
  unfold logged.
  set (w3 := attach _ w2).
  assert (Hconsole :
    forall (k : unit -> M unit),
      bind (if truthy use_console
            then ch <- fresh_id ;;
                 addHandler (ColorStreamHandler ch level format_ datefmt)
            else ret tt) k (w3, self)
      = k tt (if truthy use_console
              then attach (ColorStreamHandler (next_id w3) level format_ datefmt)
                     (with_next_id w3 (S (next_id w3)))
              else w3, self)).
  { intros k. now destruct (truthy use_console). }
  rewrite Hconsole. clear Hconsole.
  set (w4 := if truthy use_console then _ else w3).
  rewrite bind_update_world. cbn [fst snd].
  rewrite !bind_info. cbn [fst snd].
  rewrite (bind_property_run _ _ _ _ _ Henv).
  rewrite bind_info, bind_get_world, bind_info. cbn [fst snd].
  rewrite (bind_property_run _ _ _ _ _ Hcf).
  rewrite bind_info. cbn [fst snd].
  rewrite (bind_property_run _ _ _ _ _ Hlf).
  rewrite bind_info. cbn [fst snd].
  cbv [update_self fst snd].
  rewrite !cwd_deliver. cbn [cwd with_warnings_captured].
  reflexivity.
Qed.

(** And every call that returns was such a run. *)
Lemma setup_logging_returns_run `{Globals} (w : World) (self : AppContext)
  u w' self' :
  setup_logging (w, self) = (Ok u, (w', self')) ->
  exists r, setup_run w self r /\ w' = run_result r /\
            self' = set_log self (Some "context").
Proof.
  intros E0. pose proof E0 as E. unfold setup_logging in E.
  bind_step E cfg s1 E1. apply getattr_returns in E1. destruct E1 as [Hcfg ->].
  bind_step E section s1 E1. apply lift_returns in E1. destruct E1 as [Hsec ->].
  bind_step E level_name s1 E1. apply lift_returns in E1.
  destruct E1 as [Hname ->].
  bind_step E up s1 E1. apply lift_returns in E1. destruct E1 as [Hup ->].
  bind_step E level s1 E1. apply lift_returns in E1. destruct E1 as [Hlevel ->].
  bind_step E format_ s1 E1. apply lift_returns in E1. destruct E1 as [Hfmt ->].
  bind_step E datefmt s1 E1. apply lift_returns in E1. destruct E1 as [Hdf ->].
  bind_step E lf s1 E1. apply property_returns in E1. destruct E1 as [Hlf ->].
  cbn [snd] in Hcfg, Hlf.
  assert (Hdir : absolute (PathOps.parent lf) = true \/
                 parts (PathOps.parent lf) <> []).
  { apply bind_returns in E. destruct E as (a & s1 & E1 & _).
    unfold makedirs_dirname in E1.
    destruct (absolute (PathOps.parent lf)); [ now left | ].
    destruct (parts (PathOps.parent lf)); [ discriminate E1 | now right ]. }
  bind_step E u1 s1 E1. apply makedirs_dirname_returns in E1.
  destruct E1 as (w1 & Hmk & ->). cbn [fst snd] in *.
  rewrite bind_update_world in E. cbn [fst snd] in E.
  bind_step E lf' s1 E1. apply property_returns in E1.
  destruct E1 as [Hlf' ->]. cbn [snd] in Hlf'. rewrite Hlf in Hlf'.
  inversion Hlf'; subst lf'; clear Hlf'.
  bind_step E max_size s1 E1. apply lift_returns in E1. destruct E1 as [Hms ->].
  bind_step E maxBytes s1 E1. apply lift_returns in E1. destruct E1 as [Hmb ->].
  bind_step E backupCount s1 E1. apply lift_returns in E1.
  destruct E1 as [Hbc ->].
  rewrite bind_fresh_id in E. cbn [fst snd] in E.
  bind_step E u3 s1 E1. apply try_world_returns in E1.
  destruct E1 as (w2 & Hopen & ->). cbn [fst snd] in *.
  rewrite bind_get_world, bind_addHandler in E. cbn [fst snd] in E.
  bind_step E use_console s1 E1. apply lift_returns in E1.
  destruct E1 as [Huc ->].
  bind_step E u5 s1 E1.
  assert (Hself : snd s1 = self).
  { destruct (truthy use_console).
    - cbv [bind fresh_id addHandler update_world fst snd] in E1.
      now inversion E1.
    - cbv [ret] in E1. now inversion E1. }
  clear E1. destruct s1 as [w4 self4]. cbn [snd] in Hself. subst self4.
  rewrite bind_update_world in E. rewrite !bind_info in E. cbn [fst snd] in E.
  bind_step E env s1 E1. apply property_returns in E1.
  destruct E1 as [Henv ->]. cbn [snd] in Henv.
  rewrite bind_info, bind_get_world, bind_info in E. cbn [fst snd] in E.
  bind_step E cf s1 E1. apply property_returns in E1.
  destruct E1 as [Hcf ->]. cbn [snd] in Hcf.
  clear E.
  set (r := {| run_cfg := cfg; run_section := section;
               run_level_name := level_name; run_level := level;
               run_format := format_; run_datefmt := datefmt;
               run_log_file := lf; run_max_size := max_size;
               run_maxBytes := maxBytes; run_backupCount := backupCount;
               run_use_console := use_console; run_env := env;
               run_config_file := cf; run_made := w1; run_opened := w2 |}).
  assert (Hrun : setup_run w self r).
  { unfold setup_run, r.
    cbn [run_cfg run_section run_level_name run_level run_format run_datefmt
         run_log_file run_max_size run_maxBytes run_backupCount
         run_use_console run_env run_config_file run_made run_opened].
    rewrite Hup. cbn [rbind].
    repeat (split; [ first [ assumption | exact Hopen ] | ]).
    exact Hcf. }
  exists r. split; [ exact Hrun | ].
  rewrite (setup_logging_run w self r Hrun) in E0.
  inversion E0. now split.
Qed.

(** ** The file system under the methods *)

Lemma files_kept_refl w : files_kept w w.
Proof. split; exists []; now rewrite app_nil_r. Qed.

(** A step on the process that leaves the file system alone. *)
Lemma files_kept_same w w' :
  files w' = files w -> directories w' = directories w -> files_kept w w'.
Proof.
  intros Hf Hd. split; exists []; [ rewrite Hf | rewrite Hd ];
    now rewrite app_nil_r.
Qed.

Lemma open_append_files_kept w p w' :
  FS.open_append w p = Ok w' -> files_kept w w'.
Proof.
  unfold FS.open_append.
  destruct (FS.is_dir w (FS.abspath w p)); [ discriminate | ].
  destruct (FS.is_file w (FS.abspath w p)).
  - intros E. inversion E. apply files_kept_refl.
  - destruct (FS.is_dir w (PathOps.parent (FS.abspath w p)));
      intros E; inversion E.
    split; cbn; [ eauto | exists []; now rewrite app_nil_r ].
Qed.

Lemma wkeeps_raise {X A : Type} (f : World -> X) e : wkeeps f (@raise A e).
Proof. now intros s. Qed.

Lemma wkeeps_addHandler {X : Type} (f : World -> X) h :
  (forall w hs, f (with_root_handlers w hs) = f w) -> wkeeps f (addHandler h).
Proof.
  intros Hf s. unfold addHandler, update_world. cbn [fst snd].
  destruct (existsb _ _); [ reflexivity | apply Hf ].
Qed.

Lemma wkeeps_fresh_id {X : Type} (f : World -> X) :
  (forall w n, f (with_next_id w n) = f w) -> wkeeps f fresh_id.
Proof. intros Hf s. apply Hf. Qed.

Lemma wkeeps_try_world {X : Type} (f : World -> X) g :
  (forall w w', g w = Ok w' -> f w' = f w) -> wkeeps f (try_world g).
Proof.
  intros Hg s. unfold try_world.
  destruct (g (fst s)) eqn:E; cbn [fst snd]; [ now apply Hg | reflexivity ].
Qed.

Lemma wkeeps_makedirs_dirname {X : Type} (f : World -> X) p :
  (forall w d w', FS.makedirs w d = Ok w' -> f w' = f w) ->
  wkeeps f (makedirs_dirname p).
Proof.
  intros Hg. unfold makedirs_dirname.
  destruct (absolute (PathOps.parent p)), (parts (PathOps.parent p));
    try (apply wkeeps_try_world; intros w w'; apply Hg).
  apply wkeeps_raise.
Qed.

(** ** What a successful [setup_logging] leaves behind *)

Lemma path_eqb_refl p : path_eqb p p = true.
Proof. unfold path_eqb. now destruct (path_eq_dec p p). Qed.

(** With an absolute working directory, [abspath] of an absolute path
    is that path. *)
Lemma abspath_absolute w p :
  absolute (cwd w) = true -> absolute (FS.abspath w p) = true.
Proof.
  intros Hc. unfold FS.abspath, PathOps.joinpath_path.
  destruct (absolute p) eqn:Hp; [ exact Hp | exact Hc ].
Qed.

Lemma abspath_idem w p :
  absolute (cwd w) = true -> FS.abspath w (FS.abspath w p) = FS.abspath w p.
Proof.
  intros Hc. unfold FS.abspath at 1. unfold PathOps.joinpath_path.
  now rewrite (abspath_absolute w p Hc).
Qed.

Lemma prefixes_from_last a todo : forall done,
  todo <> [] ->
  In (mkPath a (done ++ todo)) (PathOps.prefixes_from a done todo).
Proof.
  induction todo as [ | x todo IH]; intros done Hne; [ contradiction | ].
  cbn. destruct todo as [ | y todo].
  - now left.
  - right. specialize (IH (done ++ [x])%list). rewrite <- app_assoc in IH.
    apply IH. discriminate.
Qed.

Lemma prefixes_self p : parts p <> [] -> In p (PathOps.prefixes p).
Proof.
  intros Hne. unfold PathOps.prefixes.
  pose proof (prefixes_from_last (absolute p) (parts p) [] Hne) as Hin.
  now destruct p.
Qed.

Lemma existsb_path_In q l : existsb (path_eqb q) l = true <-> In q l.
Proof.
  rewrite existsb_exists. split.
  - intros (x & Hx & E). unfold path_eqb in E.
    destruct (path_eq_dec q x); [ now subst | discriminate ].
  - intros Hin. exists q. split; [ exact Hin | apply path_eqb_refl ].
Qed.

(** After [makedirs] the directory is there. *)
Lemma makedirs_is_dir w d w' :
  absolute (cwd w) = true ->
  FS.makedirs w d = Ok w' -> FS.is_dir w' d = true.
Proof.
  intros Hc. unfold FS.makedirs.
  destruct (existsb _ _); intros E; inversion E; clear E.
  unfold FS.is_dir at 1. change (FS.abspath (with_files w _ _) d)
    with (FS.abspath w d). cbv zeta.
  destruct (parts (FS.abspath w d)) eqn:Hp; [ reflexivity | ].
  cbn [directories with_files]. rewrite existsb_app.
  destruct (FS.is_dir w (FS.abspath w d)) eqn:Hd.
  - unfold FS.is_dir in Hd. rewrite (abspath_idem w d Hc), Hp in Hd.
    now rewrite Hd.
  - apply orb_true_iff. right. apply existsb_path_In, filter_In.
    split; [ | now rewrite Hd ].
    apply prefixes_self. now rewrite Hp.
Qed.

Lemma find_file_last q fs c :
  FS.find_file q (fs ++ [(q, c)]) <> None.
Proof.
  induction fs as [ | [p c'] fs IH]; cbn.
  - now rewrite path_eqb_refl.
  - destruct (path_eqb q p); [ discriminate | exact IH ].
Qed.

(** After the log file is opened it is there. *)
Lemma open_append_is_file w p w' :
  absolute (cwd w) = true ->
  FS.open_append w p = Ok w' -> FS.is_file w' p = true.
Proof.
  intros Hc. unfold FS.open_append.
  destruct (FS.is_dir w (FS.abspath w p)); [ discriminate | ].
  destruct (FS.is_file w (FS.abspath w p)) eqn:Hf.
  - intros E. inversion E; subst w'. unfold FS.is_file in *.
    now rewrite (abspath_idem w p Hc) in Hf.
  - destruct (FS.is_dir w (PathOps.parent (FS.abspath w p)));
      intros E; inversion E; clear E.
    unfold FS.is_file. change (FS.abspath (with_files w _ _) p)
      with (FS.abspath w p). cbn [files with_files].
    pose proof (find_file_last (FS.abspath w p) (files w) Unparsable) as Hl.
    now destruct (FS.find_file _ _).
Qed.

Lemma is_dir_kept w w' p :
  files_kept w w' -> cwd w' = cwd w ->
  FS.is_dir w p = true -> FS.is_dir w' p = true.
Proof.
  intros [_ [more Hd]] Hc. unfold FS.is_dir, FS.abspath. rewrite Hc, Hd.
  destruct (parts _); [ reflexivity | ].
  rewrite existsb_app. intros ->. reflexivity.
Qed.

Lemma deliver_all_frame {X : Type} (f : World -> X) msgs :
  (forall w d, f (with_delivered w d) = f w) ->
  forall w, f (deliver_all msgs w) = f w.
Proof.
  intros Hf. unfold deliver_all.
  induction msgs as [ | m msgs IH]; intros w; cbn; [ reflexivity | ].
  rewrite IH. unfold deliver.
  destruct (root_level w <=? INFO); [ apply Hf | reflexivity ].
Qed.

Lemma attach_frame {X : Type} (f : World -> X) h w :
  (forall w hs, f (with_root_handlers w hs) = f w) -> f (attach h w) = f w.
Proof.
  intros Hf. unfold attach. destruct (existsb _ _); [ reflexivity | apply Hf ].
Qed.

(** From the opened log file to the end, [setup_logging] changes the
    handlers, the identities, the warnings flag and the records
    delivered, and nothing else. *)
Lemma logged_frame `{Globals} {X : Type} (f : World -> X) w2 rfh lf maxBytes
  backupCount level format_ datefmt use_console env cf :
  (forall w hs, f (with_root_handlers w hs) = f w) ->
  (forall w n, f (with_next_id w n) = f w) ->
  (forall w b, f (with_warnings_captured w b) = f w) ->
  (forall w d, f (with_delivered w d) = f w) ->
  f (logged w2 rfh lf maxBytes backupCount level format_ datefmt use_console
       env cf) = f w2.
Proof.
  intros F1 F2 F3 F4. unfold logged.
  rewrite (deliver_all_frame f _ F4), F3.
  destruct (truthy use_console).
  - now rewrite (attach_frame f _ _ F1), F2, (attach_frame f _ _ F1).
  - now rewrite (attach_frame f _ _ F1).
Qed.

(** What opening the log file leaves alone. *)
Lemma open_append_frame {X : Type} (f : World -> X) w p w' :
  (forall w fs ds, f (with_files w fs ds) = f w) ->
  FS.open_append w p = Ok w' -> f w' = f w.
Proof.
  intros F1. unfold FS.open_append.
  destruct (FS.is_dir w (FS.abspath w p)); [ discriminate | ].
  destruct (FS.is_file w (FS.abspath w p)).
  - intros E. now inversion E.
  - destruct (FS.is_dir w (PathOps.parent (FS.abspath w p)));
      intros E; inversion E. apply F1.
Qed.

Lemma makedirs_frame {X : Type} (f : World -> X) w d w' :
  (forall w fs ds, f (with_files w fs ds) = f w) ->
  FS.makedirs w d = Ok w' -> f w' = f w.
Proof.
  intros F1. unfold FS.makedirs.
  destruct (existsb _ _); intros E; inversion E. apply F1.
Qed.

(** X6: when [setup_logging] returns, in a process whose working
    directory is absolute, the folder of the log file exists and so does
    the log file, the root logger has the level the [level] entry of the
    [logging] section names in any case of letters, warnings are captured,
    [self.log] is the logger [context] and no other attribute of [self]
    has changed. *)
Theorem setup_logging_effects `{Globals} (w w' : World)
  (self self' : AppContext) (u : unit) :
  absolute (cwd w) = true ->
  setup_logging (w, self) = (Ok u, (w', self')) ->
  exists cfg section level_name level lf,
    config self = Some cfg /\
    dict_subscript cfg "logging" = Ok section /\
    subscript section "level" = Ok (VStr level_name) /\
    logging_level (Str.upper level_name) = Ok level /\
    log_file self = Ok lf /\
    FS.is_dir w' (PathOps.parent lf) = true /\
    FS.is_file w' lf = true /\
    root_level w' = level /\
    warnings_captured w' = true /\
    self' = set_log self (Some "context").
Proof.
  intros Hc E. apply setup_logging_returns_run in E.
  destruct E as (r & Hrun & -> & ->).
  destruct Hrun as (Hcfg & Hsec & Hname & Hlevel & _ & _ & Hlf & _ & Hmk & _
                    & _ & _ & Hopen & _).
  destruct (run_level_name r) as [ | | | name | | | ] eqn:Hn;
    try discriminate Hlevel.
  cbn [value_upper rbind] in Hlevel.
  exists (run_cfg r), (run_section r), name, (run_level r), (run_log_file r).
  assert (Hc1 : cwd (run_made r) = cwd w)
    by (apply (makedirs_frame cwd _ _ _ (fun _ _ _ => eq_refl) Hmk)).
  assert (Hc2 : cwd (run_opened r) = cwd w).
  { rewrite (open_append_frame cwd _ _ _ (fun _ _ _ => eq_refl) Hopen).
    exact Hc1. }
  assert (Hcl : absolute (cwd (leveled (run_made r) (run_level r))) = true)
    by (cbn; now rewrite Hc1).
  repeat (split; [ assumption | ]).
  unfold run_result. split; [ | split; [ | split; [ | split ] ] ].
  - unfold FS.is_dir, FS.abspath.
    rewrite (logged_frame cwd), (logged_frame directories);
      try (intros; reflexivity).
    apply (is_dir_kept (leveled (run_made r) (run_level r))).
    + now apply open_append_files_kept in Hopen.
    + now rewrite Hc2.
    + apply (is_dir_kept (run_made r) (leveled (run_made r) (run_level r)));
        [ now apply files_kept_same | reflexivity | ].
      now apply (makedirs_is_dir w).
  - unfold FS.is_file, FS.abspath.
    rewrite (logged_frame cwd), (logged_frame files);
      try (intros; reflexivity).
    now apply (open_append_is_file _ _ _ Hcl Hopen).
  - rewrite (logged_frame root_level); try (intros; reflexivity).
    now rewrite (open_append_frame root_level _ _ _ (fun _ _ _ => eq_refl)
                   Hopen).
  - unfold logged.
    now rewrite (deliver_all_frame warnings_captured _ (fun _ _ => eq_refl)).
  - reflexivity.
Qed.

(** X6 on the example process: the first setup for environment [prod]. *)
Lemma setup_logging_effects_witness :
  exists w' self',
    @setup_logging Example.linux
      (Example.world true,
       set_config (set__environment Example.loaded "prod") Example.prod)
    = (Ok tt, (w', self')) /\
    root_level w' = 10 /\ warnings_captured w' = true /\
    FS.is_dir w'
      (PathOps.of_string "/home/alice/.cache/vantage6/log/node") = true.
Proof.
  destruct (@setup_logging Example.linux
              (Example.world true,
               set_config (set__environment Example.loaded "prod")
                 Example.prod)) as [r [w' self']] eqn:E.
  destruct r as [[] | e]; [ | vm_compute in E; discriminate E ].
  exists w', self'. split; [ reflexivity | ].
  destruct (@setup_logging_effects Example.linux (Example.world true) w'
              _ self' tt eq_refl E)
    as (cfg & section & level_name & level & lf & Hcfg & Hsec & Hname & Hlevel
        & Hlf & Hdir & _ & Hroot & Hwarn & _).
  cbn in Hcfg. injection Hcfg as Hcfg. rewrite <- Hcfg in Hsec.
  vm_compute in Hsec. injection Hsec as Hsec. rewrite <- Hsec in Hname.
  vm_compute in Hname. injection Hname as Hname. rewrite <- Hname in Hlevel.
  vm_compute in Hlevel. injection Hlevel as Hlevel. rewrite <- Hlevel in Hroot.
  vm_compute in Hlf. injection Hlf as Hlf. rewrite <- Hlf in Hdir.
  split; [ exact Hroot | ]. split; [ exact Hwarn | ]. exact Hdir.
Defined.

(** The records [log.info] hands out for a list of lines. *)
Lemma deliver_all_delivered msgs : forall w,
  delivered (deliver_all msgs w)
  = (delivered w ++
     if root_level w <=? INFO then
       flat_map (fun msg =>
                   map (fun h => (handler_id h, msg))
                     (filter (fun h => handler_level h <=? INFO)
                        (root_handlers w))) msgs
     else [])%list.
Proof.
  unfold deliver_all.
  induction msgs as [ | m msgs IH]; intros w; cbn [fold_left flat_map].
  - destruct (root_level w <=? INFO); now rewrite app_nil_r.
  - rewrite IH. unfold deliver.
    destruct (root_level w <=? INFO) eqn:Hl.
    + cbn [delivered root_level root_handlers with_delivered]. rewrite Hl.
      now rewrite app_assoc.
    + now rewrite Hl.
Qed.

(** X7: when [setup_logging] returns it has written its banner of seven
    lines, the application name centred between two rules, the
    environment, the working directory, the configuration file and the
    log file, through [log.info]: each line went, in this order, to every
    handler now on the root logger whose level admits [INFO], those of
    earlier setups included, and nothing else was logged; with a
    configured level above [INFO] no line was written at all. *)
Theorem setup_logging_banner `{Globals} (w w' : World)
  (self self' : AppContext) (u : unit) :
  setup_logging (w, self) = (Ok u, (w', self')) ->
  exists env cf lf,
    environment self = Ok env /\
    config_file self = Ok cf /\
    log_file self = Ok lf /\
    delivered w'
    = (delivered w ++
       if root_level w' <=? INFO then
         flat_map (fun msg =>
                     map (fun h => (handler_id h, msg))
                       (filter (fun h => handler_level h <=? INFO)
                          (root_handlers w')))
           (banner env (cwd w) cf lf)
       else [])%list.
Proof.
  intros E. apply setup_logging_returns_run in E.
  destruct E as (r & Hrun & -> & _).
  destruct Hrun as (_ & _ & _ & _ & _ & _ & Hlf & _ & Hmk & _ & _ & _ & Hopen
                    & _ & Henv & Hcf).
  exists (run_env r), (run_config_file r), (run_log_file r).
  repeat (split; [ assumption | ]).
  assert (Hc : cwd (run_opened r) = cwd w).
  { rewrite (open_append_frame cwd _ _ _ (fun _ _ _ => eq_refl) Hopen).
    apply (makedirs_frame cwd _ _ _ (fun _ _ _ => eq_refl) Hmk). }
  assert (Hd : delivered (run_opened r) = delivered w).
  { rewrite (open_append_frame delivered _ _ _ (fun _ _ _ => eq_refl) Hopen).
    apply (makedirs_frame delivered _ _ _ (fun _ _ _ => eq_refl) Hmk). }
  unfold run_result, logged.
  set (w3 := attach _ (run_opened r)).
  set (w4 := if truthy (run_use_console r) then _ else w3).
  assert (Hc4 : cwd w4 = cwd w).
  { unfold w4, w3. destruct (truthy (run_use_console r));
      rewrite ?(attach_frame cwd _ _ (fun _ _ => eq_refl));
      cbn [cwd with_next_id];
      rewrite ?(attach_frame cwd _ _ (fun _ _ => eq_refl)); exact Hc. }
  assert (Hd4 : delivered w4 = delivered w).
  { unfold w4, w3. destruct (truthy (run_use_console r));
      rewrite ?(attach_frame delivered _ _ (fun _ _ => eq_refl));
      cbn [delivered with_next_id];
      rewrite ?(attach_frame delivered _ _ (fun _ _ => eq_refl)); exact Hd. }
  rewrite (deliver_all_frame root_level _ (fun _ _ => eq_refl)).
  rewrite (deliver_all_frame root_handlers _ (fun _ _ => eq_refl)).
  rewrite deliver_all_delivered.
  cbn [delivered root_level root_handlers with_warnings_captured].
  now rewrite Hc4, Hd4.
Qed.

(** X7 on the example process: the first setup for environment [prod],
    level [debug], file and console handler: fourteen records. *)
Lemma setup_logging_banner_witness :
  exists w' self',
    @setup_logging Example.linux
      (Example.world true,
       set_config (set__environment Example.loaded "prod") Example.prod)
    = (Ok tt, (w', self')) /\
    length (delivered w') = 14%nat.
Proof.
  destruct (@setup_logging Example.linux
              (Example.world true,
               set_config (set__environment Example.loaded "prod")
                 Example.prod)) as [r [w' self']] eqn:E.
  destruct r as [[] | e]; [ | vm_compute in E; discriminate E ].
  exists w', self'. split; [ reflexivity | ].
  destruct (@setup_logging_banner Example.linux (Example.world true) w'
              _ self' tt E) as (env & cf & lf & _ & _ & _ & Hd).
  rewrite Hd. clear Hd.
  assert (Hw : w' = fst (snd (@setup_logging Example.linux
                     (Example.world true,
                      set_config (set__environment Example.loaded "prod")
                        Example.prod))))
    by (now rewrite E).
  assert (Hl : root_level w' = 10)
    by (rewrite Hw; vm_compute; reflexivity).
  assert (Hh : map handler_level (root_handlers w') = [10; 10])
    by (rewrite Hw; vm_compute; reflexivity).
  clear Hw.
  rewrite Hl. change (10 <=? INFO) with true. cbv iota.
  unfold banner. cbn [flat_map Example.world delivered app].
  rewrite !length_app, !length_map.
  destruct (root_handlers w') as [ | h1 [ | h2 [ | h3 hs]]];
    try discriminate Hh.
  injection Hh as H1 H2. cbn [filter]. rewrite H1, H2. reflexivity.
Defined.

(** ** The setter of [environment], with logging *)

(** A handler whose identity is new is attached at the end. *)
Lemma attach_new h w :
  Forall (fun h' => (handler_id h' < handler_id h)%nat) (root_handlers w) ->
  attach h w = with_root_handlers w (root_handlers w ++ [h])%list.
Proof.
  intros Hnew. unfold attach.
  replace (existsb _ (root_handlers w)) with false; [ reflexivity | ].
  symmetry. apply not_true_iff_false. intros Hex.
  apply existsb_exists in Hex. destruct Hex as (h' & Hin & Heq).
  rewrite Forall_forall in Hnew. specialize (Hnew h' Hin).
  apply Nat.eqb_eq in Heq. lia.
Qed.

(** Up to the opening of the log file, a run leaves the root logger and
    the working directory alone and makes one object. *)
Lemma run_opened_logging (w : World) (self : AppContext) (r : SetupRun) :
  setup_run w self r ->
  root_handlers (run_opened r) = root_handlers w /\
  next_id (run_made r) = next_id w /\
  next_id (run_opened r) = S (next_id w) /\
  cwd (run_opened r) = cwd w /\
  cwd (run_made r) = cwd w /\
  delivered (run_opened r) = delivered w /\
  root_level (run_opened r) = run_level r.
Proof.
  intros (_ & _ & _ & _ & _ & _ & _ & _ & Hmk & _ & _ & _ & Hopen & _).
  rewrite (open_append_frame root_handlers _ _ _ (fun _ _ _ => eq_refl) Hopen).
  rewrite (open_append_frame next_id _ _ _ (fun _ _ _ => eq_refl) Hopen).
  rewrite (open_append_frame cwd _ _ _ (fun _ _ _ => eq_refl) Hopen).
  rewrite (open_append_frame delivered _ _ _ (fun _ _ _ => eq_refl) Hopen).
  rewrite (open_append_frame root_level _ _ _ (fun _ _ _ => eq_refl) Hopen).
  cbn [leveled root_handlers next_id cwd delivered root_level with_next_id
       with_root_level].
  rewrite (makedirs_frame root_handlers _ _ _ (fun _ _ _ => eq_refl) Hmk).
  rewrite (makedirs_frame next_id _ _ _ (fun _ _ _ => eq_refl) Hmk).
  rewrite (makedirs_frame cwd _ _ _ (fun _ _ _ => eq_refl) Hmk).
  rewrite (makedirs_frame delivered _ _ _ (fun _ _ _ => eq_refl) Hmk).
  repeat split; reflexivity.
Qed.

(** The handlers a run leaves on a root logger whose handlers are all
    older objects. *)
Lemma run_result_handlers `{Globals} (w : World) (self : AppContext)
  (r : SetupRun) :
  setup_run w self r ->
  handlers_known w ->
  root_handlers (run_result r)
  = (root_handlers w
     ++ RotatingFileHandler (next_id w) (FS.abspath w (run_log_file r))
          (run_maxBytes r) (run_backupCount r) (run_level r) (run_format r)
          (run_datefmt r)
     :: (if truthy (run_use_console r)
         then [ColorStreamHandler (S (next_id w)) (run_level r) (run_format r)
                 (run_datefmt r)]
         else []))%list.
Proof.
  intros Hrun Hknown.
  destruct (run_opened_logging w self r Hrun)
    as (Hh2 & Hn1 & Hn2 & Hc2 & _).
  unfold run_result, logged.
  rewrite (deliver_all_frame root_handlers _ (fun _ _ => eq_refl)).
  cbn [root_handlers with_warnings_captured].
  rewrite Hn1. unfold FS.abspath. rewrite Hc2.
  set (rfh := RotatingFileHandler (next_id w) _ _ _ _ _ _).
  assert (Hknown1 : Forall (fun h => (handler_id h < S (next_id w))%nat)
                      (root_handlers w ++ [rfh])).
  { apply Forall_app. split.
    - eapply Forall_impl; [ | exact Hknown ]. cbn. intros h Hh. lia.
    - constructor; [ cbn; lia | constructor ]. }
  rewrite (attach_new rfh (run_opened r)).
  2:{ cbn [handler_id rfh]. rewrite Hh2. exact Hknown. }
  destruct (truthy (run_use_console r)).
  - cbn [next_id with_root_handlers]. rewrite Hn2, Hh2.
    rewrite attach_new.
    + cbn [root_handlers with_next_id with_root_handlers].
      now rewrite <- app_assoc.
    + cbn [handler_id root_handlers with_next_id with_root_handlers].
      exact Hknown1.
  - cbn [root_handlers with_root_handlers]. now rewrite Hh2.
Qed.

(** The level, the warnings and the records a run leaves. *)
Lemma run_result_logger `{Globals} (w : World) (self : AppContext)
  (r : SetupRun) :
  setup_run w self r ->
  root_level (run_result r) = run_level r /\
  warnings_captured (run_result r) = true /\
  delivered (run_result r)
  = (delivered w ++
     if run_level r <=? INFO then
       flat_map (fun msg =>
                   map (fun h => (handler_id h, msg))
                     (filter (fun h => handler_level h <=? INFO)
                        (root_handlers (run_result r))))
         (banner (run_env r) (cwd w) (run_config_file r) (run_log_file r))
     else [])%list.
Proof.
  intros Hrun.
  destruct (run_opened_logging w self r Hrun)
    as (_ & _ & _ & Hc & _ & Hd & Hl).
  assert (Hlevel : root_level (run_result r) = run_level r).
  { unfold run_result. rewrite (logged_frame root_level);
      try (intros; reflexivity). exact Hl. }
  split; [ exact Hlevel | ]. split.
  - unfold run_result, logged.
    now rewrite (deliver_all_frame warnings_captured _ (fun _ _ => eq_refl)).
  - rewrite <- Hlevel. unfold run_result, logged.
    set (w3 := attach _ (run_opened r)).
    set (w4 := if truthy (run_use_console r) then _ else w3).
    assert (Hc4 : cwd w4 = cwd w).
    { unfold w4, w3. destruct (truthy (run_use_console r));
        rewrite ?(attach_frame cwd _ _ (fun _ _ => eq_refl));
        cbn [cwd with_next_id];
        rewrite ?(attach_frame cwd _ _ (fun _ _ => eq_refl)); exact Hc. }
    assert (Hd4 : delivered w4 = delivered w).
    { unfold w4, w3. destruct (truthy (run_use_console r));
        rewrite ?(attach_frame delivered _ _ (fun _ _ => eq_refl));
        cbn [delivered with_next_id];
        rewrite ?(attach_frame delivered _ _ (fun _ _ => eq_refl)); exact Hd. }
    rewrite (deliver_all_frame root_level _ (fun _ _ => eq_refl)).
    rewrite (deliver_all_frame root_handlers _ (fun _ _ => eq_refl)).
    rewrite deliver_all_delivered.
    cbn [delivered root_level root_handlers with_warnings_captured].
    now rewrite Hc4, Hd4.
Qed.

(** The folder and the file a run leaves, in a process whose working
    directory is absolute. *)
Lemma run_result_files `{Globals} (w : World) (self : AppContext)
  (r : SetupRun) :
  setup_run w self r ->
  absolute (cwd w) = true ->
  FS.is_dir (run_result r) (PathOps.parent (run_log_file r)) = true /\
  FS.is_file (run_result r) (run_log_file r) = true.
Proof.
  intros Hrun Habs.
  destruct (run_opened_logging w self r Hrun)
    as (_ & _ & _ & Hc2 & Hc1 & _).
  destruct Hrun as (_ & _ & _ & _ & _ & _ & _ & _ & Hmk & _ & _ & _ & Hopen
                    & _).
  assert (Hcl : absolute (cwd (leveled (run_made r) (run_level r))) = true)
    by (cbn; now rewrite Hc1).
  unfold run_result. split.
  - unfold FS.is_dir, FS.abspath.
    rewrite (logged_frame cwd), (logged_frame directories);
      try (intros; reflexivity).
    apply (is_dir_kept (leveled (run_made r) (run_level r))).
    + now apply open_append_files_kept in Hopen.
    + now rewrite Hc2.
    + apply (is_dir_kept (run_made r) (leveled (run_made r) (run_level r)));
        [ now apply files_kept_same | reflexivity | ].
      now apply (makedirs_is_dir w).
  - unfold FS.is_file, FS.abspath.
    rewrite (logged_frame cwd), (logged_frame files);
      try (intros; reflexivity).
    now apply (open_append_is_file _ _ _ Hcl Hopen).
Qed.

(** C1: on a context whose manager is loaded, assigning an environment
    the manager lists stores the name and replaces [config] by
    [config_manager.get(name)], whatever [config] held before; the name
    and the settings are in place however the assignment ends.  With the
    class flag [LOGGING_ENABLED] off the assignment returns at once.  With
    the flag on, the rest of the assignment is [setup_logging] on the
    updated object, and an assignment that returns has set up logging from
    the [logging] section of the new settings: the root logger has the
    level the section names, a rotating file handler for the log file and,
    if the section asks for it, a console handler are attached behind the
    handlers of before, with that level and the formats of the section,
    warnings are captured, the banner is written to every handler that
    admits it, the log file and its folder exist, and [self.log] is the
    logger [context]. *)
Theorem environment_setter_activates `{Globals} (w : World) (self : AppContext)
  (cm : ConfigurationManager) (env : string) :
  config_manager self = Some (Some cm) ->
  In env (available_environments cm) ->
  exists cfg,
    manager_get cm env = Ok cfg /\
    environment_setter env (w, self)
    = (if LOGGING_ENABLED w
       then setup_logging (w, set_config (set__environment self env) cfg)
       else (Ok tt, (w, set_config (set__environment self env) cfg))) /\
    (forall r w' self',
       environment_setter env (w, self) = (r, (w', self')) ->
       _AppContext__environment self' = Some env /\
       environment self' = Ok env /\
       config self' = Some cfg) /\
    (forall old, exists r w' self',
       environment_setter env (w, set_config self old) = (r, (w', self')) /\
       config self' = Some cfg) /\
    (LOGGING_ENABLED w = true ->
     forall u w' self',
       environment_setter env (w, self) = (Ok u, (w', self')) ->
       exists section level_name level format_ datefmt max_size maxBytes
              backupCount use_console lf cf,
         dict_subscript cfg "logging" = Ok section /\
         subscript section "level" = Ok level_name /\
         rbind (value_upper level_name) logging_level = Ok level /\
         subscript section "format" = Ok format_ /\
         value_get section "datefmt" (VStr EmptyString) = Ok datefmt /\
         subscript section "max_size" = Ok max_size /\
         times_1024 max_size = Ok maxBytes /\
         subscript section "backup_count" = Ok backupCount /\
         subscript section "use_console" = Ok use_console /\
         log_file self' = Ok lf /\
         config_file self' = Ok cf /\
         root_level w' = level /\
         (handlers_known w ->
          root_handlers w'
          = (root_handlers w
             ++ RotatingFileHandler (next_id w) (FS.abspath w lf) maxBytes
                  backupCount level format_ datefmt
             :: (if truthy use_console
                 then [ColorStreamHandler (S (next_id w)) level format_
                         datefmt]
                 else []))%list) /\
         warnings_captured w' = true /\
         delivered w'
         = (delivered w ++
            if level <=? INFO then
              flat_map (fun msg =>
                          map (fun h => (handler_id h, msg))
                            (filter (fun h => handler_level h <=? INFO)
                               (root_handlers w')))
                (banner env (cwd w) cf lf)
            else [])%list /\
         (absolute (cwd w) = true ->
          FS.is_dir w' (PathOps.parent lf) = true /\
          FS.is_file w' lf = true) /\
         self' = set_log (set_config (set__environment self env) cfg)
                   (Some "context")).
Proof.
  intros Hcm Hin.
  destruct (manager_get_available cm env Hin) as (cfg & Hget & _).
  exists cfg. split; [ exact Hget | ].
  assert (Hrun : forall self0, config_manager self0 = Some (Some cm) ->
    forall r w' self', environment_setter env (w, self0) = (r, (w', self')) ->
      _AppContext__environment self' = Some env /\ config self' = Some cfg).
  { intros self0 Hcm0 r w' self' E.
    rewrite (environment_setter_checked w self0 cm env cfg) in E;
      [ | exact Hcm0 | now apply existsb_eqb_In | exact Hget ].
    destruct (LOGGING_ENABLED w).
    - pose proof (keeps_setup_logging _AppContext__environment
                    (fun _ _ => eq_refl)
                    (w, set_config (set__environment self0 env) cfg)) as K1.
      pose proof (keeps_setup_logging config (fun _ _ => eq_refl)
                    (w, set_config (set__environment self0 env) cfg)) as K2.
      rewrite E in K1, K2. cbn in K1, K2. now split.
    - inversion E; subst. now split. }
  assert (Hchecked :
    environment_setter env (w, self)
    = (if LOGGING_ENABLED w
       then setup_logging (w, set_config (set__environment self env) cfg)
       else (Ok tt, (w, set_config (set__environment self env) cfg)))).
  { apply (environment_setter_checked w self cm env cfg);
      [ exact Hcm | now apply existsb_eqb_In | exact Hget ]. }
  split; [ exact Hchecked | ]. split; [ | split ].
  - intros r w' self' E. destruct (Hrun self Hcm r w' self' E) as [He Hc].
    unfold environment, read. rewrite He. now repeat split.
  - intros old.
    destruct (environment_setter env (w, set_config self old))
      as [r [w' self']] eqn:E.
    exists r, w', self'. split; [ reflexivity | ].
    now apply (Hrun (set_config self old) Hcm r w' self').
  - intros Hon u w' self' E. rewrite Hchecked, Hon in E.
    apply setup_logging_returns_run in E.
    destruct E as (r & Hr & -> & ->).
    pose proof (run_result_handlers w _ r Hr) as Hhandlers.
    destruct (run_result_logger w _ r Hr) as (Hlevel & Hwarn & Hdel).
    pose proof (run_result_files w _ r Hr) as Hfiles.
    destruct Hr as (Hcfg & Hsec & Hname & Hlv & Hfmt & Hdf & Hlf & _ & _ & Hms
                    & Hmb & Hbc & _ & Huc & Henv & Hcf).
    cbn [config set_config] in Hcfg. injection Hcfg as Hcfg.
    rewrite <- Hcfg in Hsec.
    unfold environment, read in Henv.
    cbn [_AppContext__environment set_config set__environment rbind] in Henv.
    injection Henv as Henv. rewrite <- Henv in Hdel.
    exists (run_section r), (run_level_name r), (run_level r), (run_format r),
      (run_datefmt r), (run_max_size r), (run_maxBytes r), (run_backupCount r),
      (run_use_console r), (run_log_file r), (run_config_file r).
    repeat (split;
            [ first [ assumption | exact Hlf | exact Hcf | exact Hlevel
                    | exact Hhandlers | exact Hwarn | exact Hdel
                    | exact Hfiles ] | ]).
    reflexivity.
Qed.

(** C1 on the example process, with logging on: the loaded context is on
    [prod] and switches to [test], whose section sets the level [info] and
    asks for no console. *)
Lemma environment_setter_activates_witness :
  exists w' self',
    @environment_setter Example.linux "test"
      (Example.world true,
       set_config (set__environment Example.loaded "prod") Example.prod)
    = (Ok tt, (w', self')) /\
    environment self' = Ok "test" /\
    config self' = Some Example.test /\
    root_level w' = 20 /\
    length (root_handlers w') = 1%nat /\
    warnings_captured w' = true /\
    length (delivered w') = 7%nat /\
    log self' = Some (Some "context").
Proof.
  pose (r := @environment_setter Example.linux "test"
               (Example.world true,
                set_config (set__environment Example.loaded "prod")
                  Example.prod)).
  assert (E : @environment_setter Example.linux "test"
                (Example.world true,
                 set_config (set__environment Example.loaded "prod")
                   Example.prod)
              = (Ok tt, (fst (snd r), snd (snd r))))
    by (vm_compute; reflexivity).
  exists (fst (snd r)), (snd (snd r)). split; [ exact E | ].
  destruct (@environment_setter_activates Example.linux (Example.world true)
              (set_config (set__environment Example.loaded "prod") Example.prod)
              Example.manager "test")
    as (cfg & Hget & _ & Hall & _ & Hlog).
  - reflexivity.
  - cbn. auto.
  - vm_compute in Hget. injection Hget as Hget.
    destruct (Hall _ _ _ E) as (_ & He & Hc).
    destruct (Hlog eq_refl _ _ _ E)
      as (section & level_name & level & format_ & datefmt & max_size
          & maxBytes & backupCount & use_console & lf & cf & Hsec & Hname
          & Hlv & _ & _ & _ & _ & _ & Huc & _ & _ & Hlevel & Hh & Hwarn & Hdel
          & _ & Hself).
    rewrite <- Hget in Hsec, Hc.
    vm_compute in Hsec. injection Hsec as Hsec.
    rewrite <- Hsec in Hname, Huc.
    vm_compute in Hname. injection Hname as Hname. rewrite <- Hname in Hlv.
    vm_compute in Hlv. injection Hlv as Hlv.
    vm_compute in Huc. injection Huc as Huc.
    rewrite <- Huc in Hh. rewrite <- Hlv in Hlevel, Hdel, Hh.
    specialize (Hh (Forall_nil _)).
    cbn [truthy Example.world root_handlers app] in Hh.
    split; [ exact He | ]. split; [ exact Hc | ]. split; [ exact Hlevel | ].
    split; [ now rewrite Hh | ]. split; [ exact Hwarn | ].
    split; [ | now rewrite Hself ].
    rewrite Hdel, Hh. reflexivity.
Defined.

(** ** Setting up logging once more *)

Lemma prefixes_from_props a todo : forall done q,
  In q (PathOps.prefixes_from a done todo) ->
  absolute q = a /\ (length (parts q) <= length done + length todo)%nat.
Proof.
  induction todo as [ | x todo IH]; intros done q Hin; [ contradiction | ].
  cbn in Hin. destruct Hin as [<- | Hin].
  - cbn. rewrite length_app. cbn. split; [ reflexivity | lia ].
  - apply IH in Hin. rewrite length_app in Hin. cbn in *. split; [ easy | lia ].
Qed.

Lemma prefixes_props p q :
  In q (PathOps.prefixes p) ->
  absolute q = absolute p /\ (length (parts q) <= length (parts p))%nat.
Proof. intros Hin. now apply prefixes_from_props in Hin. Qed.

Lemma abspath_parent w p :
  parts p <> [] ->
  FS.abspath w (PathOps.parent p) = PathOps.parent (FS.abspath w p).
Proof.
  destruct p as [a l]. cbn [parts]. intros Hne.
  unfold FS.abspath, PathOps.joinpath_path, PathOps.parent.
  cbn [absolute parts]. destruct a; cbn [absolute parts].
  - reflexivity.
  - now rewrite removelast_app.
Qed.

Lemma removelast_shorter {A : Type} (l : list A) :
  l <> [] -> (length (removelast l) < length l)%nat.
Proof.
  intros Hne. destruct (exists_last Hne) as (l' & x & ->).
  rewrite removelast_last, length_app. cbn. lia.
Qed.

Lemma find_file_snoc x fs y c :
  FS.find_file x (fs ++ [(y, c)]) <> None ->
  FS.find_file x fs <> None \/ x = y.
Proof.
  induction fs as [ | [p c'] fs IH]; cbn.
  - unfold path_eqb. destruct (path_eq_dec x y); [ now right | easy ].
  - destruct (path_eqb x p); [ now left | exact IH ].
Qed.

(** The only file opening the log file can add is the log file. *)
Lemma open_append_new_file w p w' q :
  FS.open_append w p = Ok w' ->
  FS.find_file q (files w') <> None ->
  FS.find_file q (files w) <> None \/ q = FS.abspath w p.
Proof.
  unfold FS.open_append.
  destruct (FS.is_dir w (FS.abspath w p)); [ discriminate | ].
  destruct (FS.is_file w (FS.abspath w p)).
  - intros E. inversion E. now left.
  - destruct (FS.is_dir w (PathOps.parent (FS.abspath w p)));
      intros E; inversion E. cbn [files with_files]. apply find_file_snoc.
Qed.

Lemma open_append_directories w p w' :
  FS.open_append w p = Ok w' -> directories w' = directories w.
Proof.
  unfold FS.open_append.
  destruct (FS.is_dir w (FS.abspath w p)); [ discriminate | ].
  destruct (FS.is_file w (FS.abspath w p)).
  - intros E. now inversion E.
  - destruct (FS.is_dir w (PathOps.parent (FS.abspath w p)));
      intros E; now inversion E.
Qed.

Lemma makedirs_files w d w' : FS.makedirs w d = Ok w' -> files w' = files w.
Proof.
  unfold FS.makedirs. destruct (existsb _ _); intros E; now inversion E.
Qed.

(** A log file that could be opened has a name. *)
Lemma opened_has_name w1 lf w2 :
  absolute (PathOps.parent lf) = true \/ parts (PathOps.parent lf) <> [] ->
  absolute (cwd w1) = true ->
  FS.open_append w1 lf = Ok w2 -> parts lf <> [].
Proof.
  intros Hdir Hc Hopen Hnil. unfold FS.open_append in Hopen.
  destruct (FS.is_dir w1 (FS.abspath w1 lf)) eqn:Hd; [ discriminate | ].
  unfold FS.is_dir in Hd. rewrite (abspath_idem w1 lf Hc) in Hd.
  unfold PathOps.parent in Hdir. rewrite Hnil in Hdir. cbn in Hdir.
  destruct Hdir as [Ha | Hp]; [ | contradiction ].
  unfold FS.abspath, PathOps.joinpath_path in Hd. rewrite Ha, Hnil in Hd.
  discriminate.
Qed.

(** The run in which [setup_logging] could be called again. *)
Lemma setup_run_again `{Globals} (w : World) (self : AppContext)
  (r : SetupRun) :
  absolute (cwd w) = true ->
  setup_run w self r ->
  exists w1 w2,
    FS.makedirs (run_result r) (PathOps.parent (run_log_file r)) = Ok w1 /\
    FS.open_append (leveled w1 (run_level r)) (run_log_file r) = Ok w2.
Proof.
  intros Hc Hrun.
  destruct Hrun as (_ & _ & _ & _ & _ & _ & _ & Hdir & Hmk & _ & _ & _ & Hopen
                    & _).
  set (lf := run_log_file r) in *. set (d := PathOps.parent lf) in *.
  set (w' := run_result r).
  assert (Hc1 : cwd (run_made r) = cwd w)
    by (apply (makedirs_frame cwd _ _ _ (fun _ _ _ => eq_refl) Hmk)).
  assert (Hcl : absolute (cwd (leveled (run_made r) (run_level r))) = true)
    by (cbn; now rewrite Hc1).
  assert (Hc2 : cwd (run_opened r) = cwd w).
  { rewrite (open_append_frame cwd _ _ _ (fun _ _ _ => eq_refl) Hopen).
    exact Hc1. }
  assert (Hc' : cwd w' = cwd w).
  { unfold w', run_result. rewrite (logged_frame cwd);
      try (intros; reflexivity). exact Hc2. }
  assert (Hf' : files w' = files (run_opened r)).
  { unfold w', run_result. now rewrite (logged_frame files). }
  assert (Hd' : directories w' = directories (run_made r)).
  { unfold w', run_result. rewrite (logged_frame directories);
      try (intros; reflexivity).
    now rewrite (open_append_directories _ _ _ Hopen). }
  assert (Hname : parts lf <> [])
    by (apply (opened_has_name _ _ _ Hdir Hcl Hopen)).
  assert (Habs : forall v, cwd v = cwd w -> FS.abspath v lf = FS.abspath w lf)
    by (intros v Hv; unfold FS.abspath; now rewrite Hv).
  assert (Habsd : forall v, cwd v = cwd w -> FS.abspath v d = FS.abspath w d)
    by (intros v Hv; unfold FS.abspath; now rewrite Hv).
  assert (Hlonger : forall q, In q (PathOps.prefixes (FS.abspath w d)) ->
                              q <> FS.abspath w lf).
  { intros q Hq ->. apply prefixes_props in Hq. destruct Hq as [_ Hlen].
    unfold d in Hlen. rewrite (abspath_parent w lf Hname) in Hlen.
    unfold PathOps.parent in Hlen. cbn [parts] in Hlen.
    assert (Hne : parts (FS.abspath w lf) <> []).
    { unfold FS.abspath, PathOps.joinpath_path.
      destruct (absolute lf); cbn [parts]; [ exact Hname | ].
      intros Happ. apply app_eq_nil in Happ. now destruct Happ. }
    pose proof (removelast_shorter _ Hne). lia. }
  (* the folder can be made again *)
  assert (Hfiles : existsb (FS.is_file w') (PathOps.prefixes (FS.abspath w d))
                   = false).
  { apply not_true_iff_false. intros Hex. apply existsb_exists in Hex.
    destruct Hex as (q & Hq & Hfile).
    pose proof (prefixes_props _ _ Hq) as [Haq _].
    rewrite (abspath_absolute w d Hc) in Haq.
    assert (Hqq : forall v, FS.abspath v q = q).
    { intros v. unfold FS.abspath, PathOps.joinpath_path. now rewrite Haq. }
    unfold FS.is_file in Hfile. rewrite Hqq, Hf' in Hfile.
    destruct (open_append_new_file _ _ _ q Hopen) as [Hold | Hnew].
    - now destruct (FS.find_file q (files (run_opened r))).
    - cbn [files leveled with_next_id with_root_level] in Hold.
      rewrite (makedirs_files _ _ _ Hmk) in Hold.
      unfold FS.makedirs in Hmk.
      destruct (existsb (FS.is_file w) (PathOps.prefixes (FS.abspath w d)))
        eqn:Hno; [ discriminate | ].
      apply not_true_iff_false in Hno. apply Hno, existsb_exists.
      exists q. split; [ exact Hq | ]. unfold FS.is_file. rewrite Hqq.
      now destruct (FS.find_file q (files w)).
    - rewrite (Habs (leveled (run_made r) (run_level r)) Hc1) in Hnew.
      now apply (Hlonger q). }
  assert (Hmk' : exists w1, FS.makedirs w' d = Ok w1 /\
                   files w1 = files w' /\ cwd w1 = cwd w /\
                   (forall q, In q (directories w1) ->
                      In q (directories w') \/
                      In q (PathOps.prefixes (FS.abspath w d)))).
  { unfold FS.makedirs. rewrite (Habsd w' Hc'), Hfiles. eexists.
    split; [ reflexivity | ]. cbn [files directories cwd with_files].
    split; [ reflexivity | ]. split; [ exact Hc' | ].
    intros q Hq. apply in_app_or in Hq. destruct Hq as [Hq | Hq];
      [ now left | right ]. now apply filter_In in Hq. }
  destruct Hmk' as (w1 & Hmk' & Hf1 & Hcw1 & Hd1).
  exists w1. eexists. split; [ exact Hmk' | ].
  (* and the log file opened again *)
  unfold FS.open_append.
  assert (Hab1 : FS.abspath (leveled w1 (run_level r)) lf = FS.abspath w lf)
    by (apply Habs; exact Hcw1).
  rewrite Hab1.
  assert (Hcwl : absolute (cwd (leveled w1 (run_level r))) = true)
    by (cbn; now rewrite Hcw1).
  assert (Hnotdir : FS.is_dir (leveled w1 (run_level r)) (FS.abspath w lf)
                    = false).
  { apply not_true_iff_false. intros Hdirr. unfold FS.is_dir in Hdirr.
    rewrite <- Hab1, (abspath_idem _ lf Hcwl), Hab1 in Hdirr.
    unfold FS.open_append in Hopen.
    destruct (FS.is_dir (leveled (run_made r) (run_level r))
                (FS.abspath (leveled (run_made r) (run_level r)) lf))
      eqn:Hfirst; [ discriminate | ].
    unfold FS.is_dir in Hfirst. rewrite (abspath_idem _ lf Hcl) in Hfirst.
    rewrite (Habs (leveled (run_made r) (run_level r)) Hc1) in Hfirst.
    destruct (parts (FS.abspath w lf)); [ discriminate | ].
    apply existsb_path_In in Hdirr.
    cbn [directories leveled with_next_id with_root_level] in Hdirr, Hfirst.
    apply Hd1 in Hdirr. destruct Hdirr as [Hin | Hin].
    - rewrite Hd' in Hin. apply existsb_path_In in Hin. congruence.
    - now apply (Hlonger _ Hin). }
  rewrite Hnotdir.
  assert (Hthere : FS.is_file (leveled w1 (run_level r)) (FS.abspath w lf)
                   = true).
  { unfold FS.is_file. rewrite <- Hab1, (abspath_idem _ lf Hcwl), Hab1.
    cbn [files leveled with_next_id with_root_level]. rewrite Hf1, Hf'.
    pose proof (open_append_is_file _ _ _ Hcl Hopen) as Hfile.
    unfold FS.is_file in Hfile.
    unfold FS.abspath in Hfile |- *. rewrite Hc2 in Hfile. exact Hfile. }
  rewrite Hthere. reflexivity.
Qed.

(** X8: in a process whose working directory is absolute, a
    [setup_logging] that has returned can be called again on what it
    left: the folder and the log file it finds in place do not stop it,
    it returns, and [self] stays as it is. *)
Theorem setup_logging_again `{Globals} (w w' : World)
  (self self' : AppContext) (u : unit) :
  absolute (cwd w) = true ->
  setup_logging (w, self) = (Ok u, (w', self')) ->
  exists w'', setup_logging (w', self') = (Ok tt, (w'', self')).
Proof.
  intros Hc E. apply setup_logging_returns_run in E.
  destruct E as (r & Hrun & -> & ->).
  destruct (setup_run_again w self r Hc Hrun) as (w1 & w2 & Hmk & Hopen).
  pose (r' := {| run_cfg := run_cfg r; run_section := run_section r;
                 run_level_name := run_level_name r;
                 run_level := run_level r; run_format := run_format r;
                 run_datefmt := run_datefmt r;
                 run_log_file := run_log_file r;
                 run_max_size := run_max_size r;
                 run_maxBytes := run_maxBytes r;
                 run_backupCount := run_backupCount r;
                 run_use_console := run_use_console r;
                 run_env := run_env r;
                 run_config_file := run_config_file r;
                 run_made := w1; run_opened := w2 |}).
  assert (Hrun' : setup_run (run_result r) (set_log self (Some "context")) r').
  { destruct Hrun as (H1 & H2 & H3 & H4 & H5 & H6 & H7 & H8 & _ & H10 & H11
                      & H12 & _ & H14 & H15 & H16).
    unfold setup_run, r'.
    cbn [run_cfg run_section run_level_name run_level run_format run_datefmt
         run_log_file run_max_size run_maxBytes run_backupCount
         run_use_console run_env run_config_file run_made run_opened].
    repeat split; assumption. }
  exists (run_result r').
  rewrite (setup_logging_run _ _ r' Hrun'). now rewrite set_log_twice.
Qed.

(** X8 on the example process: [setup_logging] for environment [prod],
    twice. *)
Lemma setup_logging_again_witness :
  exists w' self' w'',
    @setup_logging Example.linux
      (Example.world true,
       set_config (set__environment Example.loaded "prod") Example.prod)
    = (Ok tt, (w', self')) /\
    @setup_logging Example.linux (w', self') = (Ok tt, (w'', self')).
Proof.
  destruct (@setup_logging Example.linux
              (Example.world true,
               set_config (set__environment Example.loaded "prod")
                 Example.prod)) as [r [w' self']] eqn:E.
  destruct r as [[] | e]; [ | vm_compute in E; discriminate E ].
  destruct (@setup_logging_again Example.linux (Example.world true) w'
              _ self' tt eq_refl E) as [w'' E2].
  exists w', self', w''. now split.
Defined.

(** ** A [setup_logging] that raises *)

Lemma grows_bind (R : World -> World -> Prop) {A B : Type} (m : M A)
  (k : A -> M B) :
  (forall w1 w2 w3, R w1 w2 -> R w2 w3 -> R w1 w3) ->
  (forall s, R (fst s) (fst (snd (m s)))) ->
  (forall a s, R (fst s) (fst (snd (k a s)))) ->
  forall s, R (fst s) (fst (snd (bind m k s))).
Proof.
  intros Htrans Hm Hk s. unfold bind. specialize (Hm s).
  destruct (m s) as [[a | e] s1]; cbn [fst snd] in *.
  - eapply Htrans; [ exact Hm | apply Hk ].
  - exact Hm.
Qed.

(** The handlers of [w] are still on the root logger in [w'], in place,
    possibly followed by new ones. *)
Lemma handlers_extended_trans w1 w2 w3 :
  (exists more, root_handlers w2 = (root_handlers w1 ++ more)%list) ->
  (exists more, root_handlers w3 = (root_handlers w2 ++ more)%list) ->
  exists more, root_handlers w3 = (root_handlers w1 ++ more)%list.
Proof.
  intros [m1 H1] [m2 H2]. exists (m1 ++ m2)%list.
  now rewrite H2, H1, app_assoc.
Qed.

Lemma handlers_extended_same {A : Type} (m : M A) :
  wkeeps root_handlers m ->
  forall s, exists more,
    root_handlers (fst (snd (m s))) = (root_handlers (fst s) ++ more)%list.
Proof. intros Hm s. exists []. now rewrite app_nil_r, Hm. Qed.

Lemma handlers_extended_addHandler h s :
  exists more,
    root_handlers (fst (snd (addHandler h s)))
    = (root_handlers (fst s) ++ more)%list.
Proof.
  unfold addHandler, update_world. cbn [fst snd].
  destruct (existsb _ _).
  - exists []. now rewrite app_nil_r.
  - now exists [h].
Qed.

Lemma setup_logging_handlers_extended `{Globals} s :
  exists more,
    root_handlers (fst (snd (setup_logging s)))
    = (root_handlers (fst s) ++ more)%list.
Proof.
  revert s. unfold setup_logging.
  repeat first
    [ apply handlers_extended_addHandler
    | apply handlers_extended_same;
      first [ apply wkeeps_lift | apply wkeeps_property | apply wkeeps_getattr
            | apply wkeeps_get_world | apply wkeeps_update_self
            | apply wkeeps_ret
            | apply wkeeps_info; intros; reflexivity
            | apply wkeeps_fresh_id; intros; reflexivity
            | apply wkeeps_update_world; intros; reflexivity
            | apply wkeeps_makedirs_dirname; intros w0 d w1;
              apply makedirs_frame; intros; reflexivity
            | apply wkeeps_try_world; intros w0 w1;
              apply open_append_frame; intros; reflexivity ]
    | apply (grows_bind
               (fun w1 w2 =>
                  exists more, root_handlers w2 = (root_handlers w1 ++ more)%list));
      [ exact handlers_extended_trans | | intros ? ]
    | intros s; destruct (truthy _) ].
Qed.

(** X9: when [setup_logging] raises, [self] is exactly what it was, so
    [self.log] is not assigned; the root logger can have changed all the
    same: what was attached to it is still attached, in place, possibly
    followed by handlers the failed call attached. *)
Theorem setup_logging_raises `{Globals} (w w' : World)
  (self self' : AppContext) (e : Exn) :
  setup_logging (w, self) = (Raise e, (w', self')) ->
  self' = self /\
  (exists more, root_handlers w' = (root_handlers w ++ more)%list).
Proof.
  intros E. split.
  - now apply setup_logging_raises_self in E.
  - pose proof (setup_logging_handlers_extended (w, self)) as Hh.
    now rewrite E in Hh.
Qed.

(** X9 on the example process, with a [logging] section that has no
    [use_console] entry: the call raises [KeyError], the context is
    untouched and the file handler stays attached. *)
Lemma setup_logging_raises_witness :
  let cfg : Config :=
    [("logging",
      VDict [("level", VStr "info"); ("format", VStr "%(message)s");
             ("max_size", VInt 10); ("backup_count", VInt 1)])] in
  let self := set_config (set__environment Example.loaded "prod") cfg in
  exists w',
    @setup_logging Example.linux (Example.world true, self)
      = (Raise (KeyError "use_console"), (w', self)) /\
    length (root_handlers w') = 1%nat.
Proof.
  cbn zeta.
  set (self := set_config (set__environment Example.loaded "prod")
                 [("logging",
                   VDict [("level", VStr "info");
                          ("format", VStr "%(message)s");
                          ("max_size", VInt 10); ("backup_count", VInt 1)])]).
  destruct (@setup_logging Example.linux (Example.world true, self))
    as [r [w' self']] eqn:E.
  assert (Hr : r = Raise (KeyError "use_console")).
  { replace r
      with (fst (@setup_logging Example.linux (Example.world true, self)))
      by (now rewrite E).
    vm_compute. reflexivity. }
  assert (Hlen : length (root_handlers w') = 1%nat).
  { replace w'
      with (fst (snd (@setup_logging Example.linux (Example.world true, self))))
      by (now rewrite E).
    vm_compute. reflexivity. }
  subst r.
  destruct (@setup_logging_raises Example.linux _ _ _ _ _ E) as (-> & _).
  exists w'. split; [ reflexivity | exact Hlen ].
Defined.

(** ** Names of volumes *)

Lemma append_cancel_l (s a b : string) : s ++ a = s ++ b -> a = b.
Proof.
  induction s as [ | c s IH]; cbn; [ easy | ].
  intros E. inversion E. auto.
Qed.

Lemma append_cancel_r (t a b : string) : a ++ t = b ++ t -> a = b.
Proof.
  intros E. apply (f_equal Str.chars) in E. rewrite !chars_append in E.
  apply app_inv_tail in E. unfold Str.chars in E.
  rewrite <- (string_of_list_ascii_of_string a),
          <- (string_of_list_ascii_of_string b).
  now rewrite E.
Qed.

Lemma append_nil_r_string (a : string) : a ++ EmptyString = a.
Proof. induction a as [ | x a IH]; cbn; [ reflexivity | now rewrite IH ]. Qed.

Lemma append_assoc (a b c : string) : (a ++ b) ++ c = a ++ (b ++ c).
Proof. induction a as [ | x a IH]; cbn; [ reflexivity | now rewrite IH ]. Qed.

Lemma to_int_not_nil (z : Z) :
  Z.to_int z <> Decimal.Pos Decimal.Nil /\
  Z.to_int z <> Decimal.Neg Decimal.Nil.
Proof.
  split; intros E; pose proof (DecimalZ.of_to z) as Hz; rewrite E in Hz;
    cbn in Hz; subst z; discriminate E.
Qed.

(** [str] tells integers apart. *)
Lemma of_Z_inj (a b : Z) : Str.of_Z a = Str.of_Z b -> a = b.
Proof.
  unfold Str.of_Z. intros E.
  apply (f_equal NilZero.int_of_string) in E.
  destruct (to_int_not_nil a) as [Ha1 Ha2].
  destruct (to_int_not_nil b) as [Hb1 Hb2].
  rewrite !NilZero.isi in E by assumption.
  inversion E as [E']. now apply DecimalZ.to_int_inj.
Qed.

(** X10: on a context with [name] and [scope], the temporary volume
    name of a run is the container name followed by a dash, the run id in
    decimal and [-tmpvol]; it is never the container name itself, and two
    runs have the same volume name only if they are the same run. *)
Theorem docker_temporary_volume_names `{Globals} (self : AppContext)
  (n sc : string) :
  name self = Some n -> scope self = Some sc ->
  exists container,
    docker_container_name self = Ok container /\
    (forall run_id,
       docker_temporary_volume_name self run_id
       = Ok (container ++ "-" ++ Str.of_Z run_id ++ "-tmpvol") /\
       docker_temporary_volume_name self run_id
       <> docker_container_name self) /\
    (forall a b,
       docker_temporary_volume_name self a
       = docker_temporary_volume_name self b -> a = b).
Proof.
  intros Hn Hs.
  set (container := APPNAME ++ "-" ++ n ++ "-" ++ sc).
  assert (Hc : docker_container_name self = Ok container).
  { unfold docker_container_name, read. now rewrite Hn, Hs. }
  assert (Hv : forall run_id,
            docker_temporary_volume_name self run_id
            = Ok (container ++ "-" ++ Str.of_Z run_id ++ "-tmpvol")).
  { intros run_id. unfold docker_temporary_volume_name, read.
    rewrite Hn, Hs. cbn [rbind]. f_equal. unfold container.
    now rewrite !append_assoc. }
  exists container. split; [ exact Hc | split ].
  - intros run_id. split; [ apply Hv | ].
    rewrite Hv, Hc. intros E. injection E as E.
    rewrite <- (append_nil_r_string container) in E at 2.
    apply append_cancel_l in E. discriminate E.
  - intros a b. rewrite !Hv. intros E. injection E as E.
    apply append_cancel_l in E. injection E as E.
    apply append_cancel_r in E. now apply of_Z_inj.
Qed.

(** X10 on the example context. *)
Lemma docker_temporary_volume_names_witness :
  @docker_temporary_volume_name Example.linux Example.loaded 7
  <> @docker_temporary_volume_name Example.linux Example.loaded 8.
Proof.
  destruct (@docker_temporary_volume_names Example.linux Example.loaded
              "node1" "user" eq_refl eq_refl) as (c & _ & _ & Hinj).
  intros E. apply Hinj in E. discriminate E.
Defined.

(** ** [config_exists], construction and discovery *)

Lemma lookup_available cm env cfg :
  lookup env (cm_environments cm) = Some cfg ->
  In env (available_environments cm) /\ manager_get cm env = Ok cfg.
Proof.
  intros El. split; [ | unfold manager_get; now rewrite El ].
  unfold available_environments.
  induction (cm_environments cm) as [ | [k v] l IH]; [ discriminate | ].
  cbn in *. destruct (String.eqb env k) eqn:Ek.
  - left. symmetry. now apply String.eqb_eq.
  - right. auto.
Qed.

(** What a true answer of [config_exists] was read from. *)
Lemma config_exists_true `{Globals} w t n env sf :
  ~ In env manager_members ->
  config_exists w t n env sf = Ok true ->
  exists cm cfg,
    FS.exists_ w (expected_config_file t n sf) = true /\
    from_file w (expected_config_file t n sf) = Ok cm /\
    lookup env (cm_environments cm) = Some cfg /\
    cfg <> [].
Proof.
  intros Hm. rewrite config_exists_unfold. intros E.
  destruct (FS.exists_ w _); [ | discriminate E ].
  destruct (from_file w _) as [cm | e]; [ | discriminate E ].
  cbn [negb rbind] in E. rewrite (manager_getattr_environment cm env Hm) in E.
  destruct (lookup env (cm_environments cm)) as [cfg | ] eqn:El;
    [ | discriminate E ].
  cbn [rbind truthy] in E. destruct cfg as [ | kv cfg]; [ discriminate E | ].
  exists cm, (kv :: cfg). repeat split; try reflexivity; try assumption.
  discriminate.
Qed.

(** X11: for an environment whose name is not a member of the manager
    class, [config_exists] and the construction of a context, which
    [AppContext(...)] runs while the class has no instance, agree.  With
    [LOGGING_ENABLED] off, a true answer means that the call with the same
    arguments returns a new context on that environment and leaves the
    process as it was; and whenever the call returns a new context whose
    settings are not empty, as they are when logging was set up,
    [config_exists] with the same arguments, in the process of before,
    answers true. *)
Theorem config_exists_and_construction `{Globals} (w : World)
  (instance_type instance_name env : string) (system_folders : bool) :
  ~ In env manager_members ->
  (LOGGING_ENABLED w = false ->
   config_exists w instance_type instance_name env system_folders = Ok true ->
   exists self,
     AppContext_call None w instance_type instance_name system_folders env
       = (Ok self, (w, Some self)) /\
     environment self = Ok env)
  /\
  (forall self w' registered',
     AppContext_call None w instance_type instance_name system_folders env
       = (Ok self, (w', registered')) ->
     exists cfg,
       config self = Some cfg /\
       (cfg <> [] ->
        config_exists w instance_type instance_name env system_folders
          = Ok true) /\
       (LOGGING_ENABLED w = true ->
        config_exists w instance_type instance_name env system_folders
          = Ok true)).
Proof.
  intros Hm. split.
  - intros Hoff E. apply (config_exists_true _ _ _ _ _ Hm) in E.
    destruct E as (cm & cfg & Ex & Ef & El & _).
    destruct (lookup_available _ _ _ El) as [Hin Hget].
    rewrite expected_config_file_of_folders in Ex, Ef.
    eexists. split; [ apply AppContext_call_first | ].
    + rewrite AppContext_new_steps. cbn zeta. rewrite Ex, Ef.
      unfold returning_self, bind. rewrite environment_setter_cases.
      change (config_manager
                (init_loaded instance_type instance_name system_folders cm))
        with (Some (Some cm)). cbv beta iota.
      apply existsb_eqb_In in Hin. rewrite Hin, Hget, Hoff.
      reflexivity.
    + reflexivity.
  - intros self w' registered' E.
    apply AppContext_call_returns in E. destruct E as [_ E].
    pose proof (AppContext_new_returns _ _ _ _ _ _ _ E) as R. cbn zeta in R.
    destruct R as (cm & cfg & self1 & Ex & Ef & Hin & Hget & Es & _).
    apply AppContext_new_object in E.
    destruct E as (cm' & cfg' & Ef' & Hget' & ->).
    rewrite Ef in Ef'. injection Ef' as <-.
    rewrite Hget in Hget'. injection Hget' as <-.
    exists cfg. split; [ reflexivity | ].
    assert (Hce : config_exists w instance_type instance_name env
                    system_folders = Ok (truthy (VDict cfg))).
    { rewrite config_exists_unfold, expected_config_file_of_folders, Ex, Ef.
      cbn [negb rbind]. rewrite (manager_getattr_environment cm env Hm).
      unfold manager_get in Hget.
      destruct (lookup env (cm_environments cm)); [ | discriminate ].
      now injection Hget as ->. }
    split.
    + intros Hne. rewrite Hce. destruct cfg; [ contradiction | reflexivity ].
    + intros Hon. rewrite Hce, Hon in *. f_equal.
      apply setup_logging_returns_run in Es.
      destruct Es as (r & Hrun & _).
      destruct Hrun as (Hcfg & Hsec & _).
      cbn in Hcfg. injection Hcfg as Hcfg. rewrite <- Hcfg in Hsec.
      unfold dict_subscript in Hsec.
      destruct cfg; [ discriminate Hsec | reflexivity ].
Qed.

(** X11 on the example process with logging off: [node1] has [test]. *)
Lemma config_exists_and_construction_witness :
  exists self,
    @AppContext_call Example.linux None (Example.world false) "node" "node1"
      false "test" = (Ok self, (Example.world false, Some self)) /\
    environment self = Ok "test".
Proof.
  assert (Hm : ~ In "test" manager_members).
  { cbn. intros [E | [E | [E | [E | [E | []]]]]]; discriminate. }
  destruct (@config_exists_and_construction Example.linux
              (Example.world false) "node" "node1" "test" false Hm)
    as [Hnew _].
  apply Hnew; reflexivity.
Defined.

Lemma prefix_of_chars_app (l1 l2 : list ascii) :
  prefix (Str.of_chars l1) (Str.of_chars (l1 ++ l2)) = true.
Proof.
  unfold Str.of_chars. induction l1 as [ | x l1 IH]; cbn.
  - now destruct (string_of_list_ascii l2).
  - destruct (ascii_dec x x); [ exact IH | contradiction ].
Qed.

Lemma endswith_append (n s : string) : Str.endswith (n ++ s) s = true.
Proof.
  unfold Str.endswith. rewrite chars_append, rev_app_distr.
  apply prefix_of_chars_app.
Qed.

(** Making a path absolute and joining a component commute. *)
Lemma abspath_join w d c :
  plain_component c -> FS.abspath w (d // c) = FS.abspath w d // c.
Proof.
  intros Hc. rewrite !(joinpath_component _ c Hc). destruct d as [a l].
  unfold FS.abspath, PathOps.joinpath_path. cbn [absolute parts].
  destruct a; cbn [absolute parts]; [ reflexivity | ].
  now rewrite app_assoc.
Qed.

Lemma find_file_In q fs c :
  FS.find_file q fs = Some c -> In q (map fst fs).
Proof.
  induction fs as [ | [p c'] fs IH]; cbn; [ discriminate | ].
  unfold path_eqb. destruct (path_eq_dec q p); [ now left | right; auto ].
Qed.

(** X12: in a process whose working directory is absolute, a
    configuration [config_exists] answers true for, under an instance
    name without a slash and an environment name that is no member of the
    manager class, is one [available_configurations] returns for the same
    instance type and scope: its manager is in the list of managers, and
    its file is not in the list of failures. *)
Theorem config_exists_is_available `{Globals} (w : World)
  (instance_type instance_name env : string) (system_folders : bool) :
  absolute (cwd w) = true ->
  ~ In "/"%char (Str.chars instance_name) ->
  ~ In env manager_members ->
  config_exists w instance_type instance_name env system_folders = Ok true ->
  exists cm configs failed,
    from_file w
      (expected_config_file instance_type instance_name system_folders)
      = Ok cm /\
    In env (available_environments cm) /\
    available_configurations w instance_type system_folders
      = Ok (configs, failed) /\
    In cm configs /\
    ~ In (FS.abspath w
            (expected_config_file instance_type instance_name system_folders))
         failed.
Proof.
  intros Hc Hslash Hm E.
  apply (config_exists_true _ _ _ _ _ Hm) in E.
  destruct E as (cm & cfg & _ & Ef & El & _).
  destruct (lookup_available _ _ _ El) as [Hin _].
  rewrite expected_config_file_of_folders in *.
  rewrite (instance_folders_config_any_name instance_type instance_name
             EmptyString system_folders) in *.
  set (d := config_folder
              (instance_folders instance_type EmptyString system_folders))
    in *.
  set (c := instance_name ++ ".yaml") in *.
  pose proof (yaml_component instance_name Hslash) as Hplain. fold c in Hplain.
  set (q := FS.abspath w (d // c)).
  assert (Hq : q = FS.abspath w d // c) by apply abspath_join, Hplain.
  destruct (yaml_file_parts (FS.abspath w d) instance_name Hslash)
    as (Hparent & Hname & _). fold c in Hparent, Hname. rewrite <- Hq in *.
  destruct (yaml_file_parts d instance_name Hslash) as (_ & Hname0 & _).
  fold c in Hname0.
  (* the file is among the candidates *)
  assert (Hfile : exists doc, FS.find_file q (files w) = Some (Yaml doc) /\
                              cm = {| cm_name := PathOps.stem (d // c);
                                      cm_environments := doc |}).
  { unfold from_file in Ef. fold q in Ef.
    destruct (FS.find_file q (files w)) as [[ | doc] | ];
      try discriminate Ef.
    - exists doc. split; [ reflexivity | ]. now injection Ef as <-.
    - destruct (FS.is_dir w (d // c)); discriminate Ef. }
  destruct Hfile as (doc & Hfind & Hcm).
  assert (Hcand : In q (FS.glob_yaml w d)).
  { unfold FS.glob_yaml. apply filter_In. split.
    - apply nodup_In, in_or_app. left. now apply (find_file_In _ _ _ Hfind).
    - unfold FS.matches_yaml. rewrite Hparent, path_eqb_refl, Hname.
      replace (Str.endswith c ".yaml") with true
        by (symmetry; apply endswith_append).
      rewrite Hq, (joinpath_component _ c Hplain). cbn [parts].
      now destruct (parts (FS.abspath w d)). }
  assert (Hload : from_file w q = Ok cm).
  { unfold from_file. unfold q at 1. rewrite (abspath_idem w _ Hc).
    fold q. rewrite Hfind, Hcm. do 2 f_equal.
    unfold PathOps.stem. now rewrite Hname, Hname0. }
  assert (Huse : usable w q = Some cm).
  { unfold usable. rewrite Hload. unfold is_empty.
    destruct (cm_environments cm); [ discriminate El | reflexivity ]. }
  exists cm. eexists. eexists. split; [ exact Ef | ]. split; [ exact Hin | ].
  unfold available_configurations. fold d.
  rewrite scan_configurations_total. cbn [app].
  split; [ reflexivity | split ].
  - apply in_flat_map. exists q. split; [ exact Hcand | ].
    rewrite Huse. now left.
  - intros Hfail. apply filter_In in Hfail. destruct Hfail as [_ Hfail].
    unfold is_usable in Hfail. now rewrite Huse in Hfail.
Qed.

(** X12 on the example process: [node1] with environment [prod]. *)
Lemma config_exists_is_available_witness :
  exists configs failed,
    @available_configurations Example.linux (Example.world true) "node" false
      = Ok (configs, failed) /\
    In Example.manager configs.
Proof.
  assert (Hm : ~ In "prod" manager_members).
  { cbn. intros [E | [E | [E | [E | [E | []]]]]]; discriminate. }
  assert (Hslash : ~ In "/"%char (Str.chars "node1")).
  { cbn. intros Hin. repeat destruct Hin as [Hin | Hin];
      try discriminate Hin. exact Hin. }
  destruct (@config_exists_is_available Example.linux (Example.world true)
              "node" "node1" "prod" false eq_refl Hslash Hm eq_refl)
    as (cm & configs & failed & Ef & _ & Ea & Hin & _).
  exists configs, failed. split; [ exact Ea | ].
  vm_compute in Ef. injection Ef as Ef. rewrite <- Ef in Hin. exact Hin.
Defined.

(** ** Where the log file lies *)

(** X13: on a context whose manager and settings are in place, an
    override of the log file name that is one plain component puts the
    log file into [log_dir] under that name; one that starts with a slash
    is taken as it is, and [log_dir] plays no part; one that is not a
    string makes [log_file] raise [TypeError]. *)
Theorem log_file_location (self : AppContext) (cm : ConfigurationManager)
  (cfg : Config) (d : Path) (v : PyVal) :
  config_manager self = Some (Some cm) ->
  config self = Some cfg ->
  log_dir self = Some d ->
  file_override cfg = Some v ->
  (forall f, v = VStr f -> plain_component f ->
     exists p, log_file self = Ok p /\
               PathOps.parent p = d /\ PathOps.name p = f) /\
  (forall f, v = VStr f -> prefix "/" f = true ->
     log_file self = Ok (PathOps.of_string f)) /\
  ((forall f, v <> VStr f) -> exists msg, log_file self = Raise (TypeError msg)).
Proof.
  intros Hcm Hcfg Hd Hover.
  assert (Hlog : log_file self = path_div d v).
  { unfold log_file, read. rewrite Hcm, Hcfg. cbn [rbind manager_truthy negb].
    unfold file_override in Hover.
    destruct (dict_get cfg "logging" VNone) as [ | | | | | m | ];
      try discriminate Hover.
    destruct (truthy (VDict m)); [ | discriminate Hover ].
    cbn [andb value_get rbind] in *.
    destruct (truthy (dict_get m "file" VNone)); [ | discriminate Hover ].
    injection Hover as Hv. now rewrite Hv, Hd. }
  rewrite Hlog. split; [ | split ].
  - intros f -> Hplain. cbn [path_div]. eexists. split; [ reflexivity | ].
    rewrite (joinpath_component d f Hplain).
    unfold PathOps.parent, PathOps.name. cbn [absolute parts].
    rewrite removelast_last, last_last. now destruct d.
  - intros f -> Habs. cbn [path_div]. unfold PathOps.joinpath.
    change (absolute (PathOps.of_string f)) with (prefix "/" f).
    now rewrite Habs.
  - intros Hns. destruct v; cbn [path_div]; eauto. now destruct (Hns s).
Qed.

(** X13 on the example context, environment [acc]. *)
Lemma log_file_location_witness :
  exists p,
    log_file (set_config (set__environment Example.loaded "acc") Example.acc)
      = Ok p /\
    PathOps.name p = "acceptance.log".
Proof.
  destruct (log_file_location
              (set_config (set__environment Example.loaded "acc") Example.acc)
              Example.manager Example.acc
              (PathOps.of_string "/home/alice/.cache/vantage6/log/node")
              (VStr "acceptance.log") eq_refl eq_refl eq_refl eq_refl)
    as (Hplain & _ & _).
  destruct (Hplain "acceptance.log" eq_refl) as (p & Hp & _ & Hn).
  - split; [ discriminate | split; [ discriminate | ] ].
    cbn. intros Hin. repeat destruct Hin as [Hin | Hin];
      try discriminate Hin. exact Hin.
  - exists p. now split.
Defined.

(** ** Settings that cannot be read *)

(** X14: [setup_logging] reads the settings before it touches anything.
    A configuration without a [logging] section ends it with
    [KeyError('logging')], a section without [level] or without [format]
    with the [KeyError] of that key, and a level that is no string with
    [AttributeError('upper')]; in each case [self], the file system and
    the root logger are exactly as before. *)
Theorem setup_logging_reads_first `{Globals} (w : World) (self : AppContext)
  (cfg : Config) :
  config self = Some cfg ->
  (lookup "logging" cfg = None ->
   setup_logging (w, self) = (Raise (KeyError "logging"), (w, self)))
  /\
  (forall d,
     lookup "logging" cfg = Some (VDict d) ->
     (lookup "level" d = None ->
      setup_logging (w, self) = (Raise (KeyError "level"), (w, self))) /\
     (forall v, lookup "level" d = Some v -> (forall s, v <> VStr s) ->
      setup_logging (w, self) = (Raise (AttributeError "upper"), (w, self))) /\
     (forall s level, lookup "level" d = Some (VStr s) ->
      logging_level (Str.upper s) = Ok level ->
      lookup "format" d = None ->
      setup_logging (w, self) = (Raise (KeyError "format"), (w, self)))).
Proof.
  intros Hcfg.
  unfold setup_logging.
  rewrite (bind_getattr_run "config" config _ w self cfg Hcfg). split.
  - intros Hl. apply bind_lift_Raise. unfold dict_subscript. now rewrite Hl.
  - intros d Hl.
    assert (Hsec : dict_subscript cfg "logging" = Ok (VDict d))
      by (unfold dict_subscript; now rewrite Hl).
    rewrite (bind_lift_Ok _ _ _ _ Hsec).
    split; [ | split ].
    + intros Hlv. apply bind_lift_Raise. cbn [subscript].
      unfold dict_subscript. now rewrite Hlv.
    + intros v Hlv Hns.
      assert (Hname : subscript (VDict d) "level" = Ok v)
        by (cbn [subscript]; unfold dict_subscript; now rewrite Hlv).
      rewrite (bind_lift_Ok _ _ _ _ Hname). apply bind_lift_Raise.
      destruct v; try reflexivity. now destruct (Hns s).
    + intros s level Hlv Hlevel Hfmt.
      assert (Hname : subscript (VDict d) "level" = Ok (VStr s))
        by (cbn [subscript]; unfold dict_subscript; now rewrite Hlv).
      rewrite (bind_lift_Ok _ _ _ _ Hname).
      rewrite (bind_lift_Ok _ _ _ (Str.upper s) eq_refl).
      rewrite (bind_lift_Ok _ _ _ _ Hlevel).
      apply bind_lift_Raise. cbn [subscript]. unfold dict_subscript.
      now rewrite Hfmt.
Qed.

(** X14 on the example process: settings without a [logging] section and
    a section without a level. *)
Lemma setup_logging_reads_first_witness :
  @setup_logging Example.linux
    (Example.world true, set_config Example.loaded [("port", VInt 5000)])
  = (Raise (KeyError "logging"),
     (Example.world true, set_config Example.loaded [("port", VInt 5000)]))
  /\
  @setup_logging Example.linux
    (Example.world true,
     set_config Example.loaded [("logging", VDict [("use_console", VBool true)])])
  = (Raise (KeyError "level"),
     (Example.world true,
      set_config Example.loaded
        [("logging", VDict [("use_console", VBool true)])])).
Proof.
  split.
  - apply (@setup_logging_reads_first Example.linux (Example.world true)
             (set_config Example.loaded [("port", VInt 5000)])
             [("port", VInt 5000)] eq_refl).
    reflexivity.
  - destruct (@setup_logging_reads_first Example.linux (Example.world true)
                (set_config Example.loaded
                   [("logging", VDict [("use_console", VBool true)])])
                [("logging", VDict [("use_console", VBool true)])] eq_refl)
      as [_ Hsec].
    destruct (Hsec [("use_console", VBool true)] eq_refl) as (Hlevel & _).
    apply Hlevel. reflexivity.
Defined.

(** ** The folders of an instance *)

Lemma joinpath_empty (p : Path) : p // EmptyString = p.
Proof.
  unfold PathOps.joinpath, PathOps.of_string. cbn.
  rewrite app_nil_r. now destruct p.
Qed.

(** X15: the config folder of an instance does not depend on its name:
    it is the folder [available_configurations] scans for the instance
    type and scope, called with the empty name.  For a name that is one
    plain component the data folder carries the name of the instance and
    lies in the data folder of the empty name; and with system folders
    the folder it lies in is the log folder, as the logs go below the site
    data root. *)
Theorem instance_folders_shape `{Globals} (instance_type instance_name : string)
  (system_folders : bool) :
  plain_component instance_name ->
  config_folder (instance_folders instance_type instance_name system_folders)
  = config_folder (instance_folders instance_type EmptyString system_folders)
  /\
  PathOps.name
    (data_folder (instance_folders instance_type instance_name system_folders))
  = instance_name
  /\
  PathOps.parent
    (data_folder (instance_folders instance_type instance_name system_folders))
  = data_folder (instance_folders instance_type EmptyString system_folders)
  /\
  PathOps.parent (data_folder (instance_folders instance_type instance_name true))
  = log_folder (instance_folders instance_type instance_name true).
Proof.
  intros Hn.
  assert (Hjoin : forall p,
            PathOps.name (p // instance_name) = instance_name /\
            PathOps.parent (p // instance_name) = p).
  { intros p. rewrite (joinpath_component p _ Hn).
    unfold PathOps.name, PathOps.parent. cbn [absolute parts].
    rewrite last_last, removelast_last. split; [ reflexivity | now destruct p ]. }
  split; [ now destruct system_folders | ].
  split; [ destruct system_folders; apply Hjoin | ].
  split.
  - destruct system_folders; cbn [instance_folders data_folder];
      rewrite joinpath_empty; apply Hjoin.
  - cbn [instance_folders data_folder log_folder]. apply Hjoin.
Qed.

(** X15 on the example host: the data folder of [node1] in system
    scope. *)
Lemma instance_folders_shape_witness :
  PathOps.parent (data_folder (@instance_folders Example.linux "node" "node1" true))
  = PathOps.of_string "/usr/local/share/vantage6/node"
  /\
  log_folder (@instance_folders Example.linux "node" "node1" true)
  = PathOps.of_string "/usr/local/share/vantage6/node".
Proof.
  destruct (@instance_folders_shape Example.linux "node" "node1" true)
    as (_ & _ & _ & Hlog).
  - split; [ discriminate | split; [ discriminate | ] ].
    cbn. intros Hin. repeat destruct Hin as [Hin | Hin];
      try discriminate Hin. exact Hin.
  - rewrite Hlog. split; reflexivity.
Defined.
